(** * bert_gan.py: the training driver of the adversarial BERT alignment

    A shallow embedding of [src/bert_gan.py]: the driver [main] and the
    class [AdvBert] with its constructor and its three phases
    ([train_adv], [refine], [pred]).

    The driver owns no numerics.  Everything numeric lives in the
    collaborators it imports ([src.utils], [src.load], [src.build_model],
    [src.bert_trainer], [src.bert_evaluator], [torch]); they are taken here
    as an interface ([Collaborators]) of typed operations on an abstract
    external state.  What the driver itself decides is modelled in full: the
    order of the calls, the counters of the batch loop, the float
    comparisons of the configuration checks and of the learning-rate floor,
    the division by the elapsed time in the statistics line, the attributes
    bound on [self], and the resolution of the bare names each function
    uses.  Every call that reads or changes the external state is recorded
    in a chronological trace, so that statements about order and counts are
    statements about that trace.

    Conventions of the model:
    - a method of the trainer, of the evaluator or of the logger returns;
      the exceptions modelled are the ones the driver itself raises
      ([assert], unbound names and attributes, [%] and [/] by zero, [int] of
      an infinite float, [os.path.isfile(None)]) and the ones the library
      raises on arguments the driver passes on from the command line
      ([RandomSampler] and [DataLoader]: [ValueError];
      [torch.device("cuda", index)]: [RuntimeError]);
    - the wall clock is read off the external state: time passes while a
      collaborator runs;
    - assertions are enabled (the interpreter does not run with [-O]);
    - a log line is recorded by its kind, not by its text;
    - [main] marks the call of each phase method in the trace ([EEnter]). *)

From Stdlib Require Import ZArith QArith Qabs Qround List String Lia Bool.
From stdpp Require Import base option list gmap strings.

Local Open Scope string_scope.
Local Open Scope list_scope.
Local Open Scope Z_scope.

(** ** Python floats, as far as comparisons go

    A float is a finite binary fraction, an infinity, or NaN.  The driver
    only ever compares floats ([<], [<=], [>]); comparison is exact, so a
    finite float is represented by its value in [Q].  Every comparison with
    NaN is false. *)
Module PyFloat.

Inductive t : Type :=
| Fin (q : Q)
| PInf
| NInf
| NaN.

Definition Qltb (p q : Q) : bool := negb (Qle_bool q p).

Definition ltb (x y : t) : bool :=
  match x, y with
  | NaN, _ | _, NaN => false
  | Fin p, Fin q => Qltb p q
  | NInf, NInf => false
  | NInf, _ => true
  | Fin _, PInf => true
  | _, _ => false
  end.

Definition leb (x y : t) : bool :=
  match x, y with
  | NaN, _ | _, NaN => false
  | Fin p, Fin q => Qle_bool p q
  | NInf, _ => true
  | _, PInf => true
  | _, _ => false
  end.

(** The order as a relation, stated independently of the boolean tests. *)
Definition lt (x y : t) : Prop :=
  match x, y with
  | Fin p, Fin q => (p < q)%Q
  | NInf, Fin _ | NInf, PInf | Fin _, PInf => True
  | _, _ => False
  end.

Definition le (x y : t) : Prop :=
  match x, y with
  | Fin p, Fin q => (p <= q)%Q
  | NInf, Fin _ | NInf, PInf | Fin _, PInf | NInf, NInf | PInf, PInf => True
  | _, _ => False
  end.

Definition of_Z (z : Z) : t := Fin (inject_Z z).

(** The literals the driver compares against: [0], [1] and [0.5]. *)
Definition zero : t := of_Z 0.
Definition one : t := of_Z 1.
Definition half : t := Fin (1 # 2).

End PyFloat.


(** ** The parsed command line ([args], an argparse namespace) *)
Module Args.

Record t : Type := mk {
  model_path : option string;
  dis_dropout : PyFloat.t;
  dis_input_dropout : PyFloat.t;
  dis_steps : Z;
  dis_lambda : PyFloat.t;
  dis_smooth : PyFloat.t;
  adversarial : bool;
  n_epochs : Z;
  batch_size : Z;
  min_lr : PyFloat.t;
  lr_shrink : PyFloat.t;
  n_refinement : Z;
  input_file : option string;
  vocab_file : string;
  bert_layer : Z;
  max_seq_length : Z;
  do_lower_case : bool;
  print_every_dis_steps : Z;
  local_rank : Z;
  no_cuda : bool;
  rm_stop_words : bool;
  pred : bool;
  src_file : option string;
  output_file : option string
}.

End Args.

(** ** Name resolution

    A bare name that a function never assigns is looked up in the module's
    globals and then in the builtins; a miss raises [NameError]. *)
Inductive pyobj : Type :=
| PyModule (name : string)
| PyImported (from_module name : string)
| PyDefined (name : string)
| PyBuiltin (name : string).

(** The bindings made by the module's top-level statements, in source order
    (lines 8-21, 23, 103), after the names every module has. *)
Definition module_globals : list (string * pyobj) :=
  [ ("__name__", PyBuiltin "__name__"); ("__doc__", PyBuiltin "__doc__");
    ("__file__", PyBuiltin "__file__"); ("__package__", PyBuiltin "__package__");
    ("__loader__", PyBuiltin "__loader__"); ("__spec__", PyBuiltin "__spec__");
    ("__builtins__", PyBuiltin "__builtins__"); ("__cached__", PyBuiltin "__cached__");
    ("os", PyModule "os");
    ("time", PyModule "time");
    ("json", PyModule "json");
    ("argparse", PyModule "argparse");
    ("OrderedDict", PyImported "collections" "OrderedDict");
    ("np", PyModule "numpy");
    ("torch", PyModule "torch");
    ("bool_flag", PyImported "src.utils" "bool_flag");
    ("initialize_exp", PyImported "src.utils" "initialize_exp");
    ("load", PyImported "src.load" "load");
    ("build_model", PyImported "src.build_model" "build_model");
    ("BertTrainer", PyImported "src.bert_trainer" "BertTrainer");
    ("BertEvaluator", PyImported "src.bert_evaluator" "BertEvaluator");
    ("DataLoader", PyImported "torch.utils.data" "DataLoader");
    ("RandomSampler", PyImported "torch.utils.data" "RandomSampler");
    ("SequentialSampler", PyImported "torch.utils.data" "SequentialSampler");
    ("main", PyDefined "main");
    ("AdvBert", PyDefined "AdvBert") ].

(** The names of Python 3's [builtins] module. *)
Definition builtins : list string :=
  [ "abs"; "aiter"; "all"; "anext"; "any"; "ascii"; "bin"; "bool"; "breakpoint";
    "bytearray"; "bytes"; "callable"; "chr"; "classmethod"; "compile";
    "complex"; "copyright"; "credits"; "delattr"; "dict"; "dir"; "divmod";
    "enumerate"; "eval"; "exec"; "exit"; "filter"; "float"; "format";
    "frozenset"; "getattr"; "globals"; "hasattr"; "hash"; "help"; "hex"; "id";
    "input"; "int"; "isinstance"; "issubclass"; "iter"; "len"; "license";
    "list"; "locals"; "map"; "max"; "memoryview"; "min"; "next"; "object";
    "oct"; "open"; "ord"; "pow"; "print"; "property"; "quit"; "range"; "repr";
    "reversed"; "round"; "set"; "setattr"; "slice"; "sorted"; "staticmethod";
    "str"; "sum"; "super"; "tuple"; "type"; "vars"; "zip"; "__import__";
    "__build_class__"; "__debug__";
    "None"; "True"; "False"; "Ellipsis"; "NotImplemented";
    "BaseException"; "BaseExceptionGroup"; "Exception"; "ExceptionGroup";
    "GeneratorExit"; "KeyboardInterrupt"; "SystemExit"; "StopIteration";
    "StopAsyncIteration"; "ArithmeticError"; "FloatingPointError";
    "OverflowError"; "ZeroDivisionError"; "AssertionError"; "AttributeError";
    "BufferError"; "EOFError"; "ImportError"; "ModuleNotFoundError";
    "LookupError"; "IndexError"; "KeyError"; "MemoryError"; "NameError";
    "UnboundLocalError"; "OSError"; "EnvironmentError"; "IOError";
    "BlockingIOError"; "ChildProcessError"; "ConnectionError";
    "BrokenPipeError"; "ConnectionAbortedError"; "ConnectionRefusedError";
    "ConnectionResetError"; "FileExistsError"; "FileNotFoundError";
    "InterruptedError"; "IsADirectoryError"; "NotADirectoryError";
    "PermissionError"; "ProcessLookupError"; "TimeoutError"; "ReferenceError";
    "RuntimeError"; "NotImplementedError"; "RecursionError"; "SyntaxError";
    "IndentationError"; "TabError"; "SystemError"; "TypeError"; "ValueError";
    "UnicodeError"; "UnicodeDecodeError"; "UnicodeEncodeError";
    "UnicodeTranslateError"; "Warning"; "BytesWarning"; "DeprecationWarning";
    "EncodingWarning"; "FutureWarning"; "ImportWarning";
    "PendingDeprecationWarning"; "ResourceWarning"; "RuntimeWarning";
    "SyntaxWarning"; "UnicodeWarning"; "UserWarning" ].

Fixpoint assoc {A : Type} (n : string) (l : list (string * A)) : option A :=
  match l with
  | [] => None
  | (k, v) :: l' => if String.eqb n k then Some v else assoc n l'
  end.

(** LOAD_GLOBAL: the module's dictionary first, then the builtins. *)
Definition lookup_global (n : string) : option pyobj :=
  match assoc n module_globals with
  | Some o => Some o
  | None => if existsb (String.eqb n) builtins then Some (PyBuiltin n) else None
  end.

(** What a bare global name evaluates to: an object when the name is bound,
    nothing at all (the empty type) when it is not. *)
Definition binding (n : string) : Type :=
  match lookup_global n with
  | Some _ => pyobj
  | None => Empty_set
  end.

(** The names assigned somewhere in the body of [AdvBert.pred] (its locals,
    the comprehension variable [x] included); every other bare name of the
    body is a global load. *)
Definition pred_locals : list string :=
  [ "self"; "unique_id_to_feature"; "pred_sampler"; "pred_dataloader"; "writer";
    "input_ids"; "input_mask"; "example_indices"; "all_encoder_layers"; "_";
    "src_encoder_layer"; "mapped_encoder_layer"; "b"; "example_index";
    "feature"; "unique_id"; "output_json"; "all_out_features"; "i"; "token";
    "all_layers"; "layer_output"; "layers"; "out_features"; "x" ].

(** The bare names the body of [AdvBert.pred] loads without assigning them,
    in the order of their first use (lines 228-267). *)
Definition pred_global_loads : list string :=
  [ "load_single"; "SequentialSampler"; "pred_dataset"; "DataLoader"; "open";
    "enumerate"; "features"; "int"; "collections"; "layer_index"; "round";
    "json" ].

Definition is_bound (n : string) : bool :=
  match lookup_global n with Some _ => true | None => false end.

Definition is_pred_local (n : string) : bool := existsb (String.eqb n) pred_locals.

Definition is_pred_global_load (n : string) : bool :=
  existsb (String.eqb n) pred_global_loads.

(** ** Exceptions, events and the objects bound on [self] *)
Inductive exn : Type :=
| AssertionError
| NameError (name : string)
| AttributeError (name : string)
| TypeError
| ZeroDivisionError
| OverflowError
| ValueError
| RuntimeError.

Inductive res (A : Type) : Type :=
| Ok (a : A)
| Raise (e : exn).
Arguments Ok {A} a.
Arguments Raise {A} e.

Inductive phase : Type := Adversarial | Refinement | Predict.

Inductive side : Type := Source | Target.

(** The messages passed to [self.logger.info]. *)
Inductive log_msg : Type :=
| LogAdversarialTraining
| LogStartingEpoch (n_epoch : Z)
| LogStats (n_dis_step : Z)
| LogEndOfEpoch (n_epoch : Z)
| LogLearningRateBreak
| LogProcrustesRefinement
| LogStartingRefinement (n_iter : Z)
| LogEndOfRefinement (n_iter : Z).

(** One entry of the trace per call that reads or changes the state
    outside the driver. *)
Inductive event : Type :=
| EEnter (p : phase)
| ELog (m : log_msg)
| EInitializeExp
| EIsFile (path : string) (found : bool)
| ELoad (path : string)
| EBuildModel
| EBertTrainer
| EBertEvaluator
| ECudaIsAvailable (yes : bool)
| EIterLoader (n_batches : nat)
| EGetBert (s : side)
| EDisStep
| EMappingStep (n_words : Z)
| ESentSim (rm_stop_words : bool) (score : PyFloat.t)
| EEvalDis
| ESaveBest (score : PyFloat.t)
| EUpdateLr (score : PyFloat.t)
| EReadLr (lr : PyFloat.t)
| EReloadBest
| EProcrustes
| ETime (t : Q).

Inductive device : Type :=
| Cuda (index : option Z)
| Cpu.

(** [stats = {'DIS_COSTS': []}]: the one list the dictionary holds. *)
Definition Stats : Type := list PyFloat.t.

(** ** The collaborators

    The functions and classes the driver imports, as operations on an
    external state [Ext] that holds whatever they own (model parameters,
    optimizers, the best checkpoint, the random generator, the file system,
    the clock).  A collaborator that receives the mutable [stats] dictionary
    returns its new contents.  The three constructors of [torch] that
    receive a value of the command line as it is may refuse it; what is
    known of their refusals is stated with them. *)
Class Collaborators : Type := {
  Ext : Type;
  Dataset : Type;
  Features : Type;
  Batch : Type;
  Tensor : Type;
  (* src.utils.initialize_exp(args) *)
  initialize_exp : Args.t -> Ext -> Ext;
  (* os.path.isfile(path) *)
  isfile : string -> Ext -> bool;
  (* src.load.load(vocab_file, input_file, batch_size=, do_lower_case=,
     max_seq_length=, local_rank=) *)
  load : string -> string -> Z -> bool -> Z -> Z -> Ext -> (Dataset * Features) * Ext;
  (* src.build_model.build_model(args, True) *)
  build_model : Args.t -> Ext -> Ext;
  (* BertTrainer(bert_model, dataset, mapping, discriminator, args) *)
  BertTrainer : Dataset -> Args.t -> Ext -> Ext;
  (* BertEvaluator(trainer, features) *)
  BertEvaluator : Features -> Ext -> Ext;
  (* torch.cuda.is_available() *)
  cuda_is_available : Ext -> bool;
  (* torch.device("cuda", index): the index the device holds, or nothing
     when the call raises RuntimeError, as it does on an index below -1 *)
  device_index : Z -> option Z;
  device_index_negative : forall index : Z, index < -1 -> device_index index = None;
  (* RandomSampler(dataset): whether the call returns; ValueError otherwise *)
  sampler_accepts : Dataset -> bool;
  (* DataLoader(dataset, sampler=, batch_size=): whether the call returns;
     ValueError otherwise, as on a batch size that is not positive *)
  loader_accepts : Dataset -> Z -> bool;
  loader_batch_size :
    forall (d : Dataset) (batch_size : Z),
      batch_size <= 0 -> loader_accepts d batch_size = false;
  (* time.time() *)
  time_time : Ext -> Q;
  (* one pass over the DataLoader built from dataset and batch_size: the
     batches of one epoch, in the order drawn *)
  iter_loader : Dataset -> Z -> Ext -> list Batch * Ext;
  (* trainer.get_bert(input_ids, input_mask, bert_layer=) on one side of a batch *)
  get_bert : side -> Batch -> Z -> Ext -> Tensor * Ext;
  (* trainer.dis_step(src_bert, tgt_bert, stats) *)
  dis_step : Tensor -> Tensor -> Stats -> Ext -> Stats * Ext;
  (* trainer.mapping_step(stats) *)
  mapping_step : Stats -> Ext -> (Z * Stats) * Ext;
  (* evaluator.sent_sim(rm_stop_words=) *)
  sent_sim : bool -> Ext -> PyFloat.t * Ext;
  (* evaluator.eval_dis() *)
  eval_dis : Ext -> Ext;
  (* trainer.save_best(score) *)
  save_best : PyFloat.t -> Ext -> Ext;
  (* trainer.update_lr(score) *)
  update_lr : PyFloat.t -> Ext -> Ext;
  (* trainer.map_optimizer.param_groups[0]['lr'] *)
  map_lr : Ext -> PyFloat.t;
  (* trainer.reload_best() *)
  reload_best : Ext -> Ext;
  (* trainer.procrustes() *)
  procrustes : Ext -> Ext
}.

(** The magnitude from which a value rounds to an infinite float: half an
    ulp above the largest finite double. *)
Definition float_limit : Q := inject_Z (2 ^ 1024 - 2 ^ 970).

Definition too_large (q : Q) : bool := Qle_bool float_limit (Qabs q).

(** [int(x)] of a finite float: truncation toward zero. *)
Definition py_int (q : Q) : Z := if Qle_bool 0 q then Qfloor q else Qceiling q.

Section State.
Context `{Collaborators}.

(** The objects stored in attributes of [self]. *)
Inductive value : Type :=
| VArgs (a : Args.t)
| VLogger
| VDataset (d : Dataset)
| VFeatures (f : Features)
| VBertModel
| VMapping
| VDiscriminator
| VTrainer
| VEvaluator
| VDevice (d : device).

(** The state of a run: the collaborators' state, the attribute dictionary
    of the one [AdvBert] object, and the trace so far (oldest first). *)
Record World : Type := mkWorld {
  ext : Ext;
  attrs : gmap string value;
  trace : list event
}.

(** ** The monad of the driver: state, and exceptions that keep the state *)
Definition M (A : Type) : Type := World -> res A * World.

#[global] Instance M_ret : MRet M :=
  fun A (a : A) w => (Ok a, w).

#[global] Instance M_bind : MBind M :=
  fun A B (k : A -> M B) (m : M A) w =>
    match m w with
    | (Ok a, w') => k a w'
    | (Raise e, w') => (Raise e, w')
    end.

End State.

Section Driver.
Context `{Collaborators}.

Definition raise {A : Type} (e : exn) : M A := fun w => (Raise e, w).

Definition emit (e : event) : M unit :=
  fun w => (Ok tt, mkWorld (ext w) (attrs w) (trace w ++ [e])).

(** A collaborator call that returns a result. *)
Definition call {A : Type} (f : Ext -> A * Ext) (ev : A -> event) : M A :=
  fun w => let r := f (ext w) in
           (Ok (fst r), mkWorld (snd r) (attrs w) (trace w ++ [ev (fst r)])).

(** A collaborator call made for its effect. *)
Definition call_ (f : Ext -> Ext) (ev : event) : M unit :=
  fun w => (Ok tt, mkWorld (f (ext w)) (attrs w) (trace w ++ [ev])).

(** A read of the collaborators' state. *)
Definition observe {A : Type} (f : Ext -> A) (ev : A -> event) : M A :=
  fun w => (Ok (f (ext w)), mkWorld (ext w) (attrs w) (trace w ++ [ev (f (ext w))])).

(** [self.name] and [self.name = v]. *)
Definition getattr (name : string) : M value :=
  fun w => match attrs w !! name with
           | Some v => (Ok v, w)
           | None => (Raise (AttributeError name), w)
           end.

Definition setattr (name : string) (v : value) : M unit :=
  fun w => (Ok tt, mkWorld (ext w) (<[name := v]> (attrs w)) (trace w)).

(** A bare global name. *)
Definition load_global (n : string) : M (binding n) :=
  match lookup_global n as o
        return M (match o with Some _ => pyobj | None => Empty_set end) with
  | Some o => mret o
  | None => raise (NameError n)
  end.

Definition py_assert (b : bool) : M unit :=
  if b then mret tt else raise AssertionError.

(** [a % b] on integers: the sign follows the divisor, as [Z.modulo]. *)
Definition py_mod (a b : Z) : M Z :=
  if b =? 0 then raise ZeroDivisionError else mret (a mod b).

(** A library constructor that refuses its arguments with [e]. *)
Definition py_library (accepted : bool) (e : exn) : M unit :=
  if accepted then mret tt else raise e.

(** [int(n / dt)] for an int [n] and a float [dt] (line 171).  The int is
    converted to a float first, which raises [OverflowError] when it is too
    large; a zero divisor raises [ZeroDivisionError]; a quotient too large
    for a float is infinite, and [int] refuses it with [OverflowError].
    Otherwise [int] truncates the quotient toward zero.  The quotient is
    taken exactly: rounding only matters within one part in 2^52 of
    [float_limit]. *)
Definition py_rate (n : Z) (dt : Q) : M Z :=
  if too_large (inject_Z n) then raise OverflowError
  else if Qeq_bool dt 0 then raise ZeroDivisionError
  else if too_large (inject_Z n / dt) then raise OverflowError
  else mret (py_int (inject_Z n / dt)).

(** [range(n)] *)
Definition py_range (n : Z) : list Z := Z.of_nat <$> seq 0 (Z.to_nat n).

(** [for x in xs: s = body(x, s)] *)
Fixpoint for_each {A S : Type} (xs : list A) (body : A -> S -> M S) (s : S) : M S :=
  match xs with
  | [] => mret s
  | x :: xs' => s' ← body x s; for_each xs' body s'
  end.

(** [for x in xs: body(x)], where the body may [break]. *)
Inductive control : Type := Next | Break.

Fixpoint for_break {A : Type} (xs : list A) (body : A -> M control) : M unit :=
  match xs with
  | [] => mret tt
  | x :: xs' => c ← body x;
                match c with
                | Break => mret tt
                | Next => for_break xs' body
                end
  end.

(** Typed reads of the attributes of [self]. *)
Definition self_args : M Args.t :=
  v ← getattr "args";
  match v with VArgs a => mret a | _ => raise (AttributeError "args") end.

Definition self_logger_info (m : log_msg) : M unit :=
  v ← getattr "logger";
  match v with VLogger => emit (ELog m) | _ => raise (AttributeError "info") end.

Definition self_dataset : M Dataset :=
  v ← getattr "dataset";
  match v with VDataset d => mret d | _ => raise (AttributeError "dataset") end.

Definition self_features : M Features :=
  v ← getattr "features";
  match v with VFeatures f => mret f | _ => raise (AttributeError "features") end.

(** [self.trainer.method(...)] and [self.evaluator.method(...)] *)
Definition self_trainer (method : string) : M unit :=
  v ← getattr "trainer";
  match v with VTrainer => mret tt | _ => raise (AttributeError method) end.

Definition self_evaluator (method : string) : M unit :=
  v ← getattr "evaluator";
  match v with VEvaluator => mret tt | _ => raise (AttributeError method) end.

End Driver.

Definition is_not_none {A : Type} (o : option A) : bool :=
  match o with Some _ => true | None => false end.

(** The local variables of the batch loop of [train_adv]. *)
Record loop_state : Type := mkLoop {
  n_words_proc : Z;
  n_dis_step : Z;
  n_map_step : Z;
  stats : Stats;
  tic : Q
}.

(** ** class AdvBert *)
Module AdvBert.
Section Methods.
Context `{Collaborators}.

(** [os.path.isfile(path)]; the call raises [TypeError] on [None]. *)
Definition os_path_isfile (path : option string) : M bool :=
  _ ← load_global "os";
  match path with
  | None => raise TypeError
  | Some p => observe (isfile p) (EIsFile p)
  end.

(** [torch.device("cuda", index)] *)
Definition torch_device_cuda (index : Z) : M device :=
  match device_index index with
  | Some i => mret (Cuda (Some i))
  | None => raise RuntimeError
  end.

(** [torch.device(...)] of lines 128-131. *)
Definition select_device (a : Args.t) : M device :=
  if (Args.local_rank a =? -1) || Args.no_cuda a then
    _ ← load_global "torch";
    _ ← load_global "torch";
    cuda ← observe cuda_is_available ECudaIsAvailable;
    mret (if cuda && negb (Args.no_cuda a) then Cuda None else Cpu)
  else
    _ ← load_global "torch";
    torch_device_cuda (Args.local_rank a).

(** The assertions of [__init__], lines 108-115. *)
Definition check_parameters : M unit :=
  a ← self_args;
  py_assert (PyFloat.leb PyFloat.zero (Args.dis_dropout a)
             && PyFloat.ltb (Args.dis_dropout a) PyFloat.one);;
  a ← self_args;
  py_assert (PyFloat.leb PyFloat.zero (Args.dis_input_dropout a)
             && PyFloat.ltb (Args.dis_input_dropout a) PyFloat.one);;
  a ← self_args;
  py_assert (PyFloat.leb PyFloat.zero (Args.dis_smooth a)
             && PyFloat.ltb (Args.dis_smooth a) PyFloat.half);;
  a ← self_args;
  py_assert (PyFloat.ltb PyFloat.zero (Args.dis_lambda a)
             && (0 <? Args.dis_steps a));;
  a ← self_args;
  py_assert (PyFloat.ltb PyFloat.zero (Args.lr_shrink a)
             && PyFloat.leb (Args.lr_shrink a) PyFloat.one);;
  a ← self_args;
  if Args.adversarial a then
    a ← self_args; py_assert (is_not_none (Args.model_path a))
  else mret tt.

(** The construction of the collaborators, lines 116-131. *)
Definition build_components : M unit :=
  _ ← load_global "initialize_exp";
  a ← self_args;
  call_ (initialize_exp a) EInitializeExp;;
  setattr "logger" VLogger;;
  a ← self_args;
  (if Args.adversarial a then
     a ← self_args;
     found ← os_path_isfile (Args.input_file a);
     py_assert found;;
     _ ← load_global "load";
     a ← self_args;
     match Args.input_file a with
     | None => raise TypeError
     | Some input =>
         r ← call (load (Args.vocab_file a) input (Args.batch_size a)
                        (Args.do_lower_case a) (Args.max_seq_length a)
                        (Args.local_rank a))
                  (fun _ => ELoad input);
         setattr "dataset" (VDataset (fst r));;
         setattr "features" (VFeatures (snd r))
     end
   else mret tt);;
  _ ← load_global "build_model";
  a ← self_args;
  call_ (build_model a) EBuildModel;;
  setattr "bert_model" VBertModel;;
  setattr "mapping" VMapping;;
  setattr "discriminator" VDiscriminator;;
  _ ← load_global "BertTrainer";
  getattr "bert_model";;
  d ← self_dataset;
  getattr "mapping";;
  getattr "discriminator";;
  a ← self_args;
  call_ (BertTrainer d a) EBertTrainer;;
  setattr "trainer" VTrainer;;
  _ ← load_global "BertEvaluator";
  getattr "trainer";;
  f ← self_features;
  call_ (BertEvaluator f) EBertEvaluator;;
  setattr "evaluator" VEvaluator;;
  a ← self_args;
  dev ← select_device a;
  setattr "device" (VDevice dev).

(** [AdvBert.__init__(self, args)], lines 105-131. *)
Definition __init__ (args : Args.t) : M unit :=
  setattr "args" (VArgs args);;
  check_parameters;;
  build_components.

(** [AdvBert(args)]: a fresh object, then [__init__] on it. *)
Definition new (args : Args.t) : M unit :=
  fun w => __init__ args (mkWorld (ext w) ∅ (trace w)).

(** The body of the batch loop of [train_adv], lines 152-178.  Of the
    statistics message the model keeps what can stop the run, the rate
    [int(n_words_proc / (time.time() - tic))], and the reset that follows
    the message; its text is not part of the model. *)
Definition train_batch (batch : Batch) (s : loop_state) : M loop_state :=
  getattr "device";; getattr "device";; getattr "device";; getattr "device";;
  self_trainer "get_bert";;
  a ← self_args;
  src_bert ← call (get_bert Source batch (Args.bert_layer a)) (fun _ => EGetBert Source);
  self_trainer "get_bert";;
  a ← self_args;
  tgt_bert ← call (get_bert Target batch (Args.bert_layer a)) (fun _ => EGetBert Target);
  self_trainer "dis_step";;
  stats1 ← call (dis_step src_bert tgt_bert (stats s)) (fun _ => EDisStep);
  let n_dis_step' := n_dis_step s + 1 in
  a ← self_args;
  r ← py_mod n_dis_step' (Args.dis_steps a);
  s1 ← (if r =? 0 then
          self_trainer "mapping_step";;
          m ← call (mapping_step stats1) (fun m => EMappingStep (fst m));
          mret (mkLoop (n_words_proc s + fst m) n_dis_step' (n_map_step s + 1) (snd m)
                       (tic s))
        else mret (mkLoop (n_words_proc s) n_dis_step' (n_map_step s) stats1 (tic s)));
  (* log stats *)
  a ← self_args;
  r ← py_mod n_dis_step' (Args.print_every_dis_steps a);
  if r =? 0 then
    _ ← load_global "len";
    _ ← load_global "np";
    _ ← load_global "int";
    _ ← load_global "time";
    now ← observe time_time ETime;
    _ ← py_rate (n_words_proc s1) (now - tic s1);
    self_logger_info (LogStats n_dis_step');;
    (* reset *)
    _ ← load_global "time";
    tic' ← observe time_time ETime;
    mret (mkLoop 0 n_dis_step' (n_map_step s1) [] tic')
  else mret s1.

(** One iteration of the epoch loop of [train_adv], lines 145-194.
    [train_loader] is the pair the [DataLoader] was built from; iterating
    it draws the epoch's batches. *)
Definition train_epoch (train_loader : Dataset * Z) (n_epoch : Z) : M control :=
  self_logger_info (LogStartingEpoch n_epoch);;
  _ ← load_global "time";
  tic ← observe time_time ETime;
  batches ← call (iter_loader (fst train_loader) (snd train_loader))
                 (fun bs => EIterLoader (length bs));
  _ ← for_each batches train_batch (mkLoop 0 0 0 [] tic);
  (* embeddings / discriminator evaluation *)
  _ ← load_global "OrderedDict";
  self_evaluator "sent_sim";;
  a ← self_args;
  score ← call (sent_sim (Args.rm_stop_words a)) (ESentSim (Args.rm_stop_words a));
  self_evaluator "eval_dis";;
  call_ eval_dis EEvalDis;;
  (* save best model / end of epoch *)
  self_trainer "save_best";;
  call_ (save_best score) (ESaveBest score);;
  self_logger_info (LogEndOfEpoch n_epoch);;
  (* update the learning rate (stop if too small) *)
  self_trainer "update_lr";;
  call_ (update_lr score) (EUpdateLr score);;
  self_trainer "map_optimizer";;
  lr ← observe map_lr EReadLr;
  a ← self_args;
  if PyFloat.ltb lr (Args.min_lr a) then
    self_logger_info LogLearningRateBreak;;
    mret Break
  else mret Next.

(** [AdvBert.train_adv(self)], lines 133-194. *)
Definition train_adv : M unit :=
  self_logger_info LogAdversarialTraining;;
  _ ← load_global "RandomSampler";
  d ← self_dataset;
  py_library (sampler_accepts d) ValueError;;
  _ ← load_global "DataLoader";
  d ← self_dataset;
  a ← self_args;
  py_library (loader_accepts d (Args.batch_size a)) ValueError;;
  let train_loader := (d, Args.batch_size a) in
  (* training loop *)
  _ ← load_global "range";
  a ← self_args;
  for_break (py_range (Args.n_epochs a)) (train_epoch train_loader).

(** One iteration of the loop of [refine], lines 208-218. *)
Definition refine_iteration (n_iter : Z) (_ : unit) : M unit :=
  self_logger_info (LogStartingRefinement n_iter);;
  (* apply the Procrustes solution *)
  self_trainer "procrustes";;
  call_ procrustes EProcrustes;;
  self_evaluator "sent_sim";;
  a ← self_args;
  score ← call (sent_sim (Args.rm_stop_words a)) (ESentSim (Args.rm_stop_words a));
  self_trainer "save_best";;
  call_ (save_best score) (ESaveBest score);;
  self_logger_info (LogEndOfRefinement n_iter).

(** [AdvBert.refine(self)], lines 196-218. *)
Definition refine : M unit :=
  (* Get the best mapping according to VALIDATION_METRIC *)
  self_logger_info LogProcrustesRefinement;;
  self_trainer "reload_best";;
  call_ reload_best EReloadBest;;
  (* training loop *)
  _ ← load_global "range";
  a ← self_args;
  for_each (py_range (Args.n_refinement a)) refine_iteration tt.

(** [AdvBert.pred(self)], lines 220-267.  In the call of line 228 the callee
    [load_single] is evaluated before its arguments.  The name is not
    assigned in [pred], so it is a global load, and [binding "load_single"]
    computes to the empty type: no execution continues past it, and the
    statements of lines 229-267 (the data loader, the output file, the loop
    that builds and writes the records) have no behaviour to model.  The
    bare names they load are listed in [pred_global_loads]. *)
Definition pred : M unit :=
  a ← self_args;
  py_assert (is_not_none (Args.src_file a));;
  a ← self_args;
  py_assert (is_not_none (Args.output_file a));;
  self_trainer "reload_best";;
  call_ reload_best EReloadBest;;
  load_single ← load_global "load_single";
  match (load_single : Empty_set) return M unit with end.

End Methods.
End AdvBert.

(** ** The driver, lines 92-101 ([args] is what the parser returned) *)
Section Main.
Context `{Collaborators}.

Definition main (args : Args.t) : M unit :=
  _ ← load_global "AdvBert";
  AdvBert.new args;;
  (if Args.adversarial args then
     emit (EEnter Adversarial);; AdvBert.train_adv
   else mret tt);;
  (if 0 <? Args.n_refinement args then
     emit (EEnter Refinement);; AdvBert.refine
   else mret tt);;
  (if Args.pred args then
     emit (EEnter Predict);; AdvBert.pred
   else mret tt).

End Main.

(** ** The command line, lines 25-90

    What [parser.parse_args()] makes of the options given: an option that
    takes a value is absent or given with a value of its type; a
    [store_true] flag is absent or present.  The options the driver itself
    never reads ([--seed], [--verbose], the languages, the sizes and
    optimizers of the networks, ...) only travel inside [args] to the
    collaborators and are left out, except the two other required ones, for
    which the parser still stops when they are missing. *)
Module Cmdline.

Record t : Type := mk {
  model_path : option string;
  dis_dropout : option PyFloat.t;
  dis_input_dropout : option PyFloat.t;
  dis_steps : option Z;
  dis_lambda : option PyFloat.t;
  dis_smooth : option PyFloat.t;
  adversarial : option bool;
  n_epochs : option Z;
  batch_size : option Z;
  min_lr : option PyFloat.t;
  lr_shrink : option PyFloat.t;
  n_refinement : option Z;
  input_file : option string;
  vocab_file : option string;
  bert_config_file : option string;
  init_checkpoint : option string;
  bert_layer : option Z;
  max_seq_length : option Z;
  do_lower_case : bool;
  print_every_dis_steps : option Z;
  local_rank : option Z;
  no_cuda : bool;
  rm_stop_words : bool;
  pred : option bool;
  src_file : option string;
  output_file : option string
}.

End Cmdline.

(** [add_argument("--x", type=T, default=d)]: the value given, else [d]. *)
Definition with_default {A : Type} (d : A) (given : option A) : A :=
  match given with Some v => v | None => d end.

(** [add_argument("--x", default=d, action='store_true')]: [True] when the
    flag is present, else [d]. *)
Definition store_true (d : bool) (present : bool) : bool :=
  if present then true else d.

(** The float literals [0.1] and [1e-6] of the defaults, as the doubles
    they denote. *)
Definition float_0_1 : PyFloat.t :=
  PyFloat.Fin (3602879701896397 # 36028797018963968).

Definition float_1e_6 : PyFloat.t :=
  PyFloat.Fin (4722366482869645 # 4722366482869645213696).

(** [parser.parse_args()]: [None] when a required option is missing (the
    parser prints its usage and exits). *)
Definition parse_args (c : Cmdline.t) : option Args.t :=
  match Cmdline.vocab_file c, Cmdline.bert_config_file c, Cmdline.init_checkpoint c with
  | Some vocab, Some _, Some _ =>
      Some {|
        Args.model_path := Cmdline.model_path c;
        Args.dis_dropout := with_default PyFloat.zero (Cmdline.dis_dropout c);
        Args.dis_input_dropout := with_default float_0_1 (Cmdline.dis_input_dropout c);
        Args.dis_steps := with_default 5 (Cmdline.dis_steps c);
        Args.dis_lambda := with_default (PyFloat.of_Z 1) (Cmdline.dis_lambda c);
        Args.dis_smooth := with_default float_0_1 (Cmdline.dis_smooth c);
        Args.adversarial := with_default true (Cmdline.adversarial c);
        Args.n_epochs := with_default 10 (Cmdline.n_epochs c);
        Args.batch_size := with_default 32 (Cmdline.batch_size c);
        Args.min_lr := with_default float_1e_6 (Cmdline.min_lr c);
        Args.lr_shrink := with_default PyFloat.half (Cmdline.lr_shrink c);
        Args.n_refinement := with_default 0 (Cmdline.n_refinement c);
        Args.input_file := Cmdline.input_file c;
        Args.vocab_file := vocab;
        Args.bert_layer := with_default (-1) (Cmdline.bert_layer c);
        Args.max_seq_length := with_default 128 (Cmdline.max_seq_length c);
        Args.do_lower_case := store_true true (Cmdline.do_lower_case c);
        Args.print_every_dis_steps := with_default 100 (Cmdline.print_every_dis_steps c);
        Args.local_rank := with_default (-1) (Cmdline.local_rank c);
        Args.no_cuda := store_true false (Cmdline.no_cuda c);
        Args.rm_stop_words := store_true false (Cmdline.rm_stop_words c);
        Args.pred := with_default false (Cmdline.pred c);
        Args.src_file := Cmdline.src_file c;
        Args.output_file := Cmdline.output_file c
      |}
  | _, _, _ => None
  end.

(** [main()], lines 23-101: the parser, then the driver; [None] when the
    parser exits. *)
Definition main_cli `{Collaborators} (c : Cmdline.t) (w : World) : option (res unit * World) :=
  match parse_args c with
  | Some args => Some (main args w)
  | None => None
  end.

(** ** A small instance of the collaborators, to run the driver on

    The external state is the learning rate of the mapping optimizer, the
    number of checkpoints saved, the clock, and the time one encoder pass
    takes.  The corpus ["corpus.txt"] exists and holds three batches; every
    [update_lr] halves the learning rate; every validation returns the
    current learning rate as its score; the device indices are 0 to 7. *)
Module Toy.

Record ext : Type := mkExt { lr : Q; saved : nat; now : Q; pass_time : Q }.

#[export] Instance collaborators : Collaborators := {|
  Ext := ext;
  Dataset := nat;
  Features := unit;
  Batch := nat;
  Tensor := unit;
  initialize_exp := fun _ x => x;
  isfile := fun p _ => String.eqb p "corpus.txt";
  load := fun _ _ _ _ _ _ x => ((3%nat, tt), x);
  build_model := fun _ x => x;
  BertTrainer := fun _ _ x => x;
  BertEvaluator := fun _ x => x;
  cuda_is_available := fun _ => false;
  device_index := fun i => if i <? 0 then None else if i <? 8 then Some i else None;
  device_index_negative := fun i Hi =>
    @eq_ind_r bool true
      (fun b : bool => (if b then None else if i <? 8 then Some i else None) = None)
      eq_refl (i <? 0) (proj2 (Z.ltb_lt i 0) (Z.lt_trans i (-1) 0 Hi eq_refl));
  sampler_accepts := fun d => negb (Nat.eqb d 0);
  loader_accepts := fun _ batch_size => 0 <? batch_size;
  loader_batch_size := fun _ batch_size Hb => proj2 (Z.ltb_ge 0 batch_size) Hb;
  time_time := now;
  iter_loader := fun d _ x => (seq 0 d, x);
  get_bert := fun _ _ _ x =>
    (tt, mkExt (lr x) (saved x) (now x + pass_time x) (pass_time x));
  dis_step := fun _ _ st x => (PyFloat.one :: st, x);
  mapping_step := fun st x => ((64, st), x);
  sent_sim := fun _ x => (PyFloat.Fin (lr x), x);
  eval_dis := fun x => x;
  save_best := fun _ x => mkExt (lr x) (S (saved x)) (now x) (pass_time x);
  update_lr := fun _ x => mkExt (lr x * (1 # 2)) (saved x) (now x) (pass_time x);
  map_lr := fun x => PyFloat.Fin (lr x);
  reload_best := fun x => x;
  procrustes := fun x => x
|}.

(** The parser's defaults, with two discriminator steps per mapping step,
    two epochs, one refinement iteration and every path given. *)
Definition args : Args.t := {|
  Args.model_path := Some "dumped";
  Args.dis_dropout := PyFloat.zero;
  Args.dis_input_dropout := PyFloat.Fin (1 # 10);
  Args.dis_steps := 2;
  Args.dis_lambda := PyFloat.one;
  Args.dis_smooth := PyFloat.Fin (1 # 10);
  Args.adversarial := true;
  Args.n_epochs := 2;
  Args.batch_size := 32;
  Args.min_lr := PyFloat.Fin (1 # 1000000);
  Args.lr_shrink := PyFloat.half;
  Args.n_refinement := 1;
  Args.input_file := Some "corpus.txt";
  Args.vocab_file := "vocab.txt";
  Args.bert_layer := -1;
  Args.max_seq_length := 128;
  Args.do_lower_case := true;
  Args.print_every_dis_steps := 100;
  Args.local_rank := -1;
  Args.no_cuda := false;
  Args.rm_stop_words := false;
  Args.pred := true;
  Args.src_file := Some "source.txt";
  Args.output_file := Some "mapped.jsonl"
|}.

Definition world0 : World := mkWorld (mkExt (1 # 10) 0 0 1) ∅ [].

(** The same state with a clock that stands still. *)
Definition stalled : World := mkWorld (mkExt (1 # 10) 0 0 0) ∅ [].

(** The dataset [load] returns: three batches. *)
Definition corpus : @Dataset collaborators := 3%nat.

(** The world after [AdvBert(args)]. *)
Definition world1 : World := (AdvBert.new args world0).2.

(** The same command line without the adversarial phase, with a
    discriminator dropout of [1], and without an output file. *)
Definition with_adversarial (b : bool) (a : Args.t) : Args.t :=
  Args.mk (Args.model_path a) (Args.dis_dropout a) (Args.dis_input_dropout a)
    (Args.dis_steps a) (Args.dis_lambda a) (Args.dis_smooth a) b (Args.n_epochs a)
    (Args.batch_size a) (Args.min_lr a) (Args.lr_shrink a) (Args.n_refinement a)
    (Args.input_file a) (Args.vocab_file a) (Args.bert_layer a)
    (Args.max_seq_length a) (Args.do_lower_case a) (Args.print_every_dis_steps a)
    (Args.local_rank a) (Args.no_cuda a) (Args.rm_stop_words a) (Args.pred a)
    (Args.src_file a) (Args.output_file a).

Definition with_dis_dropout (x : PyFloat.t) (a : Args.t) : Args.t :=
  Args.mk (Args.model_path a) x (Args.dis_input_dropout a)
    (Args.dis_steps a) (Args.dis_lambda a) (Args.dis_smooth a) (Args.adversarial a)
    (Args.n_epochs a) (Args.batch_size a) (Args.min_lr a) (Args.lr_shrink a)
    (Args.n_refinement a) (Args.input_file a) (Args.vocab_file a) (Args.bert_layer a)
    (Args.max_seq_length a) (Args.do_lower_case a) (Args.print_every_dis_steps a)
    (Args.local_rank a) (Args.no_cuda a) (Args.rm_stop_words a) (Args.pred a)
    (Args.src_file a) (Args.output_file a).

Definition with_min_lr (x : PyFloat.t) (a : Args.t) : Args.t :=
  Args.mk (Args.model_path a) (Args.dis_dropout a) (Args.dis_input_dropout a)
    (Args.dis_steps a) (Args.dis_lambda a) (Args.dis_smooth a) (Args.adversarial a)
    (Args.n_epochs a) (Args.batch_size a) x (Args.lr_shrink a)
    (Args.n_refinement a) (Args.input_file a) (Args.vocab_file a) (Args.bert_layer a)
    (Args.max_seq_length a) (Args.do_lower_case a) (Args.print_every_dis_steps a)
    (Args.local_rank a) (Args.no_cuda a) (Args.rm_stop_words a) (Args.pred a)
    (Args.src_file a) (Args.output_file a).

Definition with_print_every (n : Z) (a : Args.t) : Args.t :=
  Args.mk (Args.model_path a) (Args.dis_dropout a) (Args.dis_input_dropout a)
    (Args.dis_steps a) (Args.dis_lambda a) (Args.dis_smooth a) (Args.adversarial a)
    (Args.n_epochs a) (Args.batch_size a) (Args.min_lr a) (Args.lr_shrink a)
    (Args.n_refinement a) (Args.input_file a) (Args.vocab_file a) (Args.bert_layer a)
    (Args.max_seq_length a) (Args.do_lower_case a) n
    (Args.local_rank a) (Args.no_cuda a) (Args.rm_stop_words a) (Args.pred a)
    (Args.src_file a) (Args.output_file a).

Definition with_files (input output : option string) (a : Args.t) : Args.t :=
  Args.mk (Args.model_path a) (Args.dis_dropout a) (Args.dis_input_dropout a)
    (Args.dis_steps a) (Args.dis_lambda a) (Args.dis_smooth a) (Args.adversarial a)
    (Args.n_epochs a) (Args.batch_size a) (Args.min_lr a) (Args.lr_shrink a)
    (Args.n_refinement a) input (Args.vocab_file a) (Args.bert_layer a)
    (Args.max_seq_length a) (Args.do_lower_case a) (Args.print_every_dis_steps a)
    (Args.local_rank a) (Args.no_cuda a) (Args.rm_stop_words a) (Args.pred a)
    (Args.src_file a) output.

(** The same command line with [--pred] set to [b]. *)
Definition with_pred (b : bool) (a : Args.t) : Args.t :=
  Args.mk (Args.model_path a) (Args.dis_dropout a) (Args.dis_input_dropout a)
    (Args.dis_steps a) (Args.dis_lambda a) (Args.dis_smooth a) (Args.adversarial a)
    (Args.n_epochs a) (Args.batch_size a) (Args.min_lr a) (Args.lr_shrink a)
    (Args.n_refinement a) (Args.input_file a) (Args.vocab_file a) (Args.bert_layer a)
    (Args.max_seq_length a) (Args.do_lower_case a) (Args.print_every_dis_steps a)
    (Args.local_rank a) (Args.no_cuda a) (Args.rm_stop_words a) b
    (Args.src_file a) (Args.output_file a).

(** The same command line with other numbers of epochs and of refinement
    iterations. *)
Definition with_counts (n_epochs n_refinement : Z) (a : Args.t) : Args.t :=
  Args.mk (Args.model_path a) (Args.dis_dropout a) (Args.dis_input_dropout a)
    (Args.dis_steps a) (Args.dis_lambda a) (Args.dis_smooth a) (Args.adversarial a)
    n_epochs (Args.batch_size a) (Args.min_lr a) (Args.lr_shrink a)
    n_refinement (Args.input_file a) (Args.vocab_file a) (Args.bert_layer a)
    (Args.max_seq_length a) (Args.do_lower_case a) (Args.print_every_dis_steps a)
    (Args.local_rank a) (Args.no_cuda a) (Args.rm_stop_words a) (Args.pred a)
    (Args.src_file a) (Args.output_file a).

(** The same command line with another batch size, and with another rank. *)
Definition with_batch_size (batch_size : Z) (a : Args.t) : Args.t :=
  Args.mk (Args.model_path a) (Args.dis_dropout a) (Args.dis_input_dropout a)
    (Args.dis_steps a) (Args.dis_lambda a) (Args.dis_smooth a) (Args.adversarial a)
    (Args.n_epochs a) batch_size (Args.min_lr a) (Args.lr_shrink a)
    (Args.n_refinement a) (Args.input_file a) (Args.vocab_file a) (Args.bert_layer a)
    (Args.max_seq_length a) (Args.do_lower_case a) (Args.print_every_dis_steps a)
    (Args.local_rank a) (Args.no_cuda a) (Args.rm_stop_words a) (Args.pred a)
    (Args.src_file a) (Args.output_file a).

Definition with_local_rank (local_rank : Z) (a : Args.t) : Args.t :=
  Args.mk (Args.model_path a) (Args.dis_dropout a) (Args.dis_input_dropout a)
    (Args.dis_steps a) (Args.dis_lambda a) (Args.dis_smooth a) (Args.adversarial a)
    (Args.n_epochs a) (Args.batch_size a) (Args.min_lr a) (Args.lr_shrink a)
    (Args.n_refinement a) (Args.input_file a) (Args.vocab_file a) (Args.bert_layer a)
    (Args.max_seq_length a) (Args.do_lower_case a) (Args.print_every_dis_steps a)
    local_rank (Args.no_cuda a) (Args.rm_stop_words a) (Args.pred a)
    (Args.src_file a) (Args.output_file a).

(** The options given on a command line: the three required ones, and
    optionally the experiment directory and the corpus. *)
Definition cmdline (model_path input_file : option string) : Cmdline.t := {|
  Cmdline.model_path := model_path;
  Cmdline.dis_dropout := None;
  Cmdline.dis_input_dropout := None;
  Cmdline.dis_steps := None;
  Cmdline.dis_lambda := None;
  Cmdline.dis_smooth := None;
  Cmdline.adversarial := None;
  Cmdline.n_epochs := None;
  Cmdline.batch_size := None;
  Cmdline.min_lr := None;
  Cmdline.lr_shrink := None;
  Cmdline.n_refinement := None;
  Cmdline.input_file := input_file;
  Cmdline.vocab_file := Some "vocab.txt";
  Cmdline.bert_config_file := Some "bert_config.json";
  Cmdline.init_checkpoint := Some "bert_model.ckpt";
  Cmdline.bert_layer := None;
  Cmdline.max_seq_length := None;
  Cmdline.do_lower_case := false;
  Cmdline.print_every_dis_steps := None;
  Cmdline.local_rank := None;
  Cmdline.no_cuda := false;
  Cmdline.rm_stop_words := false;
  Cmdline.pred := None;
  Cmdline.src_file := None;
  Cmdline.output_file := None
|}.

End Toy.

(** ** Vocabulary of the statements *)

(** The two optimisation steps, as the trace shows them. *)
Inductive step_kind : Type := DisStep | MapStep.

Definition step_of (e : event) : option step_kind :=
  match e with
  | EDisStep => Some DisStep
  | EMappingStep _ => Some MapStep
  | _ => None
  end.

Definition steps_of (evs : list event) : list step_kind := omap step_of evs.

(** The cadence of one epoch over [n] batches: a discriminator step per
    batch, the [i]-th of them followed by a mapping step exactly when [K]
    divides [i] (counting from one). *)
Definition schedule_from (K : Z) (first : nat) (n : nat) : list step_kind :=
  flat_map (fun i => DisStep :: (if Z.of_nat i mod K =? 0 then [MapStep] else []))
           (seq first n).

Definition schedule (K : Z) (n : nat) : list step_kind := schedule_from K 1 n.

Fixpoint count_steps (k : step_kind) (l : list step_kind) : nat :=
  match l with
  | [] => 0
  | x :: l' =>
      (match k, x with DisStep, DisStep | MapStep, MapStep => 1 | _, _ => 0 end
       + count_steps k l')%nat
  end.

(** What the batch loop may leave in the trace. *)
Definition in_batch (e : event) : Prop :=
  match e with
  | EGetBert _ | EDisStep | EMappingStep _ | ELog (LogStats _) | ETime _ => True
  | _ => False
  end.

(** What stops a batch at its statistics line: [%] or [/] by zero, or a
    rate too large for a float. *)
Definition stats_exn (e : exn) : Prop := e = ZeroDivisionError \/ e = OverflowError.

(** Batch [m] of an epoch reaches the statistics line: its number is a
    multiple of the period [P], or [P] is zero and the test itself divides
    by zero. *)
Definition stats_due (P : Z) (m : nat) : Prop := P = 0 \/ Z.of_nat m mod P = 0.

(** The phases a trace enters, in order. *)
Definition phase_of (e : event) : option phase :=
  match e with EEnter p => Some p | _ => None end.

Definition phases_of (evs : list event) : list phase := omap phase_of evs.

(** The learning rates a trace reads, in order. *)
Definition reading_of (e : event) : option PyFloat.t :=
  match e with EReadLr lr => Some lr | _ => None end.

Definition readings_of (evs : list event) : list PyFloat.t := omap reading_of evs.

(** The validation scores a trace computes, and the scores it hands to
    [save_best] and to [update_lr]. *)
Definition scores_of (evs : list event) : list PyFloat.t :=
  omap (fun e => match e with ESentSim _ s => Some s | _ => None end) evs.

Definition saved_of (evs : list event) : list PyFloat.t :=
  omap (fun e => match e with ESaveBest s => Some s | _ => None end) evs.

Definition updated_of (evs : list event) : list PyFloat.t :=
  omap (fun e => match e with EUpdateLr s => Some s | _ => None end) evs.

(** The events of one refinement iteration with index [i] and score [s]. *)
Definition iteration_events (rm : bool) (it : Z * PyFloat.t) : list event :=
  [ELog (LogStartingRefinement it.1); EProcrustes; ESentSim rm it.2;
   ESaveBest it.2; ELog (LogEndOfRefinement it.1)].

(** The epochs a trace starts, and the number of batches each one drew. *)
Definition start_of (e : event) : option Z :=
  match e with ELog (LogStartingEpoch n) => Some n | _ => None end.

Definition starts_of (evs : list event) : list Z := omap start_of evs.

Definition size_of (e : event) : option nat :=
  match e with EIterLoader n => Some n | _ => None end.

Definition sizes_of (evs : list event) : list nat := omap size_of evs.

(** The events of a run: what it appended to the trace it started from. *)
Definition events_since `{Collaborators} (w w' : World) : list event :=
  drop (length (trace w)) (trace w').

(** The phases the flags ask for. *)
Definition plan (a : Args.t) : list phase :=
  (if Args.adversarial a then [Adversarial] else [])
  ++ (if 0 <? Args.n_refinement a then [Refinement] else [])
  ++ (if Args.pred a then [Predict] else []).

(** An object on which [__init__] ran to its end with dataset [d]. *)
Definition constructed `{Collaborators} (a : Args.t) (d : Dataset) (w : World) : Prop :=
  attrs w !! "args" = Some (VArgs a)
  /\ attrs w !! "logger" = Some VLogger
  /\ attrs w !! "dataset" = Some (VDataset d)
  /\ attrs w !! "trainer" = Some VTrainer
  /\ attrs w !! "evaluator" = Some VEvaluator
  /\ is_not_none (attrs w !! "device") = true.

(** The ranges [__init__] documents by its assertions. *)
Definition in_unit_interval (x : PyFloat.t) : Prop :=
  PyFloat.le PyFloat.zero x /\ PyFloat.lt x PyFloat.one.

Definition config_out_of_range (a : Args.t) : Prop :=
  ~ in_unit_interval (Args.dis_dropout a)
  \/ ~ in_unit_interval (Args.dis_input_dropout a)
  \/ ~ (PyFloat.le PyFloat.zero (Args.dis_smooth a)
        /\ PyFloat.lt (Args.dis_smooth a) PyFloat.half)
  \/ PyFloat.le (Args.dis_lambda a) PyFloat.zero
  \/ Args.dis_steps a <= 0
  \/ ~ (PyFloat.lt PyFloat.zero (Args.lr_shrink a)
        /\ PyFloat.le (Args.lr_shrink a) PyFloat.one).

(** What the constructor may have done before it looks for the corpus. *)
Definition before_build (e : event) : Prop :=
  match e with
  | EInitializeExp | EIsFile _ false => True
  | _ => False
  end.

(** The conjunction of the assertions of [check_parameters]. *)
Definition params_ok (a : Args.t) : bool :=
  (PyFloat.leb PyFloat.zero (Args.dis_dropout a)
   && PyFloat.ltb (Args.dis_dropout a) PyFloat.one)
  && (PyFloat.leb PyFloat.zero (Args.dis_input_dropout a)
      && PyFloat.ltb (Args.dis_input_dropout a) PyFloat.one)
  && (PyFloat.leb PyFloat.zero (Args.dis_smooth a)
      && PyFloat.ltb (Args.dis_smooth a) PyFloat.half)
  && (PyFloat.ltb PyFloat.zero (Args.dis_lambda a) && (0 <? Args.dis_steps a))
  && (PyFloat.ltb PyFloat.zero (Args.lr_shrink a)
      && PyFloat.leb (Args.lr_shrink a) PyFloat.one)
  && (if Args.adversarial a then is_not_none (Args.model_path a) else true).

(** The events of one epoch that runs to its end. *)
Definition epoch_events (rm : bool) (n_epoch : Z) (tic : Q) (n_batches : nat)
    (batch_evs : list event) (score lr : PyFloat.t) (tail : list event) : list event :=
  [ELog (LogStartingEpoch n_epoch); ETime tic; EIterLoader n_batches]
  ++ batch_evs
  ++ [ESentSim rm score; EEvalDis; ESaveBest score;
      ELog (LogEndOfEpoch n_epoch); EUpdateLr score; EReadLr lr]
  ++ tail.

(** What every run of a computation leaves in the trace, whatever the
    world: it only appends events, enters no phase, and raises only
    exceptions of the kind [Q]. *)
Definition not_name_error (e : exn) : Prop :=
  match e with NameError _ => False | _ => True end.

Definition footprint `{Collaborators} (Q : exn -> Prop) {A : Type} (m : M A) : Prop :=
  forall w, exists evs,
    trace (m w).2 = trace w ++ evs
    /\ phases_of evs = []
    /\ forall e, (m w).1 = Raise e -> Q e.

(** A computation that enters the phases [pl], in order, unless it raises
    on the way; [NameError "load_single"] is the one exception that tells
    where it was raised, since only [pred] can raise it. *)
Definition staged `{Collaborators} (pl : list phase) (m : M unit) : Prop :=
  forall w, exists evs,
    trace (m w).2 = trace w ++ evs
    /\ phases_of evs `prefix_of` pl
    /\ ((m w).1 = Ok tt \/ (m w).1 = Raise (NameError "load_single") ->
        phases_of evs = pl).

Definition raises_elsewhere `{Collaborators} (m : M unit) : Prop :=
  forall w e, (m w).1 = Raise e -> e <> NameError "load_single".

Definition run_phase `{Collaborators} (flag : bool) (p : phase) (m : M unit) : M unit :=
  if flag then emit (EEnter p);; m else mret tt.

(** *** Vocabulary of the further properties *)

(** The batch numbers of the statistics lines a trace logs, and the number
    of times it reloads the best checkpoint. *)
Definition stat_logs_of (evs : list event) : list Z :=
  omap (fun e => match e with ELog (LogStats n) => Some n | _ => None end) evs.

Definition reloads_of (evs : list event) : nat :=
  length (omap (fun e => match e with EReloadBest => Some tt | _ => None end) evs).

(** The batch numbers [first..first+n-1], and [1..n], that [p] divides. *)
Definition multiples_from (p : Z) (first n : nat) : list Z :=
  filter (fun i => i mod p = 0) (Z.of_nat <$> seq first n).

Definition multiples_upto (p : Z) (n : nat) : list Z := multiples_from p 1 n.

(** The number of Procrustes solves in a trace. *)
Definition solves_of (evs : list event) : nat :=
  length (omap (fun e => match e with EProcrustes => Some tt | _ => None end) evs).

(** Every parameter in the range its assertion states. *)
Definition config_in_range (a : Args.t) : Prop :=
  in_unit_interval (Args.dis_dropout a)
  /\ in_unit_interval (Args.dis_input_dropout a)
  /\ (PyFloat.le PyFloat.zero (Args.dis_smooth a)
      /\ PyFloat.lt (Args.dis_smooth a) PyFloat.half)
  /\ PyFloat.lt PyFloat.zero (Args.dis_lambda a)
  /\ 0 < Args.dis_steps a
  /\ (PyFloat.lt PyFloat.zero (Args.lr_shrink a)
      /\ PyFloat.le (Args.lr_shrink a) PyFloat.one)
  /\ (Args.adversarial a = true -> Args.model_path a <> None).

(** Whether [torch.device] accepts what lines 128-131 pass to it: the
    strings ["cuda"] and ["cpu"] always, an index if the library takes it. *)
Definition device_accepted `{Collaborators} (a : Args.t) : bool :=
  (Args.local_rank a =? -1) || Args.no_cuda a
  || is_not_none (device_index (Args.local_rank a)).

(** How a call of the constructor ends, read off the configuration, the
    file system and the library's answer on the device index. *)
Definition constructor_outcome `{Collaborators} (a : Args.t) (w : World) : res unit :=
  if negb (params_ok a) then Raise AssertionError
  else if negb (Args.adversarial a) then Raise (AttributeError "dataset")
  else match Args.input_file a with
       | None => Raise TypeError
       | Some p =>
           if isfile p (initialize_exp a (ext w)) then
             if device_accepted a then Ok tt else Raise RuntimeError
           else Raise AssertionError
       end.

(** A computation that, on every world, leaves the attributes of [self] as
    they are and raises only exceptions of the kind [Q]. *)
Definition keeps_self `{Collaborators} (Q : exn -> Prop) {A : Type} (m : M A) : Prop :=
  forall w, attrs (m w).2 = attrs w /\ forall e, (m w).1 = Raise e -> Q e.

Definition train_adv_exn (e : exn) : Prop :=
  match e with
  | AttributeError _ | ZeroDivisionError | OverflowError | ValueError => True
  | _ => False
  end.

Definition refine_exn (e : exn) : Prop :=
  match e with AttributeError _ => True | _ => False end.

Definition pred_exn (e : exn) : Prop :=
  match e with
  | AssertionError | AttributeError _ => True
  | NameError n => n = "load_single"
  | _ => False
  end.

(** No statistics line falls due in an epoch over [d]: no batch number the
    loader can reach is a multiple of [P] (and [P] is not zero, unless the
    loader draws no batch at all). *)
Definition no_line_due `{Collaborators} (d : Dataset) (batch_size P : Z) : Prop :=
  forall (x : Ext) (m : nat),
    (1 <= m <= length (iter_loader d batch_size x).1)%nat -> ~ stats_due P m.

(** A command line that leaves every parameter the constructor checks by
    an assertion on a number at its default. *)
Definition keeps_checked_defaults (c : Cmdline.t) : Prop :=
  Cmdline.dis_dropout c = None
  /\ Cmdline.dis_input_dropout c = None
  /\ Cmdline.dis_smooth c = None
  /\ Cmdline.dis_lambda c = None
  /\ Cmdline.dis_steps c = None
  /\ Cmdline.lr_shrink c = None.

(** * Properties *)

(** ** The boolean comparisons decide the order *)
Lemma Qltb_lt (p q : Q) : PyFloat.Qltb p q = true <-> (p < q)%Q.
Proof.
  unfold PyFloat.Qltb. rewrite negb_true_iff.
  split.
  - intros Hb. apply Qnot_le_lt. intros Hle.
    apply Qle_bool_iff in Hle. congruence.
  - intros Hlt. destruct (Qle_bool q p) eqn:E; [|reflexivity].
    apply Qle_bool_iff in E. exfalso. exact (Qlt_not_le _ _ Hlt E).
Qed.

Lemma ltb_lt (x y : PyFloat.t) : PyFloat.ltb x y = true <-> PyFloat.lt x y.
Proof.
  destruct x, y; simpl; try apply Qltb_lt; split; intros; try done.
Qed.

Lemma leb_le (x y : PyFloat.t) : PyFloat.leb x y = true <-> PyFloat.le x y.
Proof.
  destruct x, y; simpl; try apply Qle_bool_iff; split; intros; try done.
Qed.

Lemma ltb_false_of_le (x y : PyFloat.t) : PyFloat.le y x -> PyFloat.ltb x y = false.
Proof.
  intros Hle. destruct (PyFloat.ltb x y) eqn:E; [|reflexivity].
  apply ltb_lt in E. destruct x, y; simpl in *; try done.
  exfalso. exact (Qlt_not_le _ _ E Hle).
Qed.

(** ** Name resolution in [pred] *)
Lemma load_global_bound `{Collaborators} (n : string) (B : Type)
    (k : M B) (w : World) :
  is_bound n = true -> (load_global n ≫= fun _ => k) w = k w.
Proof.
  unfold is_bound, load_global, binding.
  destruct (lookup_global n); [reflexivity | discriminate].
Qed.

Section Properties.
Context `{Collaborators}.

(** ** Running the primitives *)
Lemma bind_mret {A B : Type} (a : A) (k : A -> M B) (w : World) :
  (mret a ≫= k) w = k a w.
Proof. reflexivity. Qed.

Lemma bind_raise {A B : Type} (e : exn) (k : A -> M B) (w : World) :
  (raise e ≫= k) w = (Raise e, w).
Proof. reflexivity. Qed.

Lemma bind_assoc {A B C : Type} (m : M A) (f : A -> M B) (g : B -> M C) (w : World) :
  ((m ≫= f) ≫= g) w = (m ≫= fun a => f a ≫= g) w.
Proof.
  unfold mbind, M_bind. destruct (m w) as [[a|e] w']; reflexivity.
Qed.

Lemma bind_ok {A B : Type} (m : M A) (k : A -> M B) (w w' : World) (a : A) :
  m w = (Ok a, w') -> (m ≫= k) w = k a w'.
Proof. intros Hm. unfold mbind, M_bind. rewrite Hm. reflexivity. Qed.

Lemma bind_fail {A B : Type} (m : M A) (k : A -> M B) (w w' : World) (e : exn) :
  m w = (Raise e, w') -> (m ≫= k) w = (Raise e, w').
Proof. intros Hm. unfold mbind, M_bind. rewrite Hm. reflexivity. Qed.

Lemma bind_emit {B : Type} (e : event) (k : unit -> M B) (w : World) :
  (emit e ≫= k) w = k tt (mkWorld (ext w) (attrs w) (trace w ++ [e])).
Proof. reflexivity. Qed.

Lemma bind_call {A B : Type} (f : Ext -> A * Ext) (ev : A -> event)
    (k : A -> M B) (w : World) :
  (call f ev ≫= k) w
  = k (f (ext w)).1 (mkWorld (f (ext w)).2 (attrs w) (trace w ++ [ev (f (ext w)).1])).
Proof. reflexivity. Qed.

Lemma bind_call_ {B : Type} (f : Ext -> Ext) (ev : event) (k : unit -> M B) (w : World) :
  (call_ f ev ≫= k) w = k tt (mkWorld (f (ext w)) (attrs w) (trace w ++ [ev])).
Proof. reflexivity. Qed.

Lemma bind_observe {A B : Type} (f : Ext -> A) (ev : A -> event)
    (k : A -> M B) (w : World) :
  (observe f ev ≫= k) w
  = k (f (ext w)) (mkWorld (ext w) (attrs w) (trace w ++ [ev (f (ext w))])).
Proof. reflexivity. Qed.

Lemma bind_setattr {B : Type} (n : string) (v : value) (k : unit -> M B) (w : World) :
  (setattr n v ≫= k) w = k tt (mkWorld (ext w) (<[n := v]> (attrs w)) (trace w)).
Proof. reflexivity. Qed.

Lemma bind_getattr {B : Type} (n : string) (v : value) (k : value -> M B) (w : World) :
  attrs w !! n = Some v -> (getattr n ≫= k) w = k v w.
Proof. intros Hv. unfold mbind, M_bind, getattr. rewrite Hv. reflexivity. Qed.

Lemma bind_getattr_unbound {B : Type} (n : string) (k : value -> M B) (w : World) :
  attrs w !! n = None -> (getattr n ≫= k) w = (Raise (AttributeError n), w).
Proof. intros Hv. unfold mbind, M_bind, getattr. rewrite Hv. reflexivity. Qed.

Lemma bind_self_args {B : Type} (a : Args.t) (k : Args.t -> M B) (w : World) :
  attrs w !! "args" = Some (VArgs a) -> (self_args ≫= k) w = k a w.
Proof.
  intros Hv. unfold self_args. rewrite bind_assoc, (bind_getattr _ _ _ _ Hv).
  reflexivity.
Qed.

Lemma bind_self_logger_info {B : Type} (m : log_msg) (k : unit -> M B) (w : World) :
  attrs w !! "logger" = Some VLogger ->
  (self_logger_info m ≫= k) w = k tt (mkWorld (ext w) (attrs w) (trace w ++ [ELog m])).
Proof.
  intros Hv. unfold self_logger_info. rewrite bind_assoc, (bind_getattr _ _ _ _ Hv).
  reflexivity.
Qed.

Lemma run_self_logger_info (m : log_msg) (w : World) :
  attrs w !! "logger" = Some VLogger ->
  self_logger_info m w = (Ok tt, mkWorld (ext w) (attrs w) (trace w ++ [ELog m])).
Proof.
  intros Hv. unfold self_logger_info. rewrite (bind_getattr _ _ _ _ Hv).
  reflexivity.
Qed.

Lemma bind_self_dataset {B : Type} (d : Dataset) (k : Dataset -> M B) (w : World) :
  attrs w !! "dataset" = Some (VDataset d) -> (self_dataset ≫= k) w = k d w.
Proof.
  intros Hv. unfold self_dataset. rewrite bind_assoc, (bind_getattr _ _ _ _ Hv).
  reflexivity.
Qed.

Lemma bind_self_dataset_unbound {B : Type} (k : Dataset -> M B) (w : World) :
  attrs w !! "dataset" = None ->
  (self_dataset ≫= k) w = (Raise (AttributeError "dataset"), w).
Proof.
  intros Hv. unfold self_dataset. rewrite bind_assoc, (bind_getattr_unbound _ _ _ Hv).
  reflexivity.
Qed.

Lemma bind_self_features {B : Type} (f : Features) (k : Features -> M B) (w : World) :
  attrs w !! "features" = Some (VFeatures f) -> (self_features ≫= k) w = k f w.
Proof.
  intros Hv. unfold self_features. rewrite bind_assoc, (bind_getattr _ _ _ _ Hv).
  reflexivity.
Qed.

Lemma bind_self_trainer {B : Type} (method : string) (k : unit -> M B) (w : World) :
  attrs w !! "trainer" = Some VTrainer -> (self_trainer method ≫= k) w = k tt w.
Proof.
  intros Hv. unfold self_trainer. rewrite bind_assoc, (bind_getattr _ _ _ _ Hv).
  reflexivity.
Qed.

Lemma bind_self_evaluator {B : Type} (method : string) (k : unit -> M B) (w : World) :
  attrs w !! "evaluator" = Some VEvaluator -> (self_evaluator method ≫= k) w = k tt w.
Proof.
  intros Hv. unfold self_evaluator. rewrite bind_assoc, (bind_getattr _ _ _ _ Hv).
  reflexivity.
Qed.

Lemma bind_py_assert {B : Type} (b : bool) (k : unit -> M B) (w : World) :
  (py_assert b ≫= k) w = if b then k tt w else (Raise AssertionError, w).
Proof. destruct b; reflexivity. Qed.

Lemma load_global_unbound {B : Type} (n : string) (k : binding n -> M B) (w : World) :
  lookup_global n = None ->
  (load_global n ≫= k) w = (Raise (NameError n), w).
Proof.
  unfold load_global, binding in *. revert k.
  destruct (lookup_global n); intros k Hn; [discriminate | reflexivity].
Qed.

Lemma bind_py_mod_zero {B : Type} (a : Z) (k : Z -> M B) (w : World) :
  (py_mod a 0 ≫= k) w = (Raise ZeroDivisionError, w).
Proof. reflexivity. Qed.

Lemma bind_py_mod {B : Type} (a b : Z) (k : Z -> M B) (w : World) :
  b <> 0 -> (py_mod a b ≫= k) w = k (a mod b) w.
Proof.
  intros Hb. unfold py_mod. destruct (Z.eqb_spec b 0); [done | reflexivity].
Qed.

(** ** The batch loop *)
Ltac attr_bound := first [eassumption | reflexivity].

Ltac run_step :=
  first
    [ rewrite bind_assoc
    | rewrite bind_mret
    | rewrite bind_emit
    | rewrite bind_call
    | rewrite bind_call_
    | rewrite bind_observe
    | rewrite bind_setattr
    | erewrite bind_self_args by attr_bound
    | rewrite bind_self_logger_info by attr_bound
    | erewrite bind_self_dataset by attr_bound
    | erewrite bind_self_features by attr_bound
    | rewrite bind_self_trainer by attr_bound
    | rewrite bind_self_evaluator by attr_bound
    | erewrite bind_getattr by attr_bound
    | rewrite load_global_bound by reflexivity
    | rewrite bind_py_mod by (simpl; lia) ];
  cbv beta iota; cbn [ext attrs trace].

Lemma bind_py_library {B : Type} (accepted : bool) (e : exn) (k : unit -> M B) (w : World) :
  (py_library accepted e ≫= k) w = if accepted then k tt w else (Raise e, w).
Proof. destruct accepted; reflexivity. Qed.

(** The rate of the statistics line: it is computed unless the clock stands
    where [tic] was read or a float overflows. *)
Lemma py_rate_cases (n : Z) (dt : Q) (w : World) :
  (exists z, py_rate n dt w = (Ok z, w) /\ ~ (dt == 0)%Q)
  \/ (exists e, py_rate n dt w = (Raise e, w) /\ stats_exn e).
Proof.
  unfold py_rate, stats_exn.
  destruct (too_large (inject_Z n)); [right; eauto|].
  destruct (Qeq_bool dt 0) eqn:Hz; [right; eauto|].
  destruct (too_large (inject_Z n / dt)); [right; eauto|].
  left. eexists. split; [reflexivity|]. apply Qeq_bool_neq. exact Hz.
Qed.

Lemma py_rate_stalled (n : Z) (dt : Q) (w : World) :
  (dt == 0)%Q -> exists e, py_rate n dt w = (Raise e, w) /\ stats_exn e.
Proof.
  intros Hdt. destruct (py_rate_cases n dt w) as [(z & _ & Hne) | Hr]; [done | exact Hr].
Qed.

Lemma py_rate_zero_division (n : Z) (dt : Q) (w : World) :
  too_large (inject_Z n) = false -> (dt == 0)%Q ->
  py_rate n dt w = (Raise ZeroDivisionError, w).
Proof.
  intros Hn Hdt. unfold py_rate. rewrite Hn.
  rewrite (proj2 (Qeq_bool_iff dt 0) Hdt). reflexivity.
Qed.

Lemma train_batch_run (a : Args.t) (d : Dataset) (w : World) (b : Batch) (s : loop_state) :
  constructed a d w ->
  0 < Args.dis_steps a ->
  let n := n_dis_step s + 1 in
  let P := Args.print_every_dis_steps a in
  exists r x evs,
    AdvBert.train_batch b s w = (r, mkWorld x (attrs w) (trace w ++ evs))
    /\ steps_of evs = DisStep :: (if n mod Args.dis_steps a =? 0 then [MapStep] else [])
    /\ Forall in_batch evs
    /\ match r with
       | Ok s' =>
           n_dis_step s' = n
           /\ P <> 0
           /\ stat_logs_of evs = (if n mod P =? 0 then [n] else [])
           /\ (if n mod P =? 0
               then ~ (time_time x == tic s)%Q /\ tic s' = time_time x
               else tic s' = tic s)
       | Raise e =>
           stats_exn e /\ (P = 0 \/ n mod P = 0) /\ stat_logs_of evs = []
       end.
Proof.
  intros (Hargs & Hlog & Hds & Htr & Hev & Hdev) HK n P.
  destruct (attrs w !! "device") as [dev|] eqn:Hd; [|discriminate].
  remember (AdvBert.train_batch b s w) as r0 eqn:Hr. revert Hr.
  unfold AdvBert.train_batch. fold n. repeat run_step.
  destruct (n mod Args.dis_steps a =? 0) eqn:EK; repeat run_step.
  all: destruct (Z.eqb_spec P 0) as [HP|HP]; fold P.
  all: try (rewrite HP, bind_py_mod_zero; intros ->; eexists _, _, _;
            (split; [rewrite <- ?app_assoc; reflexivity|]);
            unfold stats_exn; split_and!; auto; repeat constructor).
  all: rewrite bind_py_mod by exact HP; cbv beta iota.
  all: destruct (n mod P =? 0) eqn:EP.
  all: repeat run_step.
  all: try (intros ->; eexists _, _, _;
            (split; [unfold mret, M_ret; rewrite <- ?app_assoc; reflexivity|]);
            split_and!; auto; repeat constructor).
  all: cbn [tic n_words_proc].
  all: match goal with
       | |- context [(py_rate ?m ?dt ≫= ?k) ?W] =>
           destruct (py_rate_cases m dt W) as [(z & Hz & Hne) | (e & He & Hse)];
           [rewrite (bind_ok _ _ _ _ _ Hz) | rewrite (bind_fail _ _ _ _ _ He)]
       end.
  all: repeat run_step.
  all: intros ->; eexists _, _, _;
       (split; [unfold mret, M_ret; rewrite <- ?app_assoc; reflexivity|]);
       split_and!; auto;
       try (right; apply Z.eqb_eq; exact EP);
       try (intros Heq; apply Hne; rewrite Heq; ring);
       repeat constructor.
Qed.

Lemma constructed_frame (a : Args.t) (d : Dataset) (w : World) (x : Ext) (t : list event) :
  constructed a d w -> constructed a d (mkWorld x (attrs w) t).
Proof. intros Hc. exact Hc. Qed.

Lemma steps_of_app (l1 l2 : list event) :
  steps_of (l1 ++ l2) = steps_of l1 ++ steps_of l2.
Proof. apply omap_app. Qed.

Lemma stat_logs_of_app (l1 l2 : list event) :
  stat_logs_of (l1 ++ l2) = stat_logs_of l1 ++ stat_logs_of l2.
Proof. apply omap_app. Qed.

Lemma multiples_from_cons (P : Z) (i n : nat) :
  multiples_from P i (S n)
  = (if Z.of_nat i mod P =? 0 then [Z.of_nat i] else []) ++ multiples_from P (S i) n.
Proof.
  unfold multiples_from. cbn [seq fmap list_fmap]. rewrite filter_cons.
  destruct (Z.eqb_spec (Z.of_nat i mod P) 0); destruct (decide _); done.
Qed.

Lemma schedule_from_cons (K : Z) (i n : nat) :
  schedule_from K i (S n)
  = (DisStep :: (if Z.of_nat i mod K =? 0 then [MapStep] else []))
    ++ schedule_from K (S i) n.
Proof. reflexivity. Qed.

(** The batch loop, whatever its outcome: [m] batches had their steps; the
    loop returns after the last batch, or is stopped at the statistics line
    of batch [m]. *)
Lemma batch_loop_run (a : Args.t) (d : Dataset) (batches : list Batch) :
  forall (w : World) (s : loop_state) (i : nat),
  constructed a d w ->
  0 < Args.dis_steps a ->
  n_dis_step s = Z.of_nat i ->
  let P := Args.print_every_dis_steps a in
  exists r x evs m,
    for_each batches AdvBert.train_batch s w = (r, mkWorld x (attrs w) (trace w ++ evs))
    /\ (m <= length batches)%nat
    /\ steps_of evs = schedule_from (Args.dis_steps a) (S i) m
    /\ Forall in_batch evs
    /\ match r with
       | Ok s' =>
           m = length batches
           /\ n_dis_step s' = Z.of_nat (i + m)
           /\ stat_logs_of evs = multiples_from P (S i) m
       | Raise e =>
           (1 <= m)%nat
           /\ stats_exn e
           /\ stats_due P (i + m)
           /\ stat_logs_of evs = multiples_from P (S i) (m - 1)
       end.
Proof.
  induction batches as [|b bs IH]; intros w s i Hc HK Hi P.
  - exists (Ok s), (ext w), [], 0%nat. rewrite app_nil_r, Nat.add_0_r.
    destruct w. split_and!; done.
  - destruct (train_batch_run a d w b s Hc HK) as (r1 & x1 & evs1 & Hrun1 & Hst1 & Hin1 & Hr1).
    replace (n_dis_step s + 1) with (Z.of_nat (S i)) in * by lia.
    fold P in Hr1. cbn [for_each].
    destruct r1 as [s1|e].
    + destruct Hr1 as (Hn1 & HP & Hl1 & _).
      destruct (IH (mkWorld x1 (attrs w) (trace w ++ evs1)) s1 (S i)
                   (constructed_frame _ _ _ _ _ Hc) HK Hn1)
        as (r2 & x2 & evs2 & m2 & Hrun2 & Hm2 & Hst2 & Hin2 & Hr2).
      exists r2, x2, (evs1 ++ evs2), (S m2).
      rewrite (bind_ok _ _ _ _ _ Hrun1), Hrun2. cbn [attrs trace length].
      rewrite <- app_assoc, steps_of_app, stat_logs_of_app, Hst1, Hst2, Hl1.
      split_and!; [reflexivity | lia | reflexivity | by apply Forall_app |].
      fold P in Hr2. destruct r2 as [s2|e].
      * destruct Hr2 as (-> & Hn2 & Hl2).
        rewrite Hl2, multiples_from_cons, Hn2.
        split_and!; [reflexivity | f_equal; lia | reflexivity].
      * destruct Hr2 as (Hm1 & He & Hdue & Hl2).
        rewrite Hl2. replace (S m2 - 1)%nat with (S (m2 - 1)) by lia.
        rewrite multiples_from_cons.
        replace (i + S m2)%nat with (S i + m2)%nat by lia.
        split_and!; [lia | exact He | exact Hdue | reflexivity].
    + destruct Hr1 as (He & Hdue & Hl1).
      exists (Raise e), x1, evs1, 1%nat.
      rewrite (bind_fail _ _ _ _ _ Hrun1), Hst1, Hl1. cbn [length].
      split_and!; [reflexivity | lia | | exact Hin1 | lia | exact He | | reflexivity].
      * rewrite schedule_from_cons. unfold schedule_from. cbn [seq flat_map].
        rewrite app_nil_r. reflexivity.
      * unfold stats_due. replace (Z.of_nat (i + 1)) with (Z.of_nat (S i)) by lia.
        exact Hdue.
Qed.

(** One epoch, whatever its outcome.  The batch loop runs on the state the
    loader left; if it is stopped, so is the epoch; if it returns, the
    validation of the epoch is read off the state it left. *)
Lemma train_epoch_run (a : Args.t) (d : Dataset) (w : World) (n_epoch : Z) :
  constructed a d w ->
  0 < Args.dis_steps a ->
  let P := Args.print_every_dis_steps a in
  let rm := Args.rm_stop_words a in
  let t0 := time_time (ext w) in
  let bl := iter_loader d (Args.batch_size a) (ext w) in
  let n := length bl.1 in
  let w1 := mkWorld bl.2 (attrs w)
              (trace w ++ [ELog (LogStartingEpoch n_epoch); ETime t0; EIterLoader n]) in
  exists rb xb bevs m,
    for_each bl.1 AdvBert.train_batch (mkLoop 0 0 0 [] t0) w1
    = (rb, mkWorld xb (attrs w) (trace w1 ++ bevs))
    /\ (m <= n)%nat
    /\ steps_of bevs = schedule (Args.dis_steps a) m
    /\ Forall in_batch bevs
    /\ match rb with
       | Raise e =>
           AdvBert.train_epoch (d, Args.batch_size a) n_epoch w
           = (Raise e, mkWorld xb (attrs w) (trace w1 ++ bevs))
           /\ (1 <= m)%nat /\ stats_exn e /\ stats_due P m
           /\ stat_logs_of bevs = multiples_upto P (m - 1)
       | Ok _ =>
           let v := sent_sim rm xb in
           let score := v.1 in
           let x' := update_lr score (save_best score (eval_dis v.2)) in
           let lr := map_lr x' in
           let below := PyFloat.ltb lr (Args.min_lr a) in
           AdvBert.train_epoch (d, Args.batch_size a) n_epoch w
           = (Ok (if below then Break else Next),
              mkWorld x' (attrs w)
                (trace w1 ++ bevs
                 ++ [ESentSim rm score; EEvalDis; ESaveBest score;
                     ELog (LogEndOfEpoch n_epoch); EUpdateLr score; EReadLr lr]
                 ++ (if below then [ELog LogLearningRateBreak] else [])))
           /\ m = n
           /\ stat_logs_of bevs = multiples_upto P n
       end.
Proof.
  intros Hc HK P rm t0 bl n w1.
  pose proof Hc as (Hargs & Hlog & Hds & Htr & Hev & Hdev).
  destruct (batch_loop_run a d bl.1 w1 (mkLoop 0 0 0 [] t0) 0%nat
              (constructed_frame _ _ _ _ _ Hc) HK eq_refl)
    as (rb & xb & bevs & m & Hrun & Hm & Hsteps & Hin & Hrb).
  cbn [attrs] in Hrun. fold P in Hrb.
  exists rb, xb, bevs, m. split; [exact Hrun|]. split; [exact Hm|].
  split; [exact Hsteps|]. split; [exact Hin|].
  remember (AdvBert.train_epoch (d, Args.batch_size a) n_epoch w) as r eqn:Hr.
  revert Hr. unfold AdvBert.train_epoch. cbn [fst snd]. repeat run_step.
  match goal with
  | |- _ = (for_each _ _ _ ≫= _) ?W -> _ =>
      replace W with w1 by (unfold w1; rewrite <- !app_assoc; reflexivity)
  end.
  destruct rb as [s'|e].
  - destruct Hrb as (-> & _ & Hlogs).
    rewrite (bind_ok _ _ _ _ _ Hrun). cbn [ext attrs trace]. repeat run_step.
    fold rm. cbv zeta.
    destruct (PyFloat.ltb _ _) eqn:Hlt; repeat run_step; intros ->;
      (split; [unfold mret, M_ret; rewrite <- !app_assoc; reflexivity|]);
      split; [reflexivity | exact Hlogs | reflexivity | exact Hlogs].
  - destruct Hrb as (Hm1 & He & Hdue & Hlogs).
    rewrite (bind_fail _ _ _ _ _ Hrun). intros ->.
    split_and!; [reflexivity | exact Hm1 | exact He | exact Hdue | exact Hlogs].
Qed.

(** ** Counting the steps of a schedule *)
Lemma count_steps_app (k : step_kind) (l1 l2 : list step_kind) :
  count_steps k (l1 ++ l2) = (count_steps k l1 + count_steps k l2)%nat.
Proof. induction l1 as [|x l1 IH]; simpl; [reflexivity | rewrite IH; lia]. Qed.

Lemma schedule_from_S (K : Z) (i n : nat) :
  schedule_from K i (S n)
  = schedule_from K i n
    ++ DisStep :: (if Z.of_nat (i + n) mod K =? 0 then [MapStep] else []).
Proof.
  unfold schedule_from. rewrite seq_S, flat_map_app. simpl.
  rewrite app_nil_r. reflexivity.
Qed.

Lemma count_dis_schedule (K : Z) (i n : nat) :
  count_steps DisStep (schedule_from K i n) = n.
Proof.
  induction n as [|n IH]; [reflexivity|].
  rewrite schedule_from_S, count_steps_app, IH.
  destruct (_ =? 0); simpl; lia.
Qed.



(** ** What the batch loop leaves out of the trace *)
Lemma in_batch_quiet (evs : list event) :
  Forall in_batch evs ->
  readings_of evs = [] /\ starts_of evs = [] /\ sizes_of evs = []
  /\ phases_of evs = [] /\ reloads_of evs = 0%nat.
Proof.
  induction 1 as [|e evs He _ IH]; [done|].
  destruct IH as (IH1 & IH2 & IH3 & IH4 & IH5).
  unfold readings_of, starts_of, sizes_of, phases_of, reloads_of in *.
  destruct e as [| [] | | | | | | | | | | | | | | | | | | |]; simpl in *; done.
Qed.

Lemma in_batch_no_validation (evs : list event) :
  Forall in_batch evs ->
  scores_of evs = [] /\ saved_of evs = [] /\ updated_of evs = [].
Proof.
  induction 1 as [|e evs He _ IH]; [done|].
  destruct IH as (IH1 & IH2 & IH3).
  unfold scores_of, saved_of, updated_of in *.
  destruct e as [| [] | | | | | | | | | | | | | | | | | | |]; simpl in *; done.
Qed.

Lemma events_since_app (w : World) (x : Ext) (a : gmap string value) (evs : list event) :
  events_since w (mkWorld x a (trace w ++ evs)) = evs.
Proof. unfold events_since. cbn [trace]. apply drop_app_length. Qed.

Lemma reloads_of_app (l1 l2 : list event) :
  reloads_of (l1 ++ l2) = (reloads_of l1 + reloads_of l2)%nat.
Proof. unfold reloads_of. rewrite omap_app, length_app. reflexivity. Qed.

(** ** The epoch loop *)

(** What one epoch leaves in the trace, by outcome. *)
Lemma train_epoch_summary (a : Args.t) (d : Dataset) (w : World) (n_epoch : Z) :
  constructed a d w ->
  0 < Args.dis_steps a ->
  let P := Args.print_every_dis_steps a in
  let n := length (iter_loader d (Args.batch_size a) (ext w)).1 in
  exists r x evs m,
    AdvBert.train_epoch (d, Args.batch_size a) n_epoch w
    = (r, mkWorld x (attrs w) (trace w ++ evs))
    /\ starts_of evs = [n_epoch]
    /\ sizes_of evs = [n]
    /\ (m <= n)%nat
    /\ steps_of evs = schedule (Args.dis_steps a) m
    /\ phases_of evs = []
    /\ reloads_of evs = 0%nat
    /\ match r with
       | Ok c =>
           m = n
           /\ stat_logs_of evs = multiples_upto P n
           /\ exists score lr,
                scores_of evs = [score] /\ saved_of evs = [score]
                /\ updated_of evs = [score] /\ readings_of evs = [lr]
                /\ c = (if PyFloat.ltb lr (Args.min_lr a) then Break else Next)
                /\ exists pre,
                     evs = pre ++ EReadLr lr
                                  :: (if PyFloat.ltb lr (Args.min_lr a)
                                      then [ELog LogLearningRateBreak] else [])
       | Raise e =>
           (1 <= m)%nat /\ stats_exn e /\ stats_due P m
           /\ stat_logs_of evs = multiples_upto P (m - 1)
           /\ scores_of evs = [] /\ saved_of evs = []
           /\ updated_of evs = [] /\ readings_of evs = []
       end.
Proof.
  intros Hc HK P n.
  destruct (train_epoch_run a d w n_epoch Hc HK)
    as (rb & xb & bevs & m & _ & Hm & Hsteps & Hin & Hrb).
  fold P n in Hrb, Hm.
  destruct (in_batch_quiet _ Hin) as (Hr & Hs & Hz & Hp & Hrl).
  destruct (in_batch_no_validation _ Hin) as (Hsc & Hsv & Hup).
  unfold readings_of, starts_of, sizes_of, phases_of, reloads_of, scores_of, saved_of,
    updated_of, stat_logs_of, steps_of in *.
  destruct rb as [s'|e].
  - cbv zeta in Hrb. destruct Hrb as (Hrun & -> & Hlogs).
    cbn [trace] in Hrun. rewrite <- app_assoc in Hrun.
    eexists _, _, _, n. split; [exact Hrun|].
    rewrite !omap_app, Hr, Hs, Hz, Hp, Hsc, Hsv, Hup, Hsteps, Hlogs, !length_app, Hrl.
    destruct (PyFloat.ltb _ _) eqn:Hlt; simpl; rewrite ?app_nil_r.
    all: split_and!; try reflexivity; try lia.
    all: eexists _, _; split_and!; try reflexivity; rewrite ?Hlt; try reflexivity.
    all: eexists (_ :: _ :: _ :: bevs ++ [_; _; _; _; _]); simpl;
      rewrite <- app_assoc; reflexivity.
  - destruct Hrb as (Hrun & Hm1 & He & Hdue & Hlogs).
    cbn [trace] in Hrun. rewrite <- app_assoc in Hrun.
    eexists _, _, _, m. split; [exact Hrun|].
    rewrite !omap_app, Hr, Hs, Hz, Hp, Hsc, Hsv, Hup, Hsteps, Hlogs, !length_app, Hrl.
    simpl. rewrite ?app_nil_r. split_and!; try done.
Qed.

Ltac split_conj := repeat match goal with |- _ /\ _ => split end.

(** The epochs of a run, whatever its outcome: [ms] counts, epoch by epoch,
    the batches that had their steps.  The loop ends after the last epoch,
    at a reading below the floor, or in the epoch whose statistics line
    raised. *)
Lemma epochs_loop_run (a : Args.t) (d : Dataset) (ns : list Z) :
  forall w : World,
  constructed a d w ->
  0 < Args.dis_steps a ->
  let P := Args.print_every_dis_steps a in
  exists r x evs ms,
    for_break ns (AdvBert.train_epoch (d, Args.batch_size a)) w
    = (r, mkWorld x (attrs w) (trace w ++ evs))
    /\ steps_of evs = flat_map (schedule (Args.dis_steps a)) ms
    /\ Forall2 (fun m n => (m <= n)%nat) ms (sizes_of evs)
    /\ starts_of evs = take (length (starts_of evs)) ns
    /\ length (sizes_of evs) = length (starts_of evs)
    /\ (ns <> [] -> starts_of evs <> [])
    /\ saved_of evs = scores_of evs
    /\ updated_of evs = scores_of evs
    /\ length (scores_of evs) = length (readings_of evs)
    /\ phases_of evs = []
    /\ reloads_of evs = 0%nat
    /\ (forall i lr, readings_of evs !! i = Some lr ->
                     PyFloat.ltb lr (Args.min_lr a) = true ->
                     length (readings_of evs) = S i
                     /\ (exists pre, evs = pre ++ [EReadLr lr; ELog LogLearningRateBreak])
                     /\ r = Ok tt)
    /\ (forall i lr, readings_of evs !! i = Some lr ->
                     PyFloat.ltb lr (Args.min_lr a) = false ->
                     (S i < length ns)%nat ->
                     (S i < length (starts_of evs))%nat)
    /\ match r with
       | Ok _ =>
           ms = sizes_of evs
           /\ length (starts_of evs) = length (readings_of evs)
           /\ stat_logs_of evs = flat_map (multiples_upto P) (sizes_of evs)
       | Raise e =>
           stats_exn e
           /\ length (starts_of evs) = S (length (readings_of evs))
           /\ exists done m n,
                ms = done ++ [m] /\ sizes_of evs = done ++ [n]
                /\ (1 <= m <= n)%nat /\ stats_due P m
                /\ stat_logs_of evs
                   = flat_map (multiples_upto P) done ++ multiples_upto P (m - 1)
       end.
Proof.
  induction ns as [|n0 ns IH]; intros w Hc HK P.
  - exists (Ok tt), (ext w), [], []. rewrite app_nil_r. destruct w. cbn.
    split_and!; done.
  - destruct (train_epoch_summary a d w n0 Hc HK)
      as (r1 & x1 & E & m & Hrun & Es & Ez & Hm & Et & Ep & Erl & Hr1).
    fold P in Hr1.
    set (nb := length (iter_loader d (Args.batch_size a) (ext w)).1) in *.
    cbn [for_break]. destruct r1 as [c|e].
    + destruct Hr1 as (-> & Elogs & score & lr & Esc & Esv & Eup & Er & Hctl & pre & HE).
      rewrite (bind_ok _ _ _ _ _ Hrun).
      destruct (PyFloat.ltb lr (Args.min_lr a)) eqn:Hlt; subst c.
      * (* the floor is reached: break *)
        exists (Ok tt), x1, E, [nb].
        rewrite Es, Ez, Et, Ep, Erl, Esc, Esv, Eup, Er, Elogs.
        cbn [length take flat_map]. rewrite !app_nil_r.
        split_conj; try done.
        -- intros i lr' Hi _. destruct i; [|simpl in Hi; done].
           injection Hi as <-. split_and!; [reflexivity | eauto | reflexivity].
        -- intros i lr' Hi Hf. destruct i; [|simpl in Hi; done].
           injection Hi as <-. congruence.
      * (* otherwise the next epoch runs *)
        destruct (IH (mkWorld x1 (attrs w) (trace w ++ E)) (constructed_frame _ _ _ _ _ Hc) HK)
          as (r2 & x2 & evs2 & ms2 & Hrun2 & Hsch & Hle & Hst & Hsz & Hne & Hsv & Hup & Hlen
              & Hph & Hrl & Hbelow & Hnext & Hr2).
        fold P in Hr2.
        exists r2, x2, (E ++ evs2), (nb :: ms2). rewrite Hrun2. cbn [attrs trace].
        rewrite <- app_assoc, reloads_of_app, stat_logs_of_app.
        unfold readings_of, starts_of, sizes_of, steps_of, phases_of, scores_of, saved_of,
          updated_of in *.
        rewrite !omap_app, Es, Ez, Et, Ep, Erl, Esc, Esv, Eup, Er, Elogs, Hsch, Hph, Hrl,
          Hsv, Hup.
        cbn [app length take flat_map].
        split_conj; try done; try (simpl; lia).
        -- constructor; [lia | exact Hle].
        -- f_equal. exact Hst.
        -- intros i lr' Hi Hb. destruct i as [|i].
           { injection Hi as <-. congruence. }
           destruct (Hbelow i lr' Hi Hb) as (Hl & (pre' & ->) & ->).
           split_and!; [lia | | reflexivity].
           exists (E ++ pre'). rewrite <- app_assoc. reflexivity.
        -- intros i lr' Hi Hf Hlt'. destruct i as [|i].
           { destruct ns as [|n' ns']; [simpl in Hlt'; lia|].
             destruct (omap start_of evs2); [exfalso; apply Hne; done | simpl; lia]. }
           cbn [lookup list_lookup] in Hi.
           specialize (Hnext i lr' Hi Hf). simpl in Hlt'. simpl. lia.
        -- destruct r2 as [[]|e].
           ++ destruct Hr2 as (-> & Hl2 & Hlg). rewrite Hlg.
              split_and!; [reflexivity | simpl; lia | reflexivity].
           ++ destruct Hr2 as (He & Hl2 & done & m' & n' & -> & Hz2 & Hm' & Hdue & Hlg).
              split_and!; [exact He | simpl; lia |].
              exists (nb :: done), m', n'. rewrite Hz2, Hlg.
              split_and!; try done; try lia.
              cbn [flat_map]. rewrite <- app_assoc. reflexivity.
    + destruct Hr1 as (Hm1 & He & Hdue & Elogs & Esc & Esv & Eup & Er).
      rewrite (bind_fail _ _ _ _ _ Hrun).
      exists (Raise e), x1, E, [m].
      rewrite Es, Ez, Et, Ep, Erl, Esc, Esv, Eup, Er, Elogs.
      cbn [length take flat_map]. rewrite !app_nil_r.
      split_conj; try done.
      * repeat constructor. exact Hm.
      * exists [], m, nb. split_and!; try done; lia.
Qed.

Lemma length_py_range (n : Z) : length (py_range n) = Z.to_nat n.
Proof. unfold py_range. rewrite length_fmap, length_seq. reflexivity. Qed.

(** [train_adv] on a constructed object: the banner, the sampler and the
    loader, which the library may refuse, then the epochs. *)
Lemma train_adv_unfold (a : Args.t) (d : Dataset) (w : World) :
  constructed a d w ->
  let w0 := mkWorld (ext w) (attrs w) (trace w ++ [ELog LogAdversarialTraining]) in
  AdvBert.train_adv w
  = if sampler_accepts d && loader_accepts d (Args.batch_size a)
    then for_break (py_range (Args.n_epochs a))
                   (AdvBert.train_epoch (d, Args.batch_size a)) w0
    else (Raise ValueError, w0).
Proof.
  intros (Hargs & Hlog & Hds & Htr & Hev & Hdev) w0.
  unfold AdvBert.train_adv. repeat run_step. rewrite bind_py_library.
  destruct (sampler_accepts d); [|reflexivity].
  repeat run_step. rewrite bind_py_library.
  destruct (loader_accepts d (Args.batch_size a)); [|reflexivity].
  repeat run_step. reflexivity.
Qed.



(** C4.  An epoch validates once, after its last batch, and hands that one
    score first to [save_best] and then to [update_lr].  The batch loop of
    the epoch runs on the state the loader left and makes no validation
    call, no [save_best] and no [update_lr]; if it is stopped, the epoch
    ends there without a validation.  If it returns, after one
    discriminator step per batch, the rest of the epoch is determined by
    the state [xb] it left: [sent_sim] is called on [xb], then [eval_dis],
    then [save_best] and [update_lr] with the score [sent_sim] returned, in
    this order, then the learning rate is read. *)
Theorem validation_once_per_epoch (a : Args.t) (d : Dataset) (w : World) (n_epoch : Z) :
  constructed a d w ->
  0 < Args.dis_steps a ->
  let rm := Args.rm_stop_words a in
  let tic := time_time (ext w) in
  let loaded := iter_loader d (Args.batch_size a) (ext w) in
  let n_batches := length loaded.1 in
  let w1 := mkWorld loaded.2 (attrs w)
              (trace w ++ [ELog (LogStartingEpoch n_epoch); ETime tic;
                           EIterLoader n_batches]) in
  let batches := for_each loaded.1 AdvBert.train_batch (mkLoop 0 0 0 [] tic) w1 in
  let batch_evs := events_since w1 batches.2 in
  let r := AdvBert.train_epoch (d, Args.batch_size a) n_epoch w in
  let evs := events_since w r.2 in
  scores_of batch_evs = [] /\ saved_of batch_evs = [] /\ updated_of batch_evs = []
  /\ match batches.1 with
     | Raise e =>
         r = (Raise e, batches.2)
         /\ scores_of evs = [] /\ saved_of evs = [] /\ updated_of evs = []
     | Ok _ =>
         let xb := ext batches.2 in
         let score := (sent_sim rm xb).1 in
         let x' := update_lr score (save_best score (eval_dis (sent_sim rm xb).2)) in
         let lr := map_lr x' in
         let below := PyFloat.ltb lr (Args.min_lr a) in
         r = (Ok (if below then Break else Next),
              mkWorld x' (attrs w)
                (trace batches.2
                 ++ [ESentSim rm score; EEvalDis; ESaveBest score;
                     ELog (LogEndOfEpoch n_epoch); EUpdateLr score; EReadLr lr]
                 ++ (if below then [ELog LogLearningRateBreak] else [])))
         /\ count_steps DisStep (steps_of batch_evs) = n_batches
         /\ scores_of evs = [score] /\ saved_of evs = [score] /\ updated_of evs = [score]
     end.
Proof.
  intros Hc HK rm tic loaded n_batches w1 batches batch_evs r evs.
  destruct (train_epoch_run a d w n_epoch Hc HK)
    as (rb & xb & bevs & m & Hrun & Hm & Hsteps & Hin & Hrb).
  fold rm tic loaded n_batches w1 in Hrun, Hrb, Hm.
  fold batches in Hrun. fold r in Hrb.
  assert (Hbevs : batch_evs = bevs).
  { unfold batch_evs. rewrite Hrun. cbn [snd]. apply events_since_app. }
  destruct (in_batch_no_validation _ Hin) as (Hsc & Hsv & Hup).
  rewrite Hbevs. split; [exact Hsc|]. split; [exact Hsv|]. split; [exact Hup|].
  subst evs. rewrite Hrun. cbn [fst snd ext trace].
  unfold scores_of, saved_of, updated_of in *.
  destruct rb as [s'|e].
  - cbv zeta in Hrb. destruct Hrb as (Hr & -> & _). rewrite Hr. cbn [snd].
    split; [rewrite <- app_assoc; reflexivity|].
    split; [rewrite Hsteps; apply count_dis_schedule|].
    unfold w1. cbn [trace]. rewrite <- !app_assoc, events_since_app.
    rewrite !omap_app, Hsc, Hsv, Hup.
    destruct (PyFloat.ltb _ _); simpl; done.
  - destruct Hrb as (Hr & _). rewrite Hr. cbn [snd].
    split; [reflexivity|].
    unfold w1. cbn [trace]. rewrite <- !app_assoc, events_since_app.
    rewrite !omap_app, Hsc, Hsv, Hup. simpl. done.
Qed.

(** ** Refinement and prediction *)
Lemma refine_iteration_run (a : Args.t) (d : Dataset) (w : World) (n_iter : Z) :
  constructed a d w ->
  exists x score,
    AdvBert.refine_iteration n_iter tt w
    = (Ok tt, mkWorld x (attrs w)
                (trace w ++ iteration_events (Args.rm_stop_words a) (n_iter, score))).
Proof.
  intros (Hargs & Hlog & Hds & Htr & Hev & Hdev).
  remember (AdvBert.refine_iteration n_iter tt w) as r eqn:Hr. revert Hr.
  unfold AdvBert.refine_iteration. repeat run_step. intros ->.
  eexists _, _. rewrite run_self_logger_info by exact Hlog.
  cbn [ext attrs trace]. rewrite <- !app_assoc. reflexivity.
Qed.

Lemma refine_loop_run (a : Args.t) (d : Dataset) (ns : list Z) :
  forall w : World,
  constructed a d w ->
  exists x scores,
    for_each ns AdvBert.refine_iteration tt w
    = (Ok tt, mkWorld x (attrs w)
                (trace w ++ flat_map (iteration_events (Args.rm_stop_words a))
                                     (zip ns scores)))
    /\ length scores = length ns.
Proof.
  induction ns as [|n ns IH]; intros w Hc.
  - exists (ext w), []. cbn. rewrite app_nil_r. destruct w. done.
  - destruct (refine_iteration_run a d w n Hc) as (x1 & score & Hrun1).
    destruct (IH (mkWorld x1 (attrs w)
                    (trace w ++ iteration_events (Args.rm_stop_words a) (n, score)))
                 (constructed_frame a d w _ _ Hc)) as (x2 & scores & Hrun2 & Hlen).
    exists x2, (score :: scores). cbn [for_each].
    rewrite (bind_ok _ _ _ _ _ Hrun1), Hrun2. cbn [attrs trace zip zip_with flat_map length].
    rewrite <- app_assoc, Hlen. done.
Qed.

Lemma refine_run (a : Args.t) (d : Dataset) (w : World) :
  constructed a d w ->
  exists x scores,
    AdvBert.refine w
    = (Ok tt, mkWorld x (attrs w)
                (trace w
                 ++ [ELog LogProcrustesRefinement; EReloadBest]
                 ++ flat_map (iteration_events (Args.rm_stop_words a))
                             (zip (py_range (Args.n_refinement a)) scores)))
    /\ length scores = Z.to_nat (Args.n_refinement a).
Proof.
  intros Hc. pose proof Hc as (Hargs & Hlog & Hds & Htr & Hev & Hdev).
  remember (AdvBert.refine w) as r eqn:Hr. revert Hr.
  unfold AdvBert.refine. repeat run_step.
  match goal with
  | |- _ = for_each ?ns _ _ ?W -> _ =>
      destruct (refine_loop_run a d ns W Hc) as (x & scores & Hrun & Hlen);
      rewrite Hrun
  end.
  cbn [attrs trace]. rewrite length_py_range in Hlen. intros ->.
  exists x, scores. rewrite <- !app_assoc. done.
Qed.

Lemma pred_rejects (a : Args.t) (w : World) :
  attrs w !! "args" = Some (VArgs a) ->
  is_not_none (Args.src_file a) && is_not_none (Args.output_file a) = false ->
  AdvBert.pred w = (Raise AssertionError, w).
Proof.
  intros Hargs Hmiss. unfold AdvBert.pred.
  run_step. rewrite bind_py_assert.
  destruct (is_not_none (Args.src_file a)); [|reflexivity].
  run_step. rewrite bind_py_assert.
  destruct (is_not_none (Args.output_file a)); [discriminate | reflexivity].
Qed.

Lemma pred_run (a : Args.t) (w : World) :
  attrs w !! "args" = Some (VArgs a) ->
  attrs w !! "trainer" = Some VTrainer ->
  is_not_none (Args.src_file a) && is_not_none (Args.output_file a) = true ->
  AdvBert.pred w
  = (Raise (NameError "load_single"),
     mkWorld (reload_best (ext w)) (attrs w) (trace w ++ [EReloadBest])).
Proof.
  intros Hargs Htr [Hsrc Hout]%andb_true_iff. unfold AdvBert.pred.
  run_step. rewrite bind_py_assert, Hsrc.
  run_step. rewrite bind_py_assert, Hout.
  repeat run_step.
  apply (load_global_unbound "load_single"). reflexivity.
Qed.

Lemma pred_never_returns (w : World) : exists e, (AdvBert.pred w).1 = Raise e.
Proof.
  unfold AdvBert.pred.
  destruct (attrs w !! "args") as [v|] eqn:Hargs.
  2:{ unfold self_args. rewrite bind_assoc, (bind_getattr_unbound _ _ _ Hargs). eauto. }
  destruct v as [a| | | | | | | | |];
    try (unfold self_args; rewrite bind_assoc, (bind_getattr _ _ _ _ Hargs), bind_raise; eauto).
  run_step. rewrite bind_py_assert.
  destruct (is_not_none (Args.src_file a)); [|eauto].
  run_step. rewrite bind_py_assert.
  destruct (is_not_none (Args.output_file a)); [|eauto].
  destruct (attrs w !! "trainer") as [v|] eqn:Htr.
  2:{ unfold self_trainer. rewrite !bind_assoc, (bind_getattr_unbound _ _ _ Htr). eauto. }
  destruct v;
    try (unfold self_trainer; rewrite !bind_assoc, (bind_getattr _ _ _ _ Htr), bind_raise; eauto).
  repeat run_step.
  rewrite (load_global_unbound "load_single") by reflexivity. eauto.
Qed.


(** ** The constructor *)
Lemma params_ok_true (a : Args.t) :
  params_ok a = true ->
  in_unit_interval (Args.dis_dropout a)
  /\ in_unit_interval (Args.dis_input_dropout a)
  /\ (PyFloat.le PyFloat.zero (Args.dis_smooth a)
      /\ PyFloat.lt (Args.dis_smooth a) PyFloat.half)
  /\ PyFloat.lt PyFloat.zero (Args.dis_lambda a)
  /\ 0 < Args.dis_steps a
  /\ (PyFloat.lt PyFloat.zero (Args.lr_shrink a)
      /\ PyFloat.le (Args.lr_shrink a) PyFloat.one)
  /\ (Args.adversarial a = true -> Args.model_path a <> None).
Proof.
  unfold params_ok, in_unit_interval. rewrite !andb_true_iff, !leb_le, !ltb_lt.
  intros (((((H1 & H2) & H3) & (H4 & H5)) & H6) & H7).
  split_and!; try tauto.
  - lia.
  - intros Hadv. rewrite Hadv in H7. destruct (Args.model_path a); done.
Qed.

Lemma out_of_range_rejected (a : Args.t) :
  config_out_of_range a -> params_ok a = false.
Proof.
  intros Hbad. apply not_true_is_false. intros Hok.
  destruct (params_ok_true a Hok) as (H1 & H2 & H3 & H4 & H5 & H6 & _).
  destruct Hbad as [Hb|[Hb|[Hb|[Hb|[Hb|Hb]]]]]; try tauto; try lia.
  apply ltb_false_of_le in Hb. apply ltb_lt in H4. congruence.
Qed.

Lemma check_parameters_run (a : Args.t) (w : World) :
  attrs w !! "args" = Some (VArgs a) ->
  AdvBert.check_parameters w
  = (if params_ok a then Ok tt else Raise AssertionError, w).
Proof.
  intros Hargs. unfold AdvBert.check_parameters, params_ok.
  do 5 (run_step; rewrite bind_py_assert;
        match goal with |- context [if ?b then _ else _] =>
          destruct b; [|reflexivity] end).
  run_step. destruct (Args.adversarial a); [|reflexivity].
  run_step. destruct (is_not_none _); reflexivity.
Qed.

Lemma new_rejects (a : Args.t) (w : World) :
  params_ok a = false ->
  AdvBert.new a w
  = (Raise AssertionError, mkWorld (ext w) (<["args" := VArgs a]> ∅) (trace w)).
Proof.
  intros Hbad. unfold AdvBert.new, AdvBert.__init__. run_step.
  erewrite bind_fail; [reflexivity|].
  rewrite (check_parameters_run a) by reflexivity. rewrite Hbad. reflexivity.
Qed.

Lemma new_accepts (a : Args.t) (w : World) :
  params_ok a = true ->
  AdvBert.new a w
  = AdvBert.build_components (mkWorld (ext w) (<["args" := VArgs a]> ∅) (trace w)).
Proof.
  intros Hok. unfold AdvBert.new, AdvBert.__init__. run_step.
  erewrite bind_ok; [reflexivity|].
  rewrite (check_parameters_run a) by reflexivity. rewrite Hok. reflexivity.
Qed.

Lemma new_non_adversarial (a : Args.t) (w : World) :
  params_ok a = true ->
  Args.adversarial a = false ->
  exists A,
    AdvBert.new a w
    = (Raise (AttributeError "dataset"),
       mkWorld (build_model a (initialize_exp a (ext w))) A
               (trace w ++ [EInitializeExp; EBuildModel]))
    /\ A !! "dataset" = None.
Proof.
  intros Hok Hadv. rewrite (new_accepts a w Hok).
  unfold AdvBert.build_components. repeat run_step. rewrite Hadv.
  repeat run_step.
  rewrite bind_self_dataset_unbound by reflexivity.
  eexists. rewrite <- !app_assoc. split; reflexivity.
Qed.

Lemma new_missing_corpus (a : Args.t) (w : World) :
  params_ok a = true ->
  Args.adversarial a = true ->
  match Args.input_file a with
  | None => True
  | Some p => isfile p (initialize_exp a (ext w)) = false
  end ->
  exists e A evs,
    AdvBert.new a w = (Raise e, mkWorld (initialize_exp a (ext w)) A (trace w ++ evs))
    /\ match Args.input_file a with
       | None => e = TypeError /\ evs = [EInitializeExp]
       | Some p => e = AssertionError /\ evs = [EInitializeExp; EIsFile p false]
       end.
Proof.
  intros Hok Hadv Hmiss. rewrite (new_accepts a w Hok).
  unfold AdvBert.build_components, AdvBert.os_path_isfile.
  repeat run_step. rewrite Hadv. repeat run_step.
  destruct (Args.input_file a) as [p|].
  - repeat run_step. rewrite Hmiss. rewrite bind_py_assert.
    eexists _, _, _. rewrite <- !app_assoc. split; [reflexivity|]. done.
  - rewrite bind_raise. eexists _, _, _. split; [reflexivity|]. done.
Qed.

(** The constructor once the corpus is found: everything is built, and the
    device is the last thing that can fail. *)
Lemma new_built (a : Args.t) (w : World) (p : string) :
  params_ok a = true ->
  Args.adversarial a = true ->
  Args.input_file a = Some p ->
  isfile p (initialize_exp a (ext w)) = true ->
  let x0 := initialize_exp a (ext w) in
  let l := load (Args.vocab_file a) p (Args.batch_size a) (Args.do_lower_case a)
                (Args.max_seq_length a) (Args.local_rank a) x0 in
  let x3 := BertEvaluator l.1.2 (BertTrainer l.1.1 a (build_model a l.2)) in
  let built := [EInitializeExp; EIsFile p true; ELoad p; EBuildModel;
                EBertTrainer; EBertEvaluator] in
  exists A : gmap string value,
    A !! "args" = Some (VArgs a)
    /\ A !! "logger" = Some VLogger
    /\ A !! "dataset" = Some (VDataset l.1.1)
    /\ A !! "features" = Some (VFeatures l.1.2)
    /\ A !! "trainer" = Some VTrainer
    /\ A !! "evaluator" = Some VEvaluator
    /\ AdvBert.new a w
       = if (Args.local_rank a =? -1) || Args.no_cuda a then
           (Ok tt,
            mkWorld x3
              (<["device" := VDevice (if cuda_is_available x3 && negb (Args.no_cuda a)
                                      then Cuda None else Cpu)]> A)
              (trace w ++ built ++ [ECudaIsAvailable (cuda_is_available x3)]))
         else
           match device_index (Args.local_rank a) with
           | Some i =>
               (Ok tt, mkWorld x3 (<["device" := VDevice (Cuda (Some i))]> A)
                         (trace w ++ built))
           | None => (Raise RuntimeError, mkWorld x3 A (trace w ++ built))
           end.
Proof.
  intros Hok Hadv Hin Hfile. cbv zeta. rewrite (new_accepts a w Hok).
  remember (AdvBert.build_components _) as r eqn:Hr. revert Hr.
  unfold AdvBert.build_components, AdvBert.os_path_isfile.
  repeat run_step. rewrite Hadv. repeat run_step. rewrite Hin.
  repeat run_step. rewrite Hfile, bind_py_assert. repeat run_step. rewrite Hin.
  repeat run_step.
  match goal with
  | |- _ = (AdvBert.select_device _ ≫= _) {| ext := _; attrs := ?A; trace := _ |} -> _ =>
      intros ->; exists A
  end.
  split_and!; try reflexivity.
  unfold AdvBert.select_device, AdvBert.torch_device_cuda.
  destruct (_ || _); repeat run_step.
  - rewrite <- !app_assoc. reflexivity.
  - destruct (device_index _); repeat run_step; rewrite <- !app_assoc; reflexivity.
Qed.

(** ** What every run of a method leaves in the trace

    For the order of the phases no assumption on the object is needed: on
    any world a method only appends to the trace, enters no phase, and
    raises only exceptions of the kind [Q]. *)
Lemma phases_of_app (l1 l2 : list event) :
  phases_of (l1 ++ l2) = phases_of l1 ++ phases_of l2.
Proof. apply omap_app. Qed.

Section Footprint.
Variable Q : exn -> Prop.
Hypothesis HQ : forall e, not_name_error e -> Q e.

Lemma fp_mret {A : Type} (a : A) : footprint Q (mret a).
Proof. intros w. exists []. cbn. rewrite app_nil_r. done. Qed.

Lemma fp_raise {A : Type} (e : exn) : Q e -> footprint Q (raise e : M A).
Proof.
  intros He w. exists []. cbn. rewrite app_nil_r.
  split_and!; [done..|]. intros e' [= <-]. exact He.
Qed.

Lemma fp_event {A : Type} (f : World -> A) (g : World -> Ext) (ev : World -> event) :
  (forall w, phase_of (ev w) = None) ->
  footprint Q (fun w => (Ok (f w), mkWorld (g w) (attrs w) (trace w ++ [ev w]))).
Proof.
  intros Hev w. exists [ev w]. cbn. unfold phases_of. cbn. rewrite Hev. done.
Qed.

Lemma fp_emit (e : event) : phase_of e = None -> footprint Q (emit e).
Proof. intros He. apply (fp_event (fun _ => tt) ext (fun _ => e)). done. Qed.

Lemma fp_call {A : Type} (f : Ext -> A * Ext) (ev : A -> event) :
  (forall a, phase_of (ev a) = None) -> footprint Q (call f ev).
Proof.
  intros He.
  apply (fp_event (fun w => (f (ext w)).1) (fun w => (f (ext w)).2)
                  (fun w => ev (f (ext w)).1)). done.
Qed.

Lemma fp_call_ (f : Ext -> Ext) (ev : event) :
  phase_of ev = None -> footprint Q (call_ f ev).
Proof.
  intros He. apply (fp_event (fun _ => tt) (fun w => f (ext w)) (fun _ => ev)). done.
Qed.

Lemma fp_observe {A : Type} (f : Ext -> A) (ev : A -> event) :
  (forall a, phase_of (ev a) = None) -> footprint Q (observe f ev).
Proof.
  intros He.
  apply (fp_event (fun w => f (ext w)) ext (fun w => ev (f (ext w)))). done.
Qed.

Lemma fp_getattr (n : string) : footprint Q (getattr n).
Proof.
  intros w. exists []. unfold getattr. rewrite app_nil_r.
  destruct (attrs w !! n); cbn; split_and!; try done.
  intros e [= <-]. apply HQ. exact I.
Qed.

Lemma fp_setattr (n : string) (v : value) : footprint Q (setattr n v).
Proof. intros w. exists []. cbn. rewrite app_nil_r. done. Qed.

Lemma fp_load_global (n : string) :
  is_bound n = true \/ Q (NameError n) -> footprint Q (load_global n).
Proof.
  unfold is_bound, load_global, binding.
  destruct (lookup_global n); intros Hn.
  - apply fp_mret.
  - apply fp_raise. destruct Hn; done.
Qed.

Lemma fp_py_assert (b : bool) : footprint Q (py_assert b).
Proof. destruct b; [apply fp_mret | apply fp_raise, HQ; exact I]. Qed.

Lemma fp_py_mod (a b : Z) : footprint Q (py_mod a b).
Proof.
  unfold py_mod. destruct (b =? 0); [apply fp_raise, HQ; exact I | apply fp_mret].
Qed.

Lemma fp_py_library (accepted : bool) (e : exn) :
  not_name_error e -> footprint Q (py_library accepted e).
Proof. intros He. destruct accepted; [apply fp_mret | apply fp_raise, HQ, He]. Qed.

Lemma fp_py_rate (n : Z) (dt : QArith_base.Q) : footprint Q (py_rate n dt).
Proof.
  unfold py_rate.
  repeat match goal with
         | |- footprint _ (if ?b then _ else _) => destruct b
         end; first [apply fp_mret | apply fp_raise, HQ; exact I].
Qed.

Lemma fp_bind {A B : Type} (m : M A) (k : A -> M B) :
  footprint Q m -> (forall a, footprint Q (k a)) -> footprint Q (m ≫= k).
Proof.
  intros Hm Hk w. destruct (Hm w) as (e1 & Ht1 & Hp1 & Hq1).
  unfold mbind, M_bind. destruct (m w) as [[a|e] w1]; cbn in *.
  - destruct (Hk a w1) as (e2 & Ht2 & Hp2 & Hq2).
    exists (e1 ++ e2). rewrite Ht2, Ht1, <- app_assoc, phases_of_app, Hp1, Hp2. done.
  - exists e1. split_and!; try done. intros e' [= <-]. apply Hq1. reflexivity.
Qed.

Lemma fp_for_each {A S : Type} (xs : list A) (body : A -> S -> M S) :
  (forall x s, footprint Q (body x s)) -> forall s, footprint Q (for_each xs body s).
Proof.
  intros Hb. induction xs as [|x xs IH]; intros s; cbn [for_each].
  - apply fp_mret.
  - apply fp_bind; [apply Hb | exact IH].
Qed.

Lemma fp_for_break {A : Type} (xs : list A) (body : A -> M control) :
  (forall x, footprint Q (body x)) -> footprint Q (for_break xs body).
Proof.
  intros Hb. induction xs as [|x xs IH]; cbn [for_break].
  - apply fp_mret.
  - apply fp_bind; [apply Hb|]. intros []; [exact IH | apply fp_mret].
Qed.

End Footprint.

Ltac fp_step HQ :=
  first
    [ apply fp_mret
    | apply fp_raise; first [apply HQ; exact I | exact I]
    | apply fp_emit; reflexivity
    | apply fp_call; intros; reflexivity
    | apply fp_call_; reflexivity
    | apply fp_observe; intros; reflexivity
    | apply fp_getattr; exact HQ
    | apply fp_setattr
    | apply fp_load_global; first [left; reflexivity | right; exact I]
    | apply fp_py_assert; exact HQ
    | apply fp_py_mod; exact HQ
    | apply fp_py_library; [exact HQ | exact I]
    | apply fp_py_rate; exact HQ
    | apply fp_for_each; intros
    | apply fp_for_break; intros
    | apply fp_bind; [|intros ?]
    | match goal with
      | |- footprint _ (if ?b then _ else _) => destruct b
      | |- footprint _ (match ?x with _ => _ end) => destruct x
      end ].

Lemma fp_train_adv (Q : exn -> Prop) :
  (forall e, not_name_error e -> Q e) -> footprint Q AdvBert.train_adv.
Proof.
  intros HQ. unfold AdvBert.train_adv, AdvBert.train_epoch, AdvBert.train_batch.
  repeat fp_step HQ.
Qed.

Lemma fp_refine (Q : exn -> Prop) :
  (forall e, not_name_error e -> Q e) -> footprint Q AdvBert.refine.
Proof.
  intros HQ. unfold AdvBert.refine, AdvBert.refine_iteration.
  repeat fp_step HQ.
Qed.

Lemma fp_new (Q : exn -> Prop) (a : Args.t) :
  (forall e, not_name_error e -> Q e) -> footprint Q (AdvBert.new a).
Proof.
  intros HQ w. unfold AdvBert.new.
  assert (Hinit : footprint Q (AdvBert.__init__ a)).
  { unfold AdvBert.__init__, AdvBert.check_parameters, AdvBert.build_components,
      AdvBert.os_path_isfile, AdvBert.select_device, AdvBert.torch_device_cuda.
    repeat fp_step HQ. }
  exact (Hinit (mkWorld (ext w) ∅ (trace w))).
Qed.

Lemma fp_pred : footprint (fun _ => True) AdvBert.pred.
Proof.
  assert (HQ : forall e, not_name_error e -> (fun _ : exn => True) e) by done.
  unfold AdvBert.pred. repeat fp_step HQ.
Qed.

(** ** The driver *)

Lemma staged_run_phase (Q : exn -> Prop) (flag : bool) (p : phase) (m : M unit) :
  footprint Q m -> staged (if flag then [p] else []) (run_phase flag p m).
Proof.
  intros Hm w. destruct flag; cbn.
  - destruct (Hm (mkWorld (ext w) (attrs w) (trace w ++ [EEnter p]))) as (evs & Ht & Hp & _).
    exists (EEnter p :: evs). cbn in Ht. rewrite <- app_assoc in Ht.
    split; [exact Ht|]. unfold phases_of in *. cbn. rewrite Hp. done.
  - exists []. rewrite app_nil_r. done.
Qed.

Lemma elsewhere_run_phase (flag : bool) (p : phase) (m : M unit) :
  footprint (fun e => e <> NameError "load_single") m ->
  raises_elsewhere (run_phase flag p m).
Proof.
  intros Hm w e. destruct flag; cbn; [|done].
  destruct (Hm (mkWorld (ext w) (attrs w) (trace w ++ [EEnter p]))) as (evs & _ & _ & Hq).
  exact (Hq e).
Qed.

Lemma staged_seq (pl1 pl2 : list phase) (m1 m2 : M unit) :
  staged pl1 m1 -> raises_elsewhere m1 -> staged pl2 m2 ->
  staged (pl1 ++ pl2) (m1 ;; m2).
Proof.
  intros H1 Hs H2 w. destruct (H1 w) as (e1 & Ht1 & Hp1 & Hc1).
  specialize (Hs w). unfold mbind, M_bind.
  destruct (m1 w) as [[[]|e] w1]; cbn in *.
  - destruct (H2 w1) as (e2 & Ht2 & Hp2 & Hc2).
    exists (e1 ++ e2). rewrite Ht2, Ht1, <- app_assoc, phases_of_app.
    rewrite (Hc1 (or_introl eq_refl)).
    split_and!; [done | by apply prefix_app |].
    intros Hr. rewrite (Hc2 Hr). done.
  - exists e1. split_and!; [done | by apply prefix_app_r |].
    intros [Hr|Hr]; [done|]. injection Hr as ->. destruct (Hs _ eq_refl). done.
Qed.

Lemma not_name_error_elsewhere (e : exn) :
  not_name_error e -> e <> NameError "load_single".
Proof. destruct e; done. Qed.

Lemma main_unfold (a : Args.t) (w : World) :
  main a w
  = (AdvBert.new a ;;
     run_phase (Args.adversarial a) Adversarial AdvBert.train_adv ;;
     run_phase (0 <? Args.n_refinement a) Refinement AdvBert.refine ;;
     run_phase (Args.pred a) Predict AdvBert.pred) w.
Proof. unfold main. rewrite load_global_bound by reflexivity. reflexivity. Qed.

Lemma main_staged (a : Args.t) : staged (plan a) (main a).
Proof.
  intros w. rewrite main_unfold. revert w.
  change (plan a) with ([] ++ plan a). unfold plan.
  pose proof not_name_error_elsewhere as HQ.
  apply staged_seq.
  - intros w. destruct (fp_new _ a HQ w) as (evs & Ht & Hp & _).
    exists evs. rewrite Hp. done.
  - intros w e. destruct (fp_new _ a HQ w) as (evs & _ & _ & Hq). exact (Hq e).
  - apply staged_seq;
      [exact (staged_run_phase _ _ _ _ (fp_train_adv _ HQ))
      |exact (elsewhere_run_phase _ _ _ (fp_train_adv _ HQ))|].
    apply staged_seq;
      [exact (staged_run_phase _ _ _ _ (fp_refine _ HQ))
      |exact (elsewhere_run_phase _ _ _ (fp_refine _ HQ))|].
    exact (staged_run_phase _ _ _ _ fp_pred).
Qed.

Lemma plan_spec (a : Args.t) :
  plan a `sublist_of` [Adversarial; Refinement; Predict]
  /\ (Adversarial ∈ plan a <-> Args.adversarial a = true)
  /\ (Refinement ∈ plan a <-> 0 < Args.n_refinement a)
  /\ (Predict ∈ plan a <-> Args.pred a = true).
Proof.
  unfold plan.
  destruct (Args.adversarial a), (Z.ltb_spec 0 (Args.n_refinement a)), (Args.pred a);
    cbn [app]; (split; [repeat first [apply sublist_nil_l | apply sublist_skip
                                     | apply sublist_cons]|]);
    rewrite ?elem_of_cons, ?elem_of_nil; intuition (congruence || lia).
Qed.

Lemma events_since_trace (w w' : World) (evs : list event) :
  trace w' = trace w ++ evs -> events_since w w' = evs.
Proof. intros Ht. unfold events_since. rewrite Ht. apply drop_app_length. Qed.

Lemma run_phase_phases (Q : exn -> Prop) (flag : bool) (p : phase) (m : M unit) (w : World) :
  footprint Q m ->
  exists evs, trace (run_phase flag p m w).2 = trace w ++ evs
              /\ phases_of evs = (if flag then [p] else []).
Proof.
  intros Hm. destruct flag; cbn.
  - destruct (Hm (mkWorld (ext w) (attrs w) (trace w ++ [EEnter p]))) as (evs & Ht & Hp & _).
    exists (EEnter p :: evs). cbn in Ht. rewrite <- app_assoc in Ht.
    split; [exact Ht|]. unfold phases_of in *. cbn. rewrite Hp. done.
  - exists []. rewrite app_nil_r. done.
Qed.

Lemma elem_flag (flag : bool) (p q : phase) :
  q ∈ (if flag then [p] else []) <-> flag = true /\ q = p.
Proof.
  destruct flag; [rewrite elem_of_cons, elem_of_nil | rewrite elem_of_nil];
    intuition congruence.
Qed.

(** The driver, stage by stage: the phases in the trace are those of the
    flags, up to the first stage that raised. *)
Lemma main_stages (a : Args.t) (w : World) :
  let training := run_phase (Args.adversarial a) Adversarial AdvBert.train_adv in
  let refinement := run_phase (0 <? Args.n_refinement a) Refinement AdvBert.refine in
  let prediction := run_phase (Args.pred a) Predict AdvBert.pred in
  let pA := if Args.adversarial a then [Adversarial] else [] in
  let pR := if 0 <? Args.n_refinement a then [Refinement] else [] in
  let pP := if Args.pred a then [Predict] else [] in
  match AdvBert.new a w with
  | (Raise e, w1) => main a w = (Raise e, w1) /\ phases_of (events_since w w1) = []
  | (Ok _, w1) =>
      match training w1 with
      | (Raise e, w2) => main a w = (Raise e, w2) /\ phases_of (events_since w w2) = pA
      | (Ok _, w2) =>
          match refinement w2 with
          | (Raise e, w3) =>
              main a w = (Raise e, w3) /\ phases_of (events_since w w3) = pA ++ pR
          | (Ok _, w3) =>
              main a w = prediction w3
              /\ phases_of (events_since w (prediction w3).2) = pA ++ pR ++ pP
          end
      end
  end.
Proof.
  intros training refinement prediction pA pR pP.
  pose proof not_name_error_elsewhere as HQ.
  rewrite main_unfold. fold training refinement prediction.
  destruct (fp_new _ a HQ w) as (e0 & Ht0 & Hp0 & _).
  destruct (AdvBert.new a w) as [[[]|e] w1] eqn:Hnew; cbn [snd] in Ht0.
  2:{ split; [exact (bind_fail _ _ _ _ _ Hnew)|].
      rewrite (events_since_trace _ _ _ Ht0). exact Hp0. }
  rewrite (bind_ok _ _ _ _ _ Hnew).
  destruct (run_phase_phases _ (Args.adversarial a) Adversarial _ w1 (fp_train_adv _ HQ))
    as (eA & HtA & HpA).
  fold training pA in HtA, HpA.
  destruct (training w1) as [[[]|e] w2] eqn:Htr; cbn [snd] in HtA.
  2:{ split; [exact (bind_fail _ _ _ _ _ Htr)|].
      rewrite (events_since_trace w w2 (e0 ++ eA)), phases_of_app, Hp0, HpA; [done|].
      rewrite HtA, Ht0, app_assoc. reflexivity. }
  rewrite (bind_ok _ _ _ _ _ Htr).
  destruct (run_phase_phases _ (0 <? Args.n_refinement a) Refinement _ w2 (fp_refine _ HQ))
    as (eR & HtR & HpR).
  fold refinement pR in HtR, HpR.
  destruct (refinement w2) as [[[]|e] w3] eqn:Href; cbn [snd] in HtR.
  2:{ split; [exact (bind_fail _ _ _ _ _ Href)|].
      rewrite (events_since_trace w w3 (e0 ++ eA ++ eR)), !phases_of_app, Hp0, HpA, HpR;
        [done|].
      rewrite HtR, HtA, Ht0, !app_assoc. reflexivity. }
  rewrite (bind_ok _ _ _ _ _ Href). split; [reflexivity|].
  destruct (run_phase_phases _ (Args.pred a) Predict _ w3 fp_pred) as (eP & HtP & HpP).
  fold prediction pP in HtP, HpP.
  rewrite (events_since_trace w _ (e0 ++ eA ++ eR ++ eP)), !phases_of_app, Hp0, HpA, HpR, HpP;
    [done|].
  rewrite HtP, HtR, HtA, Ht0, !app_assoc. reflexivity.
Qed.

(** C6.  A run enters the phases in the order adversarial training,
    refinement, prediction, each at most once: the phases entered are an
    initial part of [plan args], the list of the phases whose flags are set
    ([adversarial], [n_refinement > 0], [pred]), and all of it when the run
    returns or ends in the [NameError] of [pred].  The flag alone does not
    make a phase run: a phase is entered iff its flag is set and the
    constructor and every phase before it returned normally. *)
Theorem phases_run_in_fixed_order (a : Args.t) (w : World) :
  let r := main a w in
  let phases := phases_of (events_since w r.2) in
  let training := run_phase (Args.adversarial a) Adversarial AdvBert.train_adv in
  let refinement := run_phase (0 <? Args.n_refinement a) Refinement AdvBert.refine in
  phases `prefix_of` plan a
  /\ (r.1 = Ok tt \/ r.1 = Raise (NameError "load_single") -> phases = plan a)
  /\ plan a `sublist_of` [Adversarial; Refinement; Predict]
  /\ (Adversarial ∈ plan a <-> Args.adversarial a = true)
  /\ (Refinement ∈ plan a <-> 0 < Args.n_refinement a)
  /\ (Predict ∈ plan a <-> Args.pred a = true)
  /\ (Adversarial ∈ phases <->
        Args.adversarial a = true /\ exists w1, AdvBert.new a w = (Ok tt, w1))
  /\ (Refinement ∈ phases <->
        0 < Args.n_refinement a
        /\ exists w1 w2, AdvBert.new a w = (Ok tt, w1) /\ training w1 = (Ok tt, w2))
  /\ (Predict ∈ phases <->
        Args.pred a = true
        /\ exists w1 w2 w3,
             AdvBert.new a w = (Ok tt, w1) /\ training w1 = (Ok tt, w2)
             /\ refinement w2 = (Ok tt, w3)).
Proof.
  intros r phases training refinement.
  destruct (main_staged a w) as (evs & Ht & Hp & Hc).
  destruct (plan_spec a) as (Hs & HA & HR & HP).
  assert (Hphases : phases = phases_of evs).
  { unfold phases, r. rewrite (events_since_trace _ _ _ Ht). reflexivity. }
  split; [rewrite Hphases; exact Hp|]. split; [rewrite Hphases; exact Hc|].
  split; [exact Hs|]. split; [exact HA|]. split; [exact HR|]. split; [exact HP|].
  clear evs Ht Hp Hc Hphases Hs HA HR HP.
  pose proof (main_stages a w) as Hst. cbv zeta in Hst.
  fold training refinement in Hst. subst phases r.
  destruct (AdvBert.new a w) as [[[]|e0] w1] eqn:Hnew.
  2:{ destruct Hst as (Hm & Hph). rewrite Hm. cbn [snd]. rewrite Hph.
      rewrite !elem_of_nil. split_and!; split; try done;
        intros (_ & Hx); destruct Hx as (? & Hx); repeat destruct Hx as (? & Hx); done. }
  destruct (training w1) as [[[]|e1] w2] eqn:Htr.
  2:{ destruct Hst as (Hm & Hph). rewrite Hm. cbn [snd]. rewrite Hph, !elem_flag.
      split_and!; split.
      - intros (Hf & _). eauto.
      - intros (Hf & _). done.
      - intros (_ & [=]).
      - intros (_ & w1' & w2' & [= <-] & Hx). rewrite Htr in Hx. done.
      - intros (_ & [=]).
      - intros (_ & w1' & w2' & w3' & [= <-] & Hx & _). rewrite Htr in Hx. done. }
  destruct (refinement w2) as [[[]|e2] w3] eqn:Href.
  2:{ destruct Hst as (Hm & Hph). rewrite Hm. cbn [snd].
      rewrite Hph, !elem_of_app, !elem_flag, Z.ltb_lt.
      split_and!; split.
      - intros [(Hf & _) | (_ & [=])]. eauto.
      - intros (Hf & _). left. done.
      - intros [(_ & [=]) | (Hf & _)].
        split; [exact Hf | exists w1, w2; split; [reflexivity | exact Htr]].
      - intros (Hf & _). right. done.
      - intros [(_ & [=]) | (_ & [=])].
      - intros (_ & w1' & w2' & w3' & [= <-] & Hx & Hy).
        rewrite Htr in Hx. injection Hx as <-. rewrite Href in Hy. done. }
  destruct Hst as (Hm & Hph).
  rewrite Hm, Hph, !elem_of_app, !elem_flag, Z.ltb_lt.
  split_and!; split.
  - intros [(Hf & _) | [(_ & [=]) | (_ & [=])]]. eauto.
  - intros (Hf & _). left. done.
  - intros [(_ & [=]) | [(Hf & _) | (_ & [=])]].
    split; [exact Hf | exists w1, w2; split; [reflexivity | exact Htr]].
  - intros (Hf & _). right. left. done.
  - intros [(_ & [=]) | [(_ & [=]) | (Hf & _)]].
    split; [exact Hf | exists w1, w2, w3; split_and!; [reflexivity | exact Htr | exact Href]].
  - intros (Hf & _). right. right. done.
Qed.

(** C2.  A configuration with a dropout rate outside [[0,1)], a smoothing
    outside [[0,0.5)], a lambda that is not positive, a number of
    discriminator steps that is not positive or a shrink factor outside
    [(0,1]] makes the constructor raise [AssertionError] at once: nothing
    but [self.args] has been set, no collaborator has been called, and the
    driver ends there. *)
Theorem out_of_range_config_fails_at_construction (a : Args.t) (w : World) :
  config_out_of_range a ->
  let w' := mkWorld (ext w) (<["args" := VArgs a]> ∅) (trace w) in
  AdvBert.new a w = (Raise AssertionError, w')
  /\ main a w = (Raise AssertionError, w')
  /\ events_since w w' = [].
Proof.
  intros Hbad%out_of_range_rejected. cbv zeta.
  pose proof (new_rejects a w Hbad) as Hnew.
  split; [exact Hnew|]. split.
  - rewrite main_unfold. exact (bind_fail _ _ _ _ _ Hnew).
  - unfold events_since. cbn [trace]. apply drop_all.
Qed.

(** C7.  With adversarial training enabled, a corpus file that is missing
    (or not given) makes the constructor raise; by then it has at most set
    up the experiment and looked for the file: no data is loaded, no model
    is built, no trainer exists.  [pred] raises [AssertionError] unless both
    [src_file] and [output_file] are given, and leaves the world as it
    found it: nothing is reloaded, nothing is written. *)
Theorem missing_inputs_fail_fast (a : Args.t) (w : World) :
  (Args.adversarial a = true ->
   match Args.input_file a with
   | None => True
   | Some p => isfile p (initialize_exp a (ext w)) = false
   end ->
   exists e w',
     AdvBert.new a w = (Raise e, w')
     /\ (e = AssertionError \/ e = TypeError)
     /\ Forall before_build (events_since w w'))
  /\ (attrs w !! "args" = Some (VArgs a) ->
      Args.src_file a = None \/ Args.output_file a = None ->
      AdvBert.pred w = (Raise AssertionError, w)).
Proof.
  split.
  - intros Hadv Hmiss. destruct (params_ok a) eqn:Hok.
    + destruct (new_missing_corpus a w Hok Hadv Hmiss) as (e & A & evs & Hrun & Hev).
      eexists e, _. split; [exact Hrun|]. rewrite events_since_app.
      destruct (Args.input_file a); destruct Hev as [-> ->];
        (split; [auto | repeat constructor]).
    + eexists _, _. split; [exact (new_rejects a w Hok)|].
      split; [auto|]. unfold events_since. cbn [trace]. rewrite drop_all. constructor.
  - intros Hargs Hnone. apply (pred_rejects a w Hargs).
    destruct Hnone as [-> | ->]; [reflexivity | apply andb_false_r].
Qed.

(** C9.  [pred] loads five bare names that nothing binds: [load_single],
    [pred_dataset], [features], [collections] and [layer_index] are neither
    assigned in [pred] nor bound in the module or the builtins, and they are
    all the unbound names it loads.  So [pred] never returns: a call that
    passes its assertions reloads the best checkpoint and then raises
    [NameError] for [load_single], having done nothing else. *)
Theorem pred_reaches_unbound_name :
  forallb (fun n => negb (is_bound n) && negb (is_pred_local n) && is_pred_global_load n)
          ["load_single"; "pred_dataset"; "features"; "collections"; "layer_index"]
  = true
  /\ filter (fun n => negb (is_bound n)) pred_global_loads
     = ["load_single"; "pred_dataset"; "features"; "collections"; "layer_index"]
  /\ (forall (a : Args.t) (w : World),
        attrs w !! "args" = Some (VArgs a) ->
        attrs w !! "trainer" = Some VTrainer ->
        Args.src_file a <> None ->
        Args.output_file a <> None ->
        AdvBert.pred w
        = (Raise (NameError "load_single"),
           mkWorld (reload_best (ext w)) (attrs w) (trace w ++ [EReloadBest])))
  /\ (forall w : World, exists e, (AdvBert.pred w).1 = Raise e).
Proof.
  split; [reflexivity|]. split; [reflexivity|]. split.
  - intros a w Hargs Htr Hsrc Hout. apply (pred_run a w Hargs Htr).
    destruct (Args.src_file a), (Args.output_file a); done.
  - exact pred_never_returns.
Qed.

(** C10.  With the adversarial flag off the constructor always raises:
    no dataset is loaded, so once the assertions have passed the read of
    [self.dataset] for the trainer raises [AttributeError], after
    [initialize_exp] and [build_model] and before any trainer exists.  The
    driver ends there, and enters no phase. *)
Theorem construction_without_adversarial_fails (a : Args.t) (w : World) :
  Args.adversarial a = false ->
  exists e w',
    AdvBert.new a w = (Raise e, w')
    /\ main a w = (Raise e, w')
    /\ attrs w' !! "dataset" = None
    /\ (e = AssertionError \/ e = AttributeError "dataset")
    /\ (params_ok a = true ->
        e = AttributeError "dataset"
        /\ events_since w w' = [EInitializeExp; EBuildModel]).
Proof.
  intros Hadv. destruct (params_ok a) eqn:Hok.
  - destruct (new_non_adversarial a w Hok Hadv) as (A & Hnew & HA).
    eexists _, _. split; [exact Hnew|]. split.
    { rewrite main_unfold. exact (bind_fail _ _ _ _ _ Hnew). }
    split; [exact HA|]. split; [auto|]. intros _.
    split; [reflexivity | apply events_since_app].
  - pose proof (new_rejects a w Hok) as Hnew.
    eexists _, _. split; [exact Hnew|]. split.
    { rewrite main_unfold. exact (bind_fail _ _ _ _ _ Hnew). }
    split; [reflexivity|]. split; [auto|]. done.
Qed.

Lemma constructed_with_device (a : Args.t) (d : Dataset) (A : gmap string value)
    (x : Ext) (t : list event) (dev : device) :
  A !! "args" = Some (VArgs a) ->
  A !! "logger" = Some VLogger ->
  A !! "dataset" = Some (VDataset d) ->
  A !! "trainer" = Some VTrainer ->
  A !! "evaluator" = Some VEvaluator ->
  constructed a d (mkWorld x (<["device" := VDevice dev]> A) t).
Proof.
  intros H1 H2 H3 H4 H5. unfold constructed. cbn [attrs].
  rewrite !lookup_insert_ne by done. rewrite lookup_insert.
  split_and!; done.
Qed.

(** X1.  A constructor call that returns leaves a constructed object, built
    from an accepted configuration with the adversarial flag set: every
    attribute the phases read is bound, the discriminator-step count is
    positive, and the dataset is the one [load] returned. *)
Theorem constructor_establishes_object (a : Args.t) (w w' : World) :
  AdvBert.new a w = (Ok tt, w') ->
  params_ok a = true
  /\ 0 < Args.dis_steps a
  /\ Args.adversarial a = true
  /\ exists d, constructed a d w'.
Proof.
  intros Hnew.
  destruct (params_ok a) eqn:Hok; [|rewrite new_rejects in Hnew by done; done].
  destruct (Args.adversarial a) eqn:Hadv.
  - split; [reflexivity|]. split; [apply (params_ok_true a Hok)|]. split; [reflexivity|].
    destruct (Args.input_file a) as [p|] eqn:Hin.
    + destruct (isfile p (initialize_exp a (ext w))) eqn:Hfile.
      * destruct (new_built a w p Hok Hadv Hin Hfile)
          as (A & HA1 & HA2 & HA3 & _ & HA5 & HA6 & Hrun).
        rewrite Hrun in Hnew. eexists.
        destruct (_ || _); [|destruct (device_index _); [|discriminate]];
          injection Hnew as <-;
          exact (constructed_with_device _ _ _ _ _ _ HA1 HA2 HA3 HA5 HA6).
      * destruct (new_missing_corpus a w Hok Hadv) as (e & A & evs & Hrun & _).
        { rewrite Hin. exact Hfile. }
        rewrite Hrun in Hnew. done.
    + destruct (new_missing_corpus a w Hok Hadv) as (e & A & evs & Hrun & _).
      { rewrite Hin. exact I. }
      rewrite Hrun in Hnew. done.
  - destruct (new_non_adversarial a w Hok Hadv) as (A & Hrun & _).
    rewrite Hrun in Hnew. done.
Qed.

Lemma train_batch_zero_print_every (a : Args.t) (d : Dataset) (w : World)
    (b : Batch) (s : loop_state) :
  constructed a d w ->
  0 < Args.dis_steps a ->
  Args.print_every_dis_steps a = 0 ->
  exists x evs,
    AdvBert.train_batch b s w
    = (Raise ZeroDivisionError, mkWorld x (attrs w) (trace w ++ evs))
    /\ steps_of evs
       = DisStep :: (if (n_dis_step s + 1) mod Args.dis_steps a =? 0 then [MapStep] else [])
    /\ Forall in_batch evs.
Proof.
  intros (Hargs & Hlog & Hds & Htr & Hev & Hdev) HK HP.
  destruct (attrs w !! "device") as [dev|] eqn:Hd; [|discriminate].
  unfold AdvBert.train_batch.
  destruct ((n_dis_step s + 1) mod Args.dis_steps a =? 0) eqn:EK;
    eexists _, _;
    (split; [repeat run_step; rewrite EK; repeat run_step;
             rewrite HP, bind_py_mod_zero; rewrite <- !app_assoc; reflexivity|]);
    (split; [reflexivity|]); repeat constructor.
Qed.

(** X2.  With [print_every_dis_steps = 0] an epoch that has a batch does
    not finish its first one: after the discriminator step (and the mapping
    step, when [dis_steps] is 1) the test [n_dis_step % 0] raises
    [ZeroDivisionError], and the epoch is never validated. *)
Theorem zero_print_every_aborts_epoch (a : Args.t) (d : Dataset) (w : World)
    (n_epoch : Z) (b : Batch) (bs : list Batch) :
  constructed a d w ->
  0 < Args.dis_steps a ->
  Args.print_every_dis_steps a = 0 ->
  (iter_loader d (Args.batch_size a) (ext w)).1 = b :: bs ->
  exists w',
    AdvBert.train_epoch (d, Args.batch_size a) n_epoch w = (Raise ZeroDivisionError, w')
    /\ steps_of (events_since w w') = schedule (Args.dis_steps a) 1
    /\ scores_of (events_since w w') = [].
Proof.
  intros Hc HK HP Hit. pose proof Hc as (Hargs & Hlog & Hds & Htr & Hev & Hdev).
  remember (AdvBert.train_epoch (d, Args.batch_size a) n_epoch w) as r eqn:Hr.
  revert Hr. unfold AdvBert.train_epoch. cbn [fst snd]. repeat run_step.
  rewrite Hit. cbn [for_each]. rewrite bind_assoc.
  match goal with
  | |- _ = (AdvBert.train_batch _ ?s ≫= _) ?W -> _ =>
      destruct (train_batch_zero_print_every a d W b s Hc HK HP)
        as (x & evs & Hrun & Hsteps & Hin);
      rewrite (bind_fail _ _ _ _ _ Hrun)
  end.
  intros ->. eexists. split; [reflexivity|].
  unfold events_since. cbn [trace]. rewrite <- !app_assoc, drop_app_length.
  destruct (in_batch_no_validation _ Hin) as (Hs & _ & _).
  unfold steps_of, scores_of in *. rewrite !omap_app, Hs, Hsteps.
  unfold schedule, schedule_from. cbn [seq flat_map]. rewrite app_nil_r.
  split; reflexivity.
Qed.
(** * Further properties of the driver *)

(** ** The assertions of the constructor *)
Lemma config_in_range_ok (a : Args.t) : config_in_range a -> params_ok a = true.
Proof.
  unfold config_in_range, in_unit_interval, params_ok.
  intros ((H1 & H2) & (H3 & H4) & (H5 & H6) & H7 & H8 & (H9 & H10) & H11).
  rewrite !andb_true_iff, !leb_le, !ltb_lt.
  split_and!; try assumption.
  - apply Z.ltb_lt. exact H8.
  - destruct (Args.adversarial a); [|reflexivity].
    destruct (Args.model_path a); [reflexivity|]. exfalso. exact (H11 eq_refl eq_refl).
Qed.

Lemma nan_not_in_range (a : Args.t) :
  Args.dis_dropout a = PyFloat.NaN
  \/ Args.dis_input_dropout a = PyFloat.NaN
  \/ Args.dis_smooth a = PyFloat.NaN
  \/ Args.dis_lambda a = PyFloat.NaN
  \/ Args.lr_shrink a = PyFloat.NaN ->
  ~ config_in_range a.
Proof.
  unfold config_in_range, in_unit_interval.
  intros Hnan ((H1 & H2) & (H3 & H4) & (H5 & H6) & H7 & H8 & (H9 & H10) & H11).
  destruct Hnan as [E|[E|[E|[E|E]]]]; rewrite E in *; simpl in *; assumption.
Qed.

(** X3.  The assertions at the head of the constructor accept exactly the
    configurations that are in range: both dropout rates in [[0,1)], the
    smoothing in [[0,0.5)], a positive lambda, a positive number of
    discriminator steps, a shrink factor in [(0,1]], and a model path
    whenever adversarial training is on.  Every other configuration, any
    with a NaN among the five floats included, raises [AssertionError], and
    in both cases the checks leave the world as it is. *)
Theorem check_parameters_accepts_exactly (a : Args.t) (w : World) :
  attrs w !! "args" = Some (VArgs a) ->
  (AdvBert.check_parameters w = (Ok tt, w) <-> config_in_range a)
  /\ (~ config_in_range a -> AdvBert.check_parameters w = (Raise AssertionError, w))
  /\ (Args.dis_dropout a = PyFloat.NaN
      \/ Args.dis_input_dropout a = PyFloat.NaN
      \/ Args.dis_smooth a = PyFloat.NaN
      \/ Args.dis_lambda a = PyFloat.NaN
      \/ Args.lr_shrink a = PyFloat.NaN ->
      AdvBert.check_parameters w = (Raise AssertionError, w)).
Proof.
  intros Hargs. rewrite (check_parameters_run a w Hargs).
  assert (Hrej : ~ config_in_range a ->
                 (if params_ok a then Ok tt else Raise AssertionError, w)
                 = (@Raise unit AssertionError, w)).
  { intros Hn. destruct (params_ok a) eqn:Hok; [|reflexivity].
    exfalso. apply Hn. apply params_ok_true in Hok. exact Hok. }
  split_and!.
  - split.
    + destruct (params_ok a) eqn:Hok; [|discriminate].
      intros _. apply params_ok_true in Hok. exact Hok.
    + intros Hin. rewrite (config_in_range_ok a Hin). reflexivity.
  - exact Hrej.
  - intros Hnan. apply Hrej. apply nan_not_in_range. exact Hnan.
Qed.


(** ** The constructor, case by case *)
Lemma new_outcome (a : Args.t) (w : World) :
  (AdvBert.new a w).1 = constructor_outcome a w.
Proof.
  unfold constructor_outcome, device_accepted.
  destruct (params_ok a) eqn:Hok; cbn [negb].
  2:{ rewrite (new_rejects a w Hok). reflexivity. }
  destruct (Args.adversarial a) eqn:Hadv; cbn [negb].
  2:{ destruct (new_non_adversarial a w Hok Hadv) as (A & -> & _). reflexivity. }
  destruct (Args.input_file a) as [p|] eqn:Hin.
  - destruct (isfile p (initialize_exp a (ext w))) eqn:Hfile.
    + destruct (new_built a w p Hok Hadv Hin Hfile) as (A & _ & _ & _ & _ & _ & _ & ->).
      destruct (_ || _); [reflexivity|].
      destruct (device_index _); reflexivity.
    + destruct (new_missing_corpus a w Hok Hadv) as (e & A & evs & -> & He).
      { rewrite Hin. exact Hfile. }
      rewrite Hin in He. destruct He as [-> _]. reflexivity.
  - destruct (new_missing_corpus a w Hok Hadv) as (e & A & evs & -> & He).
    { rewrite Hin. exact I. }
    rewrite Hin in He. destruct He as [-> _]. reflexivity.
Qed.

(** A constructor call that returned, taken apart. *)
Lemma new_returns (a : Args.t) (w w' : World) :
  AdvBert.new a w = (Ok tt, w') ->
  exists (p : string) (A : gmap string value) (dev : device) (devs : list event),
    let x0 := initialize_exp a (ext w) in
    let l := load (Args.vocab_file a) p (Args.batch_size a) (Args.do_lower_case a)
                  (Args.max_seq_length a) (Args.local_rank a) x0 in
    let x3 := BertEvaluator l.1.2 (BertTrainer l.1.1 a (build_model a l.2)) in
    params_ok a = true
    /\ Args.adversarial a = true
    /\ Args.input_file a = Some p
    /\ isfile p x0 = true
    /\ A !! "args" = Some (VArgs a)
    /\ A !! "logger" = Some VLogger
    /\ A !! "dataset" = Some (VDataset l.1.1)
    /\ A !! "features" = Some (VFeatures l.1.2)
    /\ A !! "trainer" = Some VTrainer
    /\ A !! "evaluator" = Some VEvaluator
    /\ w' = mkWorld x3 (<["device" := VDevice dev]> A)
              (trace w
               ++ [EInitializeExp; EIsFile p true; ELoad p; EBuildModel;
                   EBertTrainer; EBertEvaluator]
               ++ devs)
    /\ (((Args.local_rank a =? -1) || Args.no_cuda a = true
         /\ dev = (if cuda_is_available x3 && negb (Args.no_cuda a) then Cuda None else Cpu)
         /\ devs = [ECudaIsAvailable (cuda_is_available x3)])
        \/ ((Args.local_rank a =? -1) || Args.no_cuda a = false
            /\ devs = []
            /\ exists i, device_index (Args.local_rank a) = Some i /\ dev = Cuda (Some i))).
Proof.
  intros Hnew. pose proof (new_outcome a w) as Hout.
  rewrite Hnew in Hout. unfold constructor_outcome in Hout. cbn [fst] in Hout.
  destruct (params_ok a) eqn:Hok; cbn [negb] in Hout; [|discriminate].
  destruct (Args.adversarial a) eqn:Hadv; cbn [negb] in Hout; [|discriminate].
  destruct (Args.input_file a) as [p|] eqn:Hin; [|discriminate].
  destruct (isfile p (initialize_exp a (ext w))) eqn:Hfile; [|discriminate].
  destruct (new_built a w p Hok Hadv Hin Hfile)
    as (A & HA1 & HA2 & HA3 & HA4 & HA5 & HA6 & Hrun).
  rewrite Hrun in Hnew. exists p, A.
  destruct (_ || _) eqn:Hasks.
  - injection Hnew as <-. eexists _, _. cbv zeta.
    split_and!; try done. left. done.
  - destruct (device_index _) as [i|] eqn:Hi; [|discriminate].
    injection Hnew as <-. exists (Cuda (Some i)), []. cbv zeta.
    rewrite app_nil_r. split_and!; try done. right. eauto.
Qed.

(** X4.  How [AdvBert(args)] ends is decided by the configuration, the
    file system and the library's answer on the device index:
    [AssertionError] when an assertion rejects the configuration, else
    [AttributeError] on [dataset] when adversarial training is off, else
    [TypeError] when no input file is given, else [AssertionError] when the
    file does not exist, else [RuntimeError] when [torch.device] refuses
    the index [local_rank], and a normal return in the one remaining case.
    So the constructor returns exactly when the configuration is in range,
    adversarial training is on, the corpus exists and the device is
    accepted; with [no_cuda] off it never returns on a [local_rank] below
    [-1]. *)
Theorem constructor_outcome_table (a : Args.t) (w : World) :
  (AdvBert.new a w).1 = constructor_outcome a w
  /\ ((exists w', AdvBert.new a w = (Ok tt, w'))
      <-> config_in_range a
          /\ Args.adversarial a = true
          /\ (exists p, Args.input_file a = Some p
                        /\ isfile p (initialize_exp a (ext w)) = true)
          /\ device_accepted a = true)
  /\ (Args.no_cuda a = false /\ Args.local_rank a < -1 <->
      device_accepted a = false /\ Args.local_rank a < -1).
Proof.
  pose proof (new_outcome a w) as Hout. split; [exact Hout|].
  unfold constructor_outcome in Hout. split; [split|].
  - intros (w' & Hnew). rewrite Hnew in Hout. cbn [fst] in Hout.
    destruct (params_ok a) eqn:Hok; cbn [negb] in Hout; [|discriminate].
    destruct (Args.adversarial a); cbn [negb] in Hout; [|discriminate].
    destruct (Args.input_file a) as [p|]; [|discriminate].
    destruct (isfile p (initialize_exp a (ext w))) eqn:Hfile; [|discriminate].
    destruct (device_accepted a); [|discriminate].
    split; [exact (params_ok_true a Hok)|]. split; [reflexivity|]. eauto.
  - intros (Hin & Hadv & (p & Hp & Hfile) & Hdev).
    rewrite (config_in_range_ok a Hin), Hadv, Hp, Hfile, Hdev in Hout. cbn [negb] in Hout.
    destruct (AdvBert.new a w) as [[[]|e] w']; [eauto | discriminate].
  - unfold device_accepted. split.
    + intros (Hcuda & Hrank). split; [|exact Hrank].
      rewrite Hcuda, (device_index_negative _ Hrank).
      destruct (Z.eqb_spec (Args.local_rank a) (-1)); [lia | reflexivity].
    + intros (Hacc & Hrank). split; [|exact Hrank].
      destruct (Args.no_cuda a); [|reflexivity].
      rewrite orb_true_r in Hacc. discriminate.
Qed.

(** X5.  A constructor call that returns has called [initialize_exp],
    [isfile], [load], [build_model], [BertTrainer] and [BertEvaluator] once
    each, in this order.  The trainer is built on the dataset and the
    evaluator on the features that this one [load] of the input file
    returned, the model is built on the state [load] left, and these are the
    dataset and features bound on [self]. *)
Theorem constructor_builds_on_loaded_data (a : Args.t) (w w' : World) :
  AdvBert.new a w = (Ok tt, w') ->
  exists p devs,
    Args.input_file a = Some p
    /\ let l := load (Args.vocab_file a) p (Args.batch_size a) (Args.do_lower_case a)
                     (Args.max_seq_length a) (Args.local_rank a)
                     (initialize_exp a (ext w)) in
       ext w' = BertEvaluator l.1.2 (BertTrainer l.1.1 a (build_model a l.2))
       /\ attrs w' !! "dataset" = Some (VDataset l.1.1)
       /\ attrs w' !! "features" = Some (VFeatures l.1.2)
       /\ events_since w w'
          = [EInitializeExp; EIsFile p true; ELoad p; EBuildModel;
             EBertTrainer; EBertEvaluator] ++ devs
       /\ Forall (fun e => exists yes, e = ECudaIsAvailable yes) devs.
Proof.
  intros Hnew. destruct (new_returns a w w' Hnew) as (p & A & dev & devs & Hn).
  cbv zeta in Hn.
  destruct Hn as (_ & _ & Hin & _ & _ & _ & Hd & Hf & _ & _ & -> & Hdev).
  exists p, devs. split; [exact Hin|]. cbv zeta. cbn [ext attrs].
  rewrite !lookup_insert_ne by done. rewrite events_since_app.
  split_and!; try done.
  destruct Hdev as [(_ & _ & ->) | (_ & -> & _)]; repeat constructor. eauto.
Qed.

(** X6.  The device a constructed object holds.  With [--no_cuda] it is the
    CPU, whatever the rank.  Without it and with a rank other than [-1] it
    is the CUDA device with the index [torch.device] made of the rank,
    chosen without asking whether CUDA is available; the rank is then not
    negative, since the constructor does not return on a rank that
    [torch.device] refuses.  With the default rank [-1] it is CUDA when
    available and the CPU otherwise.  [torch.cuda.is_available] is asked
    exactly in the first and last case. *)
Theorem constructor_selects_device (a : Args.t) (w w' : World) :
  AdvBert.new a w = (Ok tt, w') ->
  exists dev,
    attrs w' !! "device" = Some (VDevice dev)
    /\ (Args.no_cuda a = true -> dev = Cpu)
    /\ (Args.no_cuda a = false -> Args.local_rank a <> -1 ->
        0 <= Args.local_rank a
        /\ (exists i, device_index (Args.local_rank a) = Some i /\ dev = Cuda (Some i))
        /\ Forall (fun e => forall yes, e <> ECudaIsAvailable yes) (events_since w w'))
    /\ (Args.no_cuda a = false -> Args.local_rank a = -1 ->
        dev = (if cuda_is_available (ext w') then Cuda None else Cpu))
    /\ (Args.no_cuda a = true \/ Args.local_rank a = -1 ->
        In (ECudaIsAvailable (cuda_is_available (ext w'))) (events_since w w')).
Proof.
  intros Hnew. destruct (new_returns a w w' Hnew) as (p & A & dev & devs & Hn).
  cbv zeta in Hn.
  destruct Hn as (_ & _ & _ & _ & _ & _ & _ & _ & _ & _ & -> & Hdev).
  exists dev. cbn [attrs ext]. rewrite lookup_insert, events_since_app.
  split; [reflexivity|].
  match goal with
  | |- context [cuda_is_available ?x] => set (x3 := x) in *
  end.
  destruct Hdev as [(Hasks & -> & ->) | (Hasks & -> & i & Hi & ->)].
  - apply orb_true_iff in Hasks. split_and!.
    + intros ->. rewrite andb_false_r. reflexivity.
    + intros Hc Hr. destruct Hasks as [Hx%Z.eqb_eq | Hx]; [done | congruence].
    + intros ->. rewrite andb_true_r. reflexivity.
    + intros _. simpl. auto 10.
  - apply orb_false_iff in Hasks as (Hr%Z.eqb_neq & Hc). split_and!.
    + congruence.
    + intros _ _. split_and!.
      * destruct (Z.lt_ge_cases (Args.local_rank a) (-1)) as [Hlt|Hge]; [|lia].
        rewrite (device_index_negative _ Hlt) in Hi. discriminate.
      * eauto.
      * rewrite app_nil_r. repeat constructor; intros; discriminate.
    + done.
    + intros [Hx | Hx]; congruence.
Qed.

(** ** What the phases leave alone, and what they may raise *)
Lemma ks_mret (Q : exn -> Prop) {A : Type} (a : A) : keeps_self Q (mret a).
Proof. intros w. split; [reflexivity | discriminate]. Qed.

Lemma ks_raise (Q : exn -> Prop) {A : Type} (e : exn) :
  Q e -> keeps_self Q (raise e : M A).
Proof. intros He w. split; [reflexivity|]. intros e' [= <-]. exact He. Qed.

Lemma ks_emit (Q : exn -> Prop) (e : event) : keeps_self Q (emit e).
Proof. intros w. split; [reflexivity | discriminate]. Qed.

Lemma ks_call (Q : exn -> Prop) {A : Type} (f : Ext -> A * Ext) (ev : A -> event) :
  keeps_self Q (call f ev).
Proof. intros w. split; [reflexivity | discriminate]. Qed.

Lemma ks_call_ (Q : exn -> Prop) (f : Ext -> Ext) (ev : event) :
  keeps_self Q (call_ f ev).
Proof. intros w. split; [reflexivity | discriminate]. Qed.

Lemma ks_observe (Q : exn -> Prop) {A : Type} (f : Ext -> A) (ev : A -> event) :
  keeps_self Q (observe f ev).
Proof. intros w. split; [reflexivity | discriminate]. Qed.

Lemma ks_getattr (Q : exn -> Prop) (n : string) :
  Q (AttributeError n) -> keeps_self Q (getattr n).
Proof.
  intros HQ w. unfold getattr. destruct (attrs w !! n); cbn.
  - split; [reflexivity | discriminate].
  - split; [reflexivity|]. intros e [= <-]. exact HQ.
Qed.

Lemma ks_load_global (Q : exn -> Prop) (n : string) :
  is_bound n = true \/ Q (NameError n) -> keeps_self Q (load_global n).
Proof.
  unfold is_bound, load_global, binding.
  destruct (lookup_global n); intros Hn.
  - apply ks_mret.
  - apply ks_raise. destruct Hn; done.
Qed.

Lemma ks_py_assert (Q : exn -> Prop) (b : bool) :
  Q AssertionError -> keeps_self Q (py_assert b).
Proof. intros HQ. destruct b; [apply ks_mret | apply ks_raise, HQ]. Qed.

Lemma ks_py_mod (Q : exn -> Prop) (a b : Z) :
  Q ZeroDivisionError -> keeps_self Q (py_mod a b).
Proof.
  intros HQ. unfold py_mod. destruct (b =? 0); [apply ks_raise, HQ | apply ks_mret].
Qed.

Lemma ks_bind (Q : exn -> Prop) {A B : Type} (m : M A) (k : A -> M B) :
  keeps_self Q m -> (forall a, keeps_self Q (k a)) -> keeps_self Q (m ≫= k).
Proof.
  intros Hm Hk w. destruct (Hm w) as (Ha & Hq).
  unfold mbind, M_bind. destruct (m w) as [[a|e] w1]; cbn in *.
  - destruct (Hk a w1) as (Ha2 & Hq2). split; [congruence | exact Hq2].
  - split; [exact Ha|]. intros e' [= <-]. apply Hq. reflexivity.
Qed.

Lemma ks_for_each (Q : exn -> Prop) {A S : Type} (xs : list A) (body : A -> S -> M S) :
  (forall x s, keeps_self Q (body x s)) -> forall s, keeps_self Q (for_each xs body s).
Proof.
  intros Hb. induction xs as [|x xs IH]; intros s; cbn [for_each].
  - apply ks_mret.
  - apply ks_bind; [apply Hb | exact IH].
Qed.

Lemma ks_for_break (Q : exn -> Prop) {A : Type} (xs : list A) (body : A -> M control) :
  (forall x, keeps_self Q (body x)) -> keeps_self Q (for_break xs body).
Proof.
  intros Hb. induction xs as [|x xs IH]; cbn [for_break].
  - apply ks_mret.
  - apply ks_bind; [apply Hb|]. intros []; [exact IH | apply ks_mret].
Qed.

Lemma ks_py_library (Q : exn -> Prop) (accepted : bool) (e : exn) :
  Q e -> keeps_self Q (py_library accepted e).
Proof. intros HQ. destruct accepted; [apply ks_mret | apply ks_raise, HQ]. Qed.

Lemma ks_py_rate (Q : exn -> Prop) (n : Z) (dt : QArith_base.Q) :
  Q ZeroDivisionError -> Q OverflowError -> keeps_self Q (py_rate n dt).
Proof.
  intros HZ HO. unfold py_rate.
  destruct (too_large (inject_Z n)); [apply ks_raise, HO|].
  destruct (Qeq_bool dt 0); [apply ks_raise, HZ|].
  destruct (too_large (inject_Z n / dt)); [apply ks_raise, HO | apply ks_mret].
Qed.

Ltac ks_step :=
  first
    [ apply ks_mret
    | apply ks_raise; first [exact I | reflexivity]
    | apply ks_emit
    | apply ks_call
    | apply ks_call_
    | apply ks_observe
    | apply ks_getattr; exact I
    | apply ks_load_global; first [left; reflexivity | right; reflexivity]
    | apply ks_py_assert; exact I
    | apply ks_py_mod; exact I
    | apply ks_py_library; exact I
    | apply ks_py_rate; exact I
    | apply ks_for_each; intros
    | apply ks_for_break; intros
    | apply ks_bind; [|intros ?]
    | match goal with
      | |- keeps_self _ (if ?b then _ else _) => destruct b
      | |- keeps_self _ (match ?x with _ => _ end) => destruct x
      end ].

Lemma ks_train_adv : keeps_self train_adv_exn AdvBert.train_adv.
Proof.
  unfold AdvBert.train_adv, AdvBert.train_epoch, AdvBert.train_batch.
  repeat ks_step.
Qed.

Lemma ks_refine : keeps_self refine_exn AdvBert.refine.
Proof. unfold AdvBert.refine, AdvBert.refine_iteration. repeat ks_step. Qed.

Lemma ks_pred : keeps_self pred_exn AdvBert.pred.
Proof. unfold AdvBert.pred. repeat ks_step. Qed.

(** X7.  The three phases never rebind an attribute of [self], whatever
    the state they are called on (so [pred] never gets to set
    [pred_dataset] or [test_features]), and the exceptions that leave them
    are: from [train_adv], [AttributeError], the [ValueError] of the
    sampler or the loader, and the [ZeroDivisionError] and [OverflowError]
    of the statistics line; from [refine], [AttributeError]; from [pred],
    [AssertionError], [AttributeError] and the [NameError] of
    [load_single].  No assertion and no unbound name can stop [train_adv]
    or [refine]. *)
Theorem phases_keep_self :
  keeps_self train_adv_exn AdvBert.train_adv
  /\ keeps_self refine_exn AdvBert.refine
  /\ keeps_self pred_exn AdvBert.pred.
Proof. exact (conj ks_train_adv (conj ks_refine ks_pred)). Qed.

(** ** Whole runs of [train_adv], whatever their outcome *)
Lemma epochs_loop_sizes (a : Args.t) (d : Dataset) (ns : list Z) :
  forall (w : World) (r : res unit) (x : Ext) (evs : list event),
  constructed a d w ->
  0 < Args.dis_steps a ->
  for_break ns (AdvBert.train_epoch (d, Args.batch_size a)) w
  = (r, mkWorld x (attrs w) (trace w ++ evs)) ->
  Forall (fun n => exists x', n = length (iter_loader d (Args.batch_size a) x').1)
         (sizes_of evs).
Proof.
  induction ns as [|n0 ns IH]; intros w r x evs Hc HK.
  - cbn [for_break]. unfold mret, M_ret. intros Heq.
    assert (Ht : trace w ++ [] = trace w ++ evs).
    { rewrite app_nil_r. destruct w. cbn [trace attrs] in *. congruence. }
    apply app_inv_head in Ht. subst evs. constructor.
  - destruct (train_epoch_summary a d w n0 Hc HK)
      as (r1 & x1 & E & m & Hrun & _ & Ez & _).
    cbn [for_break]. destruct r1 as [[]|e].
    + rewrite (bind_ok _ _ _ _ _ Hrun).
      set (W1 := mkWorld x1 (attrs w) (trace w ++ E)).
      destruct (epochs_loop_run a d ns W1 (constructed_frame _ _ _ _ _ Hc) HK)
        as (r' & x' & evs' & ms & Hrun' & _).
      rewrite Hrun'. cbn [attrs trace W1]. intros Heq.
      assert (Ht : trace w ++ E ++ evs' = trace w ++ evs).
      { rewrite app_assoc. congruence. }
      apply app_inv_head in Ht. subst evs.
      unfold sizes_of. rewrite omap_app. apply Forall_app. split.
      * fold (sizes_of E). rewrite Ez. repeat constructor. eauto.
      * exact (IH W1 r' x' evs' (constructed_frame _ _ _ _ _ Hc) HK Hrun').
    + rewrite (bind_ok _ _ _ _ _ Hrun). unfold mret, M_ret. intros Heq.
      assert (Ht : trace w ++ E = trace w ++ evs) by congruence.
      apply app_inv_head in Ht. subst evs. rewrite Ez. repeat constructor. eauto.
    + rewrite (bind_fail _ _ _ _ _ Hrun). intros Heq.
      assert (Ht : trace w ++ E = trace w ++ evs) by congruence.
      apply app_inv_head in Ht. subst evs. rewrite Ez. repeat constructor. eauto.
Qed.

Lemma train_adv_run (a : Args.t) (d : Dataset) (w : World) :
  constructed a d w ->
  0 < Args.dis_steps a ->
  let P := Args.print_every_dis_steps a in
  exists r x evs,
    AdvBert.train_adv w = (r, mkWorld x (attrs w) (trace w ++ evs))
    /\ saved_of evs = scores_of evs
    /\ updated_of evs = scores_of evs
    /\ length (scores_of evs) = length (readings_of evs)
    /\ (length (starts_of evs) <= Z.to_nat (Args.n_epochs a))%nat
    /\ phases_of evs = []
    /\ reloads_of evs = 0%nat
    /\ Forall (fun n => exists x', n = length (iter_loader d (Args.batch_size a) x').1)
              (sizes_of evs)
    /\ match r with
       | Ok _ =>
           sampler_accepts d = true
           /\ loader_accepts d (Args.batch_size a) = true
           /\ length (starts_of evs) = length (readings_of evs)
           /\ stat_logs_of evs = flat_map (multiples_upto P) (sizes_of evs)
       | Raise e =>
           (e = ValueError
            /\ sampler_accepts d && loader_accepts d (Args.batch_size a) = false
            /\ x = ext w
            /\ evs = [ELog LogAdversarialTraining])
           \/ (stats_exn e
               /\ length (starts_of evs) = S (length (readings_of evs))
               /\ exists done m n,
                    sizes_of evs = done ++ [n]
                    /\ (1 <= m <= n)%nat /\ stats_due P m
                    /\ stat_logs_of evs
                       = flat_map (multiples_upto P) done ++ multiples_upto P (m - 1))
       end.
Proof.
  intros Hc HK P. rewrite (train_adv_unfold a d w Hc). cbv zeta.
  destruct (sampler_accepts d && loader_accepts d (Args.batch_size a)) eqn:Hacc.
  - match goal with
    | |- context [for_break ?ns _ ?W] =>
        pose proof (epochs_loop_sizes a d ns W) as Hsz;
        destruct (epochs_loop_run a d ns W (constructed_frame _ _ _ _ _ Hc) HK)
          as (r & x & evs & ms & Hrun & _ & _ & Hst & _ & _ & Hsv & Hup & Hlen & Hph & Hrl
              & _ & _ & Hr)
    end.
    specialize (Hsz r x evs (constructed_frame _ _ _ _ _ Hc) HK Hrun).
    rewrite Hrun. cbn [attrs trace]. rewrite <- app_assoc.
    exists r, x, ([ELog LogAdversarialTraining] ++ evs). split; [reflexivity|].
    change (saved_of ([ELog LogAdversarialTraining] ++ evs)) with (saved_of evs).
    change (scores_of ([ELog LogAdversarialTraining] ++ evs)) with (scores_of evs).
    change (updated_of ([ELog LogAdversarialTraining] ++ evs)) with (updated_of evs).
    change (readings_of ([ELog LogAdversarialTraining] ++ evs)) with (readings_of evs).
    change (starts_of ([ELog LogAdversarialTraining] ++ evs)) with (starts_of evs).
    change (phases_of ([ELog LogAdversarialTraining] ++ evs)) with (phases_of evs).
    change (reloads_of ([ELog LogAdversarialTraining] ++ evs)) with (reloads_of evs).
    change (sizes_of ([ELog LogAdversarialTraining] ++ evs)) with (sizes_of evs).
    change (stat_logs_of ([ELog LogAdversarialTraining] ++ evs)) with (stat_logs_of evs).
    apply andb_true_iff in Hacc as (Hs & Hl).
    split_and!; try done.
    + rewrite Hst, length_take, length_py_range. lia.
    + destruct r as [u|e].
      * destruct Hr as (_ & Hl' & Hlg). done.
      * destruct Hr as (He & Hl' & done & m & n & _ & Hsz' & Hm & Hdue & Hlg).
        right. split_and!; try done. exists done, m, n. done.
  - exists (Raise ValueError), (ext w), [ELog LogAdversarialTraining].
    split; [reflexivity|]. cbn. split_and!; try done; try lia.
    left. done.
Qed.

(** Without a statistics line that falls due, and with its sampler and
    loader accepted, [train_adv] returns. *)
Lemma train_adv_returns (a : Args.t) (d : Dataset) (w : World) :
  constructed a d w ->
  0 < Args.dis_steps a ->
  sampler_accepts d = true ->
  loader_accepts d (Args.batch_size a) = true ->
  no_line_due d (Args.batch_size a) (Args.print_every_dis_steps a) ->
  (AdvBert.train_adv w).1 = Ok tt.
Proof.
  intros Hc HK Hs Hl Hno.
  destruct (train_adv_run a d w Hc HK)
    as (r & x & evs & Hrun & _ & _ & _ & _ & _ & _ & Hsz & Hr).
  rewrite Hrun. cbn [fst]. destruct r as [[]|e]; [reflexivity|].
  destruct Hr as [(_ & Hacc & _) | (_ & _ & done & m & n & Hsizes & Hm & Hdue & _)].
  - rewrite Hs, Hl in Hacc. discriminate.
  - exfalso. rewrite Hsizes in Hsz. apply Forall_app in Hsz as (_ & Hn).
    apply Forall_inv in Hn as (x' & ->). exact (Hno x' m Hm Hdue).
Qed.


(** X9.  In an epoch that returns, a statistics line was logged exactly
    after the batches whose number, counted from one within the epoch, is a
    multiple of [print_every_dis_steps], and it carries that number.  An
    epoch that raises was stopped at the statistics line of a batch [m]
    whose number is such a multiple (or [print_every_dis_steps] is zero),
    by [ZeroDivisionError] or [OverflowError], and it logged the lines of
    the batches before [m].  Over a run of [train_adv] the lines are those
    of the epochs, one epoch after the other, the count starting afresh in
    each; a run refused its sampler or loader logs none. *)
Theorem statistics_logged_every_P_batches (a : Args.t) (d : Dataset) (w : World) :
  constructed a d w ->
  0 < Args.dis_steps a ->
  let P := Args.print_every_dis_steps a in
  (forall n_epoch : Z,
     let r := AdvBert.train_epoch (d, Args.batch_size a) n_epoch w in
     let n := length (iter_loader d (Args.batch_size a) (ext w)).1 in
     let logs := stat_logs_of (events_since w r.2) in
     (forall c, r.1 = Ok c -> logs = multiples_upto P n)
     /\ (forall e, r.1 = Raise e ->
           stats_exn e
           /\ exists m, (1 <= m <= n)%nat /\ stats_due P m
                        /\ logs = multiples_upto P (m - 1)))
  /\ (let r := AdvBert.train_adv w in
      let evs := events_since w r.2 in
      (r.1 = Ok tt -> stat_logs_of evs = flat_map (multiples_upto P) (sizes_of evs))
      /\ (forall e, r.1 = Raise e ->
            (e = ValueError /\ stat_logs_of evs = [])
            \/ (stats_exn e
                /\ exists done m n,
                     sizes_of evs = done ++ [n]
                     /\ (1 <= m <= n)%nat /\ stats_due P m
                     /\ stat_logs_of evs
                        = flat_map (multiples_upto P) done ++ multiples_upto P (m - 1)))).
Proof.
  intros Hc HK P. split.
  - intros n_epoch.
    destruct (train_epoch_summary a d w n_epoch Hc HK)
      as (r & x & evs & m & Hrun & _ & _ & Hm & _ & _ & _ & Hr).
    cbv zeta. rewrite Hrun. cbn [fst snd]. rewrite events_since_app.
    destruct r as [c|e].
    + destruct Hr as (_ & Hlogs & _). split; [intros _ _; exact Hlogs | discriminate].
    + destruct Hr as (Hm1 & He & Hdue & Hlogs & _). split; [discriminate|].
      intros e' [= <-]. split; [exact He|]. exists m. split_and!; try done. 
  - destruct (train_adv_run a d w Hc HK)
      as (r & x & evs & Hrun & _ & _ & _ & _ & _ & _ & _ & Hr).
    cbv zeta. rewrite Hrun. cbn [fst snd]. rewrite events_since_app. split.
    + intros ->. destruct Hr as (_ & _ & _ & Hlg). exact Hlg.
    + intros e ->. destruct Hr as [(-> & _ & _ & ->) | (He & _ & Hd)].
      * left. done.
      * right. done.
Qed.

(** X17.  The statistics line divides the words processed by the time
    since [tic] was read.  A batch whose statistics line is due returns
    only if the clock read on that line differs from [tic]; it then logs
    the line, reads the clock once more into [tic] and starts the word
    count and the statistics afresh.  If the clock still stands where [tic]
    was read, the batch ends in [ZeroDivisionError] or [OverflowError],
    after its training steps and without a statistics line. *)
Theorem statistics_line_needs_the_clock_to_advance
    (a : Args.t) (d : Dataset) (w : World) (b : Batch) (s : loop_state) :
  constructed a d w ->
  0 < Args.dis_steps a ->
  let n := n_dis_step s + 1 in
  let P := Args.print_every_dis_steps a in
  P <> 0 ->
  n mod P = 0 ->
  let r := AdvBert.train_batch b s w in
  let evs := events_since w r.2 in
  steps_of evs = DisStep :: (if n mod Args.dis_steps a =? 0 then [MapStep] else [])
  /\ (forall s', r.1 = Ok s' ->
        ~ (time_time (ext r.2) == tic s)%Q
        /\ stat_logs_of evs = [n]
        /\ tic s' = time_time (ext r.2)
        /\ n_dis_step s' = n)
  /\ ((time_time (ext r.2) == tic s)%Q ->
      exists e, r.1 = Raise e /\ stats_exn e /\ stat_logs_of evs = []).
Proof.
  intros Hc HK n P HP Hdue. cbv zeta.
  destruct (train_batch_run a d w b s Hc HK) as (r & x & evs & Hrun & Hsteps & _ & Hr).
  fold n P in Hr, Hsteps. rewrite Hrun. cbn [fst snd ext]. rewrite events_since_app.
  split; [exact Hsteps|].
  apply Z.eqb_eq in Hdue. rewrite Hdue in Hr.
  destruct r as [s'|e].
  - destruct Hr as (Hn & _ & Hlogs & Hclock & Htic). split.
    + intros s'' [= <-]. done.
    + intros Heq. done.
  - destruct Hr as (He & _ & Hlogs). split; [discriminate|]. intros _. eauto.
Qed.
(** ** Refinement, and loops that have nothing to do *)
Lemma iterations_summary (rm : bool) (l : list (Z * PyFloat.t)) :
  let evs := flat_map (iteration_events rm) l in
  scores_of evs = l.*2 /\ saved_of evs = l.*2 /\ solves_of evs = length l
  /\ updated_of evs = [] /\ readings_of evs = [] /\ steps_of evs = []
  /\ sizes_of evs = [] /\ reloads_of evs = 0%nat /\ phases_of evs = [].
Proof.
  cbv zeta. induction l as [|[i sc] l IH]; [done|].
  destruct IH as (H1 & H2 & H3 & H4 & H5 & H6 & H7 & H8 & H9).
  unfold scores_of, saved_of, solves_of, updated_of, readings_of, steps_of, sizes_of,
    reloads_of, phases_of in *.
  cbn [flat_map iteration_events fst snd app omap list_omap fmap list_fmap length].
  rewrite H1, H2, H3, H4, H5, H6, H7, H8, H9. done.
Qed.

Lemma refine_full (a : Args.t) (d : Dataset) (w : World) :
  constructed a d w ->
  exists x evs,
    AdvBert.refine w = (Ok tt, mkWorld x (attrs w) (trace w ++ evs))
    /\ saved_of evs = scores_of evs
    /\ length (scores_of evs) = Z.to_nat (Args.n_refinement a)
    /\ solves_of evs = Z.to_nat (Args.n_refinement a)
    /\ updated_of evs = [] /\ readings_of evs = [] /\ steps_of evs = []
    /\ sizes_of evs = [] /\ reloads_of evs = 1%nat.
Proof.
  intros Hc. destruct (refine_run a d w Hc) as (x & scores & Hrun & Hlen).
  eexists x, _. split; [exact Hrun|].
  destruct (iterations_summary (Args.rm_stop_words a)
              (zip (py_range (Args.n_refinement a)) scores))
    as (H1 & H2 & H3 & H4 & H5 & H6 & H7 & H8 & H9).
  assert (Hz : length (zip (py_range (Args.n_refinement a)) scores)
               = Z.to_nat (Args.n_refinement a)).
  { rewrite length_zip_with, length_py_range, Hlen. lia. }
  unfold scores_of, saved_of, solves_of, updated_of, readings_of, steps_of, sizes_of,
    reloads_of in *.
  rewrite !omap_app, ?length_app, H1, H2, H3, H4, H5, H6, H7, H8.
  cbn [omap list_omap app length]. rewrite length_fmap, Hz. split_and!; done.
Qed.



Lemma py_range_nonpositive (n : Z) : n <= 0 -> py_range n = [].
Proof. intros Hn. unfold py_range. replace (Z.to_nat n) with 0%nat by lia. reflexivity. Qed.

(** X11.  A count that is not positive leaves its loop empty.  With
    [n_epochs <= 0], [train_adv] logs its banner, builds its sampler and
    loader and, if the library accepts them, returns: no batch is drawn,
    nothing is validated, saved or updated, and the collaborators' state is
    untouched.  With [batch_size <= 0] the loader is refused and
    [train_adv] ends in [ValueError] after its banner, whatever the number
    of epochs.  With [n_refinement <= 0], [refine] called directly still
    reloads the best checkpoint, and does nothing else. *)
Theorem nonpositive_counts_leave_loops_empty (a : Args.t) (d : Dataset) (w : World) :
  constructed a d w ->
  let w0 := mkWorld (ext w) (attrs w) (trace w ++ [ELog LogAdversarialTraining]) in
  (Args.n_epochs a <= 0 ->
   AdvBert.train_adv w
   = (if sampler_accepts d && loader_accepts d (Args.batch_size a)
      then Ok tt else Raise ValueError, w0))
  /\ (Args.batch_size a <= 0 -> AdvBert.train_adv w = (Raise ValueError, w0))
  /\ (Args.n_refinement a <= 0 ->
      AdvBert.refine w
      = (Ok tt, mkWorld (reload_best (ext w)) (attrs w)
                  (trace w ++ [ELog LogProcrustesRefinement; EReloadBest]))).
Proof.
  intros Hc w0. pose proof (train_adv_unfold a d w Hc) as Hrun. cbv zeta in Hrun.
  destruct Hc as (Hargs & Hlog & Hds & Htr & Hev & Hdev). split_and!; intros Hn.
  - rewrite Hrun, (py_range_nonpositive _ Hn).
    destruct (_ && _); reflexivity.
  - rewrite Hrun, (loader_batch_size d _ Hn), andb_false_r. reflexivity.
  - unfold AdvBert.refine. repeat run_step.
    rewrite (py_range_nonpositive _ Hn). cbn [for_each].
    unfold mret, M_ret. rewrite <- !app_assoc. reflexivity.
Qed.

(** ** Whole runs of the driver *)
Lemma bind_ok_inv {A B : Type} (m : M A) (k : A -> M B) (w w' : World) (b : B) :
  (m ≫= k) w = (Ok b, w') -> exists a w1, m w = (Ok a, w1) /\ k a w1 = (Ok b, w').
Proof.
  unfold mbind, M_bind. destruct (m w) as [[a|e] w1]; [eauto | discriminate].
Qed.

Lemma new_returns_inv (a : Args.t) (w w1 : World) :
  AdvBert.new a w = (Ok tt, w1) ->
  config_in_range a /\ Args.adversarial a = true
  /\ exists p, Args.input_file a = Some p
               /\ isfile p (initialize_exp a (ext w)) = true.
Proof.
  intros Hnew. destruct (new_returns a w w1 Hnew) as (p & A & dev & devs & Hn).
  cbv zeta in Hn. destruct Hn as (Hok & Hadv & Hp & Hfile & _).
  split; [exact (params_ok_true a Hok)|]. split; [exact Hadv|]. eauto.
Qed.

Lemma main_returns_inv (a : Args.t) (w w' : World) :
  main a w = (Ok tt, w') ->
  (exists w1, AdvBert.new a w = (Ok tt, w1)) /\ Args.pred a = false.
Proof.
  rewrite main_unfold. intros Hm.
  apply bind_ok_inv in Hm as ([] & w1 & Hnew & Hm).
  apply bind_ok_inv in Hm as ([] & w2 & _ & Hm).
  apply bind_ok_inv in Hm as ([] & w3 & _ & Hm).
  split; [eauto|]. unfold run_phase in Hm.
  destruct (Args.pred a); [|reflexivity].
  rewrite bind_emit in Hm.
  match type of Hm with AdvBert.pred ?W = _ => destruct (pred_never_returns W) as (e & He) end.
  rewrite Hm in He. discriminate.
Qed.

(** X12.  The driver returns normally only from a run that was asked to
    train adversarially and not to predict, with every parameter in the
    range of its assertion, a model path, and an input file that exists.  A
    run with [--pred], and a run without adversarial training (refinement
    on its own), always ends in an exception. *)
Theorem main_returns_only_after_training (a : Args.t) (w w' : World) :
  main a w = (Ok tt, w') ->
  config_in_range a
  /\ Args.adversarial a = true
  /\ Args.pred a = false
  /\ Args.model_path a <> None
  /\ exists p, Args.input_file a = Some p
               /\ isfile p (initialize_exp a (ext w)) = true.
Proof.
  intros Hm. destruct (main_returns_inv a w w' Hm) as ((w1 & Hnew) & Hpred).
  destruct (new_returns_inv a w w1 Hnew) as (Hin & Hadv & Hp).
  split_and!; try assumption.
  destruct Hin as (_ & _ & _ & _ & _ & _ & Hmp). exact (Hmp Hadv).
Qed.

(** A configured run, whatever its outcome. *)
Lemma main_run (a : Args.t) (w : World) (p : string) :
  config_in_range a ->
  Args.adversarial a = true ->
  Args.input_file a = Some p ->
  isfile p (initialize_exp a (ext w)) = true ->
  Args.pred a = false ->
  device_accepted a = true ->
  let d := (load (Args.vocab_file a) p (Args.batch_size a) (Args.do_lower_case a)
                 (Args.max_seq_length a) (Args.local_rank a)
                 (initialize_exp a (ext w))).1.1 in
  exists r x A evs,
    main a w = (r, mkWorld x A (trace w ++ evs))
    /\ saved_of evs = scores_of evs
    /\ length (updated_of evs) = length (readings_of evs)
    /\ (length (readings_of evs) <= Z.to_nat (Args.n_epochs a))%nat
    /\ match r with
       | Ok _ =>
           phases_of evs = plan a
           /\ (Z.to_nat (Args.n_refinement a) <= length (scores_of evs)
               <= Z.to_nat (Args.n_epochs a) + Z.to_nat (Args.n_refinement a))%nat
           /\ reloads_of evs = (if 0 <? Args.n_refinement a then 1%nat else 0%nat)
       | Raise e =>
           (e = ValueError \/ stats_exn e)
           /\ phases_of evs = [Adversarial]
           /\ (length (scores_of evs) <= Z.to_nat (Args.n_epochs a))%nat
           /\ reloads_of evs = 0%nat
       end
    /\ (sampler_accepts d = true ->
        loader_accepts d (Args.batch_size a) = true ->
        no_line_due d (Args.batch_size a) (Args.print_every_dis_steps a) ->
        r = Ok tt).
Proof.
  intros Hin Hadv Hp Hfile Hpred Hdev d.
  assert (HK : 0 < Args.dis_steps a) by (destruct Hin as (_ & _ & _ & _ & HK & _); exact HK).
  pose proof (new_outcome a w) as Hout. unfold constructor_outcome in Hout.
  rewrite (config_in_range_ok a Hin), Hadv, Hp, Hfile, Hdev in Hout. cbn [negb] in Hout.
  destruct (AdvBert.new a w) as [[[]|e0] w1] eqn:Hnew; [|discriminate].
  destruct (new_returns a w w1 Hnew) as (p' & A & dev & devs & Hn). cbv zeta in Hn.
  destruct Hn as (_ & _ & Hp' & _ & HA1 & HA2 & HA3 & _ & HA5 & HA6 & Hw1 & Hdevs).
  assert (p' = p) by congruence. subst p'. fold d in HA3.
  set (x3 := BertEvaluator _ _) in *.
  set (cevs := [EInitializeExp; EIsFile p true; ELoad p; EBuildModel;
                EBertTrainer; EBertEvaluator] ++ devs) in *.
  assert (Hcevs : scores_of cevs = [] /\ saved_of cevs = [] /\ updated_of cevs = []
                  /\ readings_of cevs = [] /\ reloads_of cevs = 0%nat
                  /\ phases_of cevs = []).
  { subst cevs. destruct Hdevs as [(_ & _ & ->) | (_ & -> & _)]; done. }
  destruct Hcevs as (Hc1 & Hc2 & Hc3 & Hc4 & Hc5 & Hc6).
  set (A' := <["device" := VDevice dev]> A) in *.
  assert (Hc : forall x t, constructed a d (mkWorld x A' t)).
  { intros x t. apply constructed_with_device; assumption. }
  assert (Hrun : exists r x evs,
    main a w = (r, mkWorld x A' (trace w ++ evs))
    /\ saved_of evs = scores_of evs
    /\ length (updated_of evs) = length (readings_of evs)
    /\ (length (readings_of evs) <= Z.to_nat (Args.n_epochs a))%nat
    /\ match r with
       | Ok _ =>
           (Z.to_nat (Args.n_refinement a) <= length (scores_of evs)
            <= Z.to_nat (Args.n_epochs a) + Z.to_nat (Args.n_refinement a))%nat
           /\ reloads_of evs = (if 0 <? Args.n_refinement a then 1%nat else 0%nat)
       | Raise e =>
           (e = ValueError \/ stats_exn e)
           /\ phases_of evs = [Adversarial]
           /\ (length (scores_of evs) <= Z.to_nat (Args.n_epochs a))%nat
           /\ reloads_of evs = 0%nat
       end
    /\ (sampler_accepts d = true ->
        loader_accepts d (Args.batch_size a) = true ->
        no_line_due d (Args.batch_size a) (Args.print_every_dis_steps a) ->
        r = Ok tt)).
  { rewrite main_unfold, (bind_ok _ _ _ _ _ Hnew). cbv beta. subst w1.
    unfold run_phase. rewrite Hadv, Hpred, bind_assoc, bind_emit. cbn [ext attrs trace].
    set (W1 := mkWorld x3 A' ((trace w ++ cevs) ++ [EEnter Adversarial])).
    pose proof (train_adv_returns a d W1 (Hc _ _) HK) as Hret.
    destruct (train_adv_run a d W1 (Hc _ _) HK)
      as (r & x & evs & Hrun & Ht1 & Ht2 & Ht3 & Ht4 & Ht5 & Ht6 & _ & Hr).
    rewrite Hrun in Hret. cbn [fst] in Hret.
    destruct r as [[]|e].
    - destruct Hr as (_ & _ & Hst & _).
      rewrite (bind_ok _ _ _ _ _ Hrun). cbv beta. cbn [attrs trace W1].
      destruct (Z.ltb_spec 0 (Args.n_refinement a)) as [Hn|Hn].
      + rewrite bind_assoc, bind_emit. cbn [ext attrs trace].
        set (W2 := mkWorld x A' ((((trace w ++ cevs) ++ [EEnter Adversarial]) ++ evs)
                                 ++ [EEnter Refinement])).
        destruct (refine_full a d W2 (Hc _ _))
          as (x' & evs' & Hrun' & Hr1 & Hr2 & _ & Hr4 & Hr5 & _ & _ & Hr8).
        rewrite (bind_ok _ _ _ _ _ Hrun'). cbv beta. cbn [attrs trace W2].
        exists (Ok tt), x', (cevs ++ [EEnter Adversarial] ++ evs ++ [EEnter Refinement] ++ evs').
        split; [unfold mret, M_ret; rewrite <- !app_assoc; reflexivity|].
        unfold scores_of, saved_of, updated_of, readings_of, reloads_of in *.
        rewrite !omap_app, !length_app, Hc1, Hc2, Hc3, Hc4, Hc5, Ht1, Ht2, Hr1, Hr4, Hr5,
          Ht6, Hr8.
        simpl. rewrite ?app_nil_r, ?length_app, ?Hr2.
        split_and!; [done | lia | lia | lia | lia | reflexivity | done].
      + exists (Ok tt), x, (cevs ++ [EEnter Adversarial] ++ evs).
        split; [unfold mret, M_ret; rewrite <- !app_assoc; reflexivity|].
        unfold scores_of, saved_of, updated_of, readings_of, reloads_of in *.
        rewrite !omap_app, !length_app, Hc1, Hc2, Hc3, Hc4, Hc5, Ht1, Ht2, Ht6.
        simpl. split_and!; [done | lia | lia | lia | lia | reflexivity | done].
    - rewrite (bind_fail _ _ _ _ _ Hrun). cbn [attrs trace W1].
      exists (Raise e), x, (cevs ++ [EEnter Adversarial] ++ evs).
      split; [rewrite <- !app_assoc; reflexivity|].
      assert (Hrd : (length (readings_of evs) <= Z.to_nat (Args.n_epochs a))%nat
                    /\ (e = ValueError \/ stats_exn e)).
      { destruct Hr as [(-> & _ & _ & ->) | (He & Hl & _)];
          [split; [simpl; lia | left; reflexivity] | split; [lia | right; exact He]]. }
      destruct Hrd as (Hrd & He).
      unfold scores_of, saved_of, updated_of, readings_of, reloads_of, phases_of in *.
      rewrite !omap_app, !length_app, Hc1, Hc2, Hc3, Hc4, Hc5, Hc6, Ht1, Ht2, Ht5, Ht6.
      simpl. split_and!; [done | lia | lia | done | done | lia | done |].
      intros Hs Hl Hno. specialize (Hret Hs Hl Hno). discriminate. }
  destruct Hrun as (r & x & evs & Hmain & Hsv & Hup & Hrd & Hr & Hret).
  exists r, x, A', evs. split_and!; try done.
  destruct r as [u|e]; [|exact Hr]. split; [|exact Hr].
  destruct (main_staged a w) as (evs' & Ht & _ & Hpl).
  rewrite Hmain in Ht, Hpl. cbn [fst snd trace] in Ht, Hpl.
  apply app_inv_head in Ht. subst evs'. apply Hpl. left. destruct u. reflexivity.
Qed.


(** ** The command line *)
Lemma run_phase_attrs (Q : exn -> Prop) (flag : bool) (p : phase) (m : M unit)
    (w w' : World) (r : res unit) :
  keeps_self Q m -> run_phase flag p m w = (r, w') -> attrs w' = attrs w.
Proof.
  intros Hks. unfold run_phase. destruct flag.
  - rewrite bind_emit. intros Hm.
    match type of Hm with m ?W = _ => destruct (Hks W) as [Ha _] end.
    rewrite Hm in Ha. exact Ha.
  - intros [= <- <-]. reflexivity.
Qed.

Lemma main_returns_dataset (a : Args.t) (w w' : World) :
  main a w = (Ok tt, w') ->
  exists p,
    Args.input_file a = Some p
    /\ attrs w' !! "dataset"
       = Some (VDataset (load (Args.vocab_file a) p (Args.batch_size a)
                              (Args.do_lower_case a) (Args.max_seq_length a)
                              (Args.local_rank a) (initialize_exp a (ext w))).1.1).
Proof.
  rewrite main_unfold. intros Hm.
  apply bind_ok_inv in Hm as ([] & w1 & Hnew & Hm).
  apply bind_ok_inv in Hm as ([] & w2 & H1 & Hm).
  apply bind_ok_inv in Hm as ([] & w3 & H2 & H3).
  apply (run_phase_attrs _ _ _ _ _ _ _ ks_train_adv) in H1.
  apply (run_phase_attrs _ _ _ _ _ _ _ ks_refine) in H2.
  apply (run_phase_attrs _ _ _ _ _ _ _ ks_pred) in H3.
  destruct (new_returns a w w1 Hnew) as (p & A & dev & devs & Hn).
  cbv zeta in Hn. destruct Hn as (_ & _ & Hp & _ & _ & _ & Hds & _ & _ & _ & -> & _).
  exists p. split; [exact Hp|]. rewrite H3, H2, H1. cbn [attrs].
  rewrite lookup_insert_ne by done. exact Hds.
Qed.

Lemma parse_args_fields (c : Cmdline.t) (a : Args.t) :
  parse_args c = Some a ->
  Args.model_path a = Cmdline.model_path c
  /\ Args.input_file a = Cmdline.input_file c
  /\ Args.adversarial a = with_default true (Cmdline.adversarial c)
  /\ Args.pred a = with_default false (Cmdline.pred c)
  /\ Args.n_epochs a = with_default 10 (Cmdline.n_epochs c)
  /\ Args.n_refinement a = with_default 0 (Cmdline.n_refinement c)
  /\ Args.print_every_dis_steps a = with_default 100 (Cmdline.print_every_dis_steps c)
  /\ Args.do_lower_case a = true
  /\ Args.dis_dropout a = with_default PyFloat.zero (Cmdline.dis_dropout c)
  /\ Args.dis_input_dropout a = with_default float_0_1 (Cmdline.dis_input_dropout c)
  /\ Args.dis_smooth a = with_default float_0_1 (Cmdline.dis_smooth c)
  /\ Args.dis_lambda a = with_default (PyFloat.of_Z 1) (Cmdline.dis_lambda c)
  /\ Args.dis_steps a = with_default 5 (Cmdline.dis_steps c)
  /\ Args.lr_shrink a = with_default PyFloat.half (Cmdline.lr_shrink c).
Proof.
  unfold parse_args.
  destruct (Cmdline.vocab_file c), (Cmdline.bert_config_file c),
    (Cmdline.init_checkpoint c); try discriminate.
  intros [= <-]. cbn. split_and!; try reflexivity.
  destruct (Cmdline.do_lower_case c); reflexivity.
Qed.

Lemma main_cli_inv (c : Cmdline.t) (w w' : World) (r : res unit) :
  main_cli c w = Some (r, w') ->
  exists a, parse_args c = Some a /\ main a w = (r, w').
Proof.
  unfold main_cli. destruct (parse_args c) as [a|]; [|discriminate].
  intros [= Hm]. eauto.
Qed.

(** X14.  [--do_lower_case] is declared [store_true] with default [True],
    so no command line can switch it off: whatever options are given, the
    driver runs with [args.do_lower_case = True], and the dataset a run that
    returns has trained on is the one [load] made of the input file with
    [do_lower_case=True]. *)
Theorem lower_casing_cannot_be_switched_off (c : Cmdline.t) (w w' : World) (r : res unit) :
  main_cli c w = Some (r, w') ->
  exists a,
    parse_args c = Some a
    /\ Args.do_lower_case a = true
    /\ (r = Ok tt ->
        exists p,
          Cmdline.input_file c = Some p
          /\ attrs w' !! "dataset"
             = Some (VDataset (load (Args.vocab_file a) p (Args.batch_size a) true
                                    (Args.max_seq_length a) (Args.local_rank a)
                                    (initialize_exp a (ext w))).1.1)).
Proof.
  intros Hm. destruct (main_cli_inv c w w' r Hm) as (a & Hp & Hmain).
  pose proof (parse_args_fields c a Hp) as (_ & Hin & _ & _ & _ & _ & _ & Hlow & _).
  exists a. split_and!; [assumption..|].
  intros ->. destruct (main_returns_dataset a w w' Hmain) as (p & Hip & Hds).
  exists p. split; [congruence|]. rewrite Hlow in Hds. exact Hds.
Qed.

Lemma main_new_raises (a : Args.t) (w w' : World) (e : exn) :
  AdvBert.new a w = (Raise e, w') -> main a w = (Raise e, w').
Proof. intros Hnew. rewrite main_unfold. exact (bind_fail _ _ _ _ _ Hnew). Qed.

(** X15.  [--model_path] and [--input_file] are declared optional, with
    default [None], but no run gets past the constructor without them.
    Without [--model_path] (adversarial training not switched off) the run
    ends in [AssertionError] before any collaborator is called: the external
    state and the trace are as they were.  Without [--input_file] the run
    ends in [AssertionError], in [AttributeError] on [dataset] or in
    [TypeError], whatever else is given. *)
Theorem paths_are_required_in_effect (c : Cmdline.t) (a : Args.t) (w : World) :
  parse_args c = Some a ->
  (Cmdline.model_path c = None -> Cmdline.adversarial c <> Some false ->
   main_cli c w
   = Some (Raise AssertionError,
           mkWorld (ext w) (<["args" := VArgs a]> ∅) (trace w)))
  /\ (Cmdline.input_file c = None ->
      exists e w',
        main_cli c w = Some (Raise e, w')
        /\ (e = AssertionError \/ e = AttributeError "dataset" \/ e = TypeError)).
Proof.
  intros Hp.
  pose proof (parse_args_fields c a Hp) as (Hmp & Hin & Hadv & _).
  unfold main_cli. rewrite Hp. split.
  - intros Hnone Hon. f_equal. apply main_new_raises, new_rejects.
    unfold params_ok. rewrite Hadv, Hmp, Hnone.
    destruct (Cmdline.adversarial c) as [[]|]; [| congruence |];
      cbn; rewrite !andb_false_r; reflexivity.
  - intros Hnone. pose proof (new_outcome a w) as Hout.
    unfold constructor_outcome in Hout. rewrite Hin, Hnone in Hout.
    destruct (AdvBert.new a w) as [[[]|e] w1] eqn:Hnew; cbn [fst] in Hout.
    + destruct (negb (params_ok a)), (negb (Args.adversarial a)); discriminate.
    + exists e, w1. split; [f_equal; exact (main_new_raises a w w1 e Hnew)|].
      destruct (negb (params_ok a)), (negb (Args.adversarial a));
        injection Hout as ->; auto.
Qed.


Lemma defaults_in_range (c : Cmdline.t) (a : Args.t) :
  parse_args c = Some a ->
  keeps_checked_defaults c ->
  Cmdline.model_path c <> None ->
  config_in_range a.
Proof.
  intros Hp (H1 & H2 & H3 & H4 & H5 & H6) Hmp.
  pose proof (parse_args_fields c a Hp)
    as (Emp & _ & _ & _ & _ & _ & _ & _ & E1 & E2 & E3 & E4 & E5 & E6).
  unfold config_in_range, in_unit_interval.
  rewrite E1, E2, E3, E4, E5, E6, H1, H2, H3, H4, H5, H6, Emp. cbn [with_default].
  rewrite <- !leb_le, <- !ltb_lt. split_and!; try reflexivity. intros _. exact Hmp.
Qed.

Lemma parse_args_default_rank (c : Cmdline.t) (a : Args.t) :
  parse_args c = Some a ->
  Cmdline.local_rank c = None ->
  Args.local_rank a = -1 /\ device_accepted a = true.
Proof.
  unfold parse_args, device_accepted.
  destruct (Cmdline.vocab_file c), (Cmdline.bert_config_file c),
    (Cmdline.init_checkpoint c); try discriminate.
  intros [= <-] Hr. cbn. rewrite Hr. split; reflexivity.
Qed.

(** X16.  The defaults of the parser pass the constructor's assertions, and
    the default rank [-1] never reaches [torch.device("cuda", local_rank)].
    With an experiment directory, an input file that exists, the checked
    parameters and the rank left at their defaults, and adversarial
    training not switched off nor prediction on, the constructor returns.
    The run then saves every validation score; if it returns it has run
    adversarial training, then refinement iff [--n_refinement] is positive,
    and with [--n_epochs] and [--n_refinement] left out as well it is
    adversarial training alone, with at most ten validations and no reload
    of a checkpoint.  If it raises, it does so in adversarial training,
    with the [ValueError] of the sampler or loader or with the
    [ZeroDivisionError] or [OverflowError] of a statistics line.  It
    returns whenever the sampler and the loader are accepted and no
    statistics line falls due. *)
Theorem default_configuration_trains (c : Cmdline.t) (a : Args.t) (w : World)
    (m p : string) :
  parse_args c = Some a ->
  keeps_checked_defaults c ->
  Cmdline.model_path c = Some m ->
  Cmdline.input_file c = Some p ->
  isfile p (initialize_exp a (ext w)) = true ->
  Cmdline.adversarial c <> Some false ->
  Cmdline.pred c <> Some true ->
  Cmdline.local_rank c = None ->
  let d := (load (Args.vocab_file a) p (Args.batch_size a) true
                 (Args.max_seq_length a) (-1) (initialize_exp a (ext w))).1.1 in
  let n_refinement := with_default 0 (Cmdline.n_refinement c) in
  (exists w1, AdvBert.new a w = (Ok tt, w1))
  /\ exists r w',
       main_cli c w = Some (r, w')
       /\ let evs := events_since w w' in
          saved_of evs = scores_of evs
          /\ (r = Ok tt ->
              phases_of evs
              = Adversarial :: (if 0 <? n_refinement then [Refinement] else [])
              /\ (Cmdline.n_epochs c = None -> Cmdline.n_refinement c = None ->
                  phases_of evs = [Adversarial]
                  /\ (length (scores_of evs) <= 10)%nat
                  /\ reloads_of evs = 0%nat))
          /\ (forall e, r = Raise e ->
                (e = ValueError \/ stats_exn e) /\ phases_of evs = [Adversarial])
          /\ (sampler_accepts d = true ->
              loader_accepts d (Args.batch_size a) = true ->
              no_line_due d (Args.batch_size a) (Args.print_every_dis_steps a) ->
              r = Ok tt).
Proof.
  intros Hp Hdef Hmp Hip Hfile Hadv Hpred Hrank d n_refinement.
  pose proof (parse_args_fields c a Hp)
    as (_ & Ein & Eadv & Epred & Eep & Eref & Epe & Elow & _).
  destruct (parse_args_default_rank c a Hp Hrank) as (Erank & Hdev).
  assert (Hin : config_in_range a).
  { apply (defaults_in_range c a Hp Hdef). congruence. }
  assert (Hadv' : Args.adversarial a = true).
  { rewrite Eadv. destruct (Cmdline.adversarial c) as [[]|]; cbn; congruence. }
  assert (Hpred' : Args.pred a = false).
  { rewrite Epred. destruct (Cmdline.pred c) as [[]|]; cbn; congruence. }
  assert (Hip' : Args.input_file a = Some p) by congruence.
  split.
  - pose proof (new_outcome a w) as Hout. unfold constructor_outcome in Hout.
    rewrite (config_in_range_ok a Hin), Hadv', Hip', Hfile, Hdev in Hout.
    cbn [negb] in Hout.
    destruct (AdvBert.new a w) as [[[]|e] w1]; [eauto | discriminate].
  - destruct (main_run a w p Hin Hadv' Hip' Hfile Hpred' Hdev)
      as (r & x & A & evs & Hmain & Hsv & _ & _ & Hr & Hret).
    rewrite Elow, Erank in Hret. fold d in Hret.
    unfold main_cli. rewrite Hp, Hmain.
    eexists r, _. split; [reflexivity|]. cbv zeta. rewrite events_since_app.
    split_conj; try done.
    + intros ->. destruct Hr as (Hph & Hlen & Hrl).
      unfold plan in Hph. rewrite Hadv', Hpred', Eref, app_nil_r in Hph.
      split; [exact Hph|].
      intros Hne Hnr. subst n_refinement. rewrite Eep, Eref, Hne, Hnr in *. cbn in *.
      split_and!; [exact Hph | lia | exact Hrl].
    + intros e ->. destruct Hr as (He & Hph & _). done.
Qed.
End Properties.

(** * The driver on the small instance *)

(** The whole run: construction, two epochs of three batches with a mapping
    step after every second discriminator step, one refinement iteration,
    and a prediction that ends in [NameError]. *)
Example toy_run :
  let r := main Toy.args Toy.world0 in
  r.1 = Raise (NameError "load_single")
  /\ phases_of (trace r.2) = [Adversarial; Refinement; Predict]
  /\ steps_of (trace r.2)
     = [DisStep; DisStep; MapStep; DisStep; DisStep; DisStep; MapStep; DisStep]
  /\ readings_of (trace r.2) = [PyFloat.Fin (1 # 20); PyFloat.Fin (1 # 40)]
  /\ length (scores_of (trace r.2)) = 3%nat.
Proof. vm_compute. repeat split. Qed.

(** With a floor of 0.06 the first reading (0.05) is below it: the second
    epoch does not start, and refinement follows. *)
Example toy_run_stops_at_floor :
  let r := main (Toy.with_min_lr (PyFloat.Fin (6 # 100)) Toy.args) Toy.world0 in
  readings_of (trace r.2) = [PyFloat.Fin (1 # 20)]
  /\ starts_of (trace r.2) = [0]
  /\ phases_of (trace r.2) = [Adversarial; Refinement; Predict]
  /\ In (ELog LogLearningRateBreak) (trace r.2).
Proof. vm_compute. repeat split. auto 40. Qed.

(** A statistics line after every batch, on a clock that advances by one
    between two readings: every line is logged and the run goes on to
    prediction. *)
Example toy_run_logs_statistics :
  let r := main (Toy.with_print_every 1 Toy.args) Toy.world0 in
  r.1 = Raise (NameError "load_single")
  /\ stat_logs_of (trace r.2) = [1; 2; 3; 1; 2; 3].
Proof. vm_compute. repeat split. Qed.

(** The same run on a clock that stands still: the first statistics line
    divides by zero, after one discriminator step, and no later phase is
    entered. *)
Example toy_run_on_stalled_clock :
  let r := main (Toy.with_print_every 1 Toy.args) Toy.stalled in
  r.1 = Raise ZeroDivisionError
  /\ phases_of (trace r.2) = [Adversarial]
  /\ steps_of (trace r.2) = [DisStep]
  /\ stat_logs_of (trace r.2) = []
  /\ scores_of (trace r.2) = [].
Proof. vm_compute. repeat split. Qed.

(** A batch size of zero: the loader is refused before the first epoch. *)
Example toy_run_with_empty_batches :
  let r := main (Toy.with_batch_size 0 Toy.args) Toy.world0 in
  r.1 = Raise ValueError
  /\ phases_of (trace r.2) = [Adversarial]
  /\ starts_of (trace r.2) = [].
Proof. vm_compute. repeat split. Qed.

(** A rank that [torch.device] refuses: the constructor raises after the
    evaluator is built, and no phase is entered. *)
Example toy_run_with_refused_rank :
  let r := main (Toy.with_local_rank 8 Toy.args) Toy.world0 in
  r.1 = Raise RuntimeError
  /\ phases_of (trace r.2) = []
  /\ trace r.2 = [EInitializeExp; EIsFile "corpus.txt" true; ELoad "corpus.txt";
                  EBuildModel; EBertTrainer; EBertEvaluator].
Proof. vm_compute. repeat split. Qed.

(** C6, as the claim words it, fails on the code: with adversarial training
    switched off the constructor raises, so neither refinement, with
    [n_refinement > 0], nor prediction, with [pred] set, is entered. *)
Example flags_alone_do_not_run_phases :
  let a := Toy.with_adversarial false Toy.args in
  let r := main a Toy.world0 in
  0 < Args.n_refinement a
  /\ Args.pred a = true
  /\ r.1 = Raise (AttributeError "dataset")
  /\ phases_of (events_since Toy.world0 r.2) = [].
Proof. cbv zeta. split; [reflexivity|]. vm_compute. repeat split. Qed.

(** C8.  [pred] on the constructed object of the small instance, with a
    source file and an output file given: the best checkpoint is reloaded
    and [NameError] is raised for [load_single]; no sentence is read and no
    record is written. *)
Example pred_raises_before_any_record :
  AdvBert.pred Toy.world1
  = (Raise (NameError "load_single"),
     mkWorld (ext Toy.world1) (attrs Toy.world1) (trace Toy.world1 ++ [EReloadBest])).
Proof.
  rewrite (pred_run Toy.args Toy.world1) by reflexivity.
  reflexivity.
Qed.

(** The theorems above, applied to the small instance. *)
Lemma toy_constructed : constructed Toy.args Toy.corpus Toy.world1.
Proof. unfold constructed. vm_compute. repeat split. Defined.

Lemma toy_no_line_due (x : Toy.ext) (m : nat) :
  (1 <= m <= 3)%nat -> ~ stats_due 100 m.
Proof.
  intros Hm [HP|Hmod]; [discriminate HP|].
  assert (Hcases : m = 1%nat \/ m = 2%nat \/ m = 3%nat) by lia.
  destruct Hcases as [-> | [-> | ->]]; discriminate Hmod.
Defined.


Lemma out_of_range_config_fails_at_construction_witness :
  let a := Toy.with_dis_dropout PyFloat.one Toy.args in
  config_out_of_range a
  /\ main a Toy.world0
     = (Raise AssertionError, mkWorld (ext Toy.world0) (<["args" := VArgs a]> ∅) []).
Proof.
  cbv zeta.
  assert (Hbad : config_out_of_range (Toy.with_dis_dropout PyFloat.one Toy.args)).
  { left. intros [_ Hlt]. vm_compute in Hlt. discriminate Hlt. }
  split; [exact Hbad|].
  exact (proj1 (proj2 (out_of_range_config_fails_at_construction _ Toy.world0 Hbad))).
Defined.


Lemma validation_once_per_epoch_witness :
  constructed Toy.args Toy.corpus Toy.world1
  /\ 0 < Args.dis_steps Toy.args
  /\ let r := AdvBert.train_epoch (Toy.corpus, Args.batch_size Toy.args) 0 Toy.world1 in
     r.1 = Ok Next
     /\ scores_of (events_since Toy.world1 r.2) = [PyFloat.Fin (1 # 10)]
     /\ saved_of (events_since Toy.world1 r.2) = [PyFloat.Fin (1 # 10)]
     /\ updated_of (events_since Toy.world1 r.2) = [PyFloat.Fin (1 # 10)].
Proof.
  assert (HK : 0 < Args.dis_steps Toy.args) by (simpl; lia).
  split_and!; [exact toy_constructed | exact HK |].
  pose proof (validation_once_per_epoch Toy.args Toy.corpus Toy.world1 0
                toy_constructed HK) as Hthm.
  cbv zeta in Hthm. destruct Hthm as (_ & _ & _ & Hm).
  match type of Hm with
  | match ?b with _ => _ end => let v := eval vm_compute in b in change b with v in Hm
  end.
  cbv iota beta zeta in Hm. destruct Hm as (Hr & _ & Hs & Hv & Hu).
  cbv zeta. rewrite Hr. cbn [fst snd].
  split_and!; [reflexivity | exact Hs | exact Hv | exact Hu].
Defined.

Lemma missing_inputs_fail_fast_witness :
  let a := Toy.with_files (Some "missing.txt") None Toy.args in
  let w := (AdvBert.new (Toy.with_files (Some "corpus.txt") None Toy.args) Toy.world0).2 in
  Args.adversarial a = true
  /\ isfile "missing.txt" (initialize_exp a (ext Toy.world0)) = false
  /\ (exists e w', AdvBert.new a Toy.world0 = (Raise e, w')
                  /\ Forall before_build (events_since Toy.world0 w'))
  /\ AdvBert.pred w = (Raise AssertionError, w).
Proof.
  cbv zeta.
  pose proof (missing_inputs_fail_fast
                (Toy.with_files (Some "missing.txt") None Toy.args) Toy.world0) as [Hnew _].
  pose proof (missing_inputs_fail_fast
                (Toy.with_files (Some "corpus.txt") None Toy.args)
                (AdvBert.new (Toy.with_files (Some "corpus.txt") None Toy.args) Toy.world0).2)
    as [_ Hpred].
  split; [reflexivity|]. split; [reflexivity|]. split.
  - destruct (Hnew eq_refl eq_refl) as (e & w' & Hrun & _ & Hev).
    exists e, w'. split; [exact Hrun | exact Hev].
  - apply Hpred; [reflexivity | right; reflexivity].
Defined.

Lemma pred_reaches_unbound_name_witness :
  attrs Toy.world1 !! "args" = Some (VArgs Toy.args)
  /\ attrs Toy.world1 !! "trainer" = Some VTrainer
  /\ Args.src_file Toy.args <> None
  /\ Args.output_file Toy.args <> None
  /\ AdvBert.pred Toy.world1
     = (Raise (NameError "load_single"),
        mkWorld (reload_best (ext Toy.world1)) (attrs Toy.world1)
                (trace Toy.world1 ++ [EReloadBest])).
Proof.
  assert (Hargs : attrs Toy.world1 !! "args" = Some (VArgs Toy.args)) by reflexivity.
  assert (Htr : attrs Toy.world1 !! "trainer" = Some VTrainer) by reflexivity.
  assert (Hsrc : Args.src_file Toy.args <> None) by (simpl; discriminate).
  assert (Hout : Args.output_file Toy.args <> None) by (simpl; discriminate).
  split_and!; [exact Hargs | exact Htr | exact Hsrc | exact Hout |].
  exact (proj1 (proj2 (proj2 pred_reaches_unbound_name)) Toy.args Toy.world1
           Hargs Htr Hsrc Hout).
Defined.

Lemma construction_without_adversarial_fails_witness :
  let a := Toy.with_adversarial false Toy.args in
  Args.adversarial a = false
  /\ params_ok a = true
  /\ exists w',
       main a Toy.world0 = (Raise (AttributeError "dataset"), w')
       /\ events_since Toy.world0 w' = [EInitializeExp; EBuildModel].
Proof.
  cbv zeta. split; [reflexivity|]. split; [reflexivity|].
  destruct (construction_without_adversarial_fails
              (Toy.with_adversarial false Toy.args) Toy.world0 eq_refl)
    as (e & w' & _ & Hmain & _ & _ & Hok).
  destruct (Hok eq_refl) as [-> Hev].
  exists w'. split; [exact Hmain | exact Hev].
Defined.

Lemma constructor_establishes_object_witness :
  AdvBert.new Toy.args Toy.world0 = (Ok tt, Toy.world1)
  /\ params_ok Toy.args = true
  /\ exists d, constructed Toy.args d Toy.world1.
Proof.
  assert (Hnew : AdvBert.new Toy.args Toy.world0 = (Ok tt, Toy.world1))
    by (vm_compute; reflexivity).
  split; [exact Hnew|].
  destruct (constructor_establishes_object Toy.args Toy.world0 Toy.world1 Hnew)
    as (Hok & _ & _ & Hc).
  split; [exact Hok | exact Hc].
Defined.

Lemma zero_print_every_aborts_epoch_witness :
  let a := Toy.with_print_every 0 Toy.args in
  let w := (AdvBert.new a Toy.world0).2 in
  constructed a Toy.corpus w
  /\ 0 < Args.dis_steps a
  /\ Args.print_every_dis_steps a = 0
  /\ exists w',
       AdvBert.train_epoch (Toy.corpus, Args.batch_size a) 0 w
       = (Raise ZeroDivisionError, w')
       /\ steps_of (events_since w w') = [DisStep].
Proof.
  cbv zeta.
  assert (Hc : constructed (Toy.with_print_every 0 Toy.args) Toy.corpus
                 (AdvBert.new (Toy.with_print_every 0 Toy.args) Toy.world0).2).
  { unfold constructed. vm_compute. repeat split. }
  assert (HK : 0 < Args.dis_steps (Toy.with_print_every 0 Toy.args)) by (simpl; lia).
  split_and!; [exact Hc | exact HK | reflexivity |].
  destruct (zero_print_every_aborts_epoch (Toy.with_print_every 0 Toy.args) Toy.corpus
              (AdvBert.new (Toy.with_print_every 0 Toy.args) Toy.world0).2 0
              0%nat [1%nat; 2%nat] Hc HK eq_refl eq_refl)
    as (w' & Hrun & Hsteps & _).
  exists w'. split; [exact Hrun | exact Hsteps].
Defined.


Lemma toy_in_range : config_in_range Toy.args.
Proof. apply params_ok_true. vm_compute. reflexivity. Defined.

Lemma check_parameters_accepts_exactly_witness :
  attrs Toy.world1 !! "args" = Some (VArgs Toy.args)
  /\ config_in_range Toy.args
  /\ AdvBert.check_parameters Toy.world1 = (Ok tt, Toy.world1).
Proof.
  assert (Hargs : attrs Toy.world1 !! "args" = Some (VArgs Toy.args))
    by (vm_compute; reflexivity).
  destruct (check_parameters_accepts_exactly Toy.args Toy.world1 Hargs) as (Hiff & _ & _).
  split_and!; [exact Hargs | exact toy_in_range | apply Hiff; exact toy_in_range].
Defined.

Lemma constructor_builds_on_loaded_data_witness :
  AdvBert.new Toy.args Toy.world0 = (Ok tt, Toy.world1)
  /\ exists p devs,
       Args.input_file Toy.args = Some p
       /\ events_since Toy.world0 Toy.world1
          = [EInitializeExp; EIsFile p true; ELoad p; EBuildModel;
             EBertTrainer; EBertEvaluator] ++ devs.
Proof.
  assert (Hnew : AdvBert.new Toy.args Toy.world0 = (Ok tt, Toy.world1))
    by (vm_compute; reflexivity).
  split; [exact Hnew|].
  destruct (constructor_builds_on_loaded_data Toy.args Toy.world0 Toy.world1 Hnew)
    as (p & devs & Hp & Hrest).
  cbv zeta in Hrest. destruct Hrest as (_ & _ & _ & Hev & _).
  exists p, devs. split; [exact Hp | exact Hev].
Defined.

Lemma constructor_selects_device_witness :
  let a := Toy.with_local_rank 3 Toy.args in
  let w' := (AdvBert.new a Toy.world0).2 in
  AdvBert.new a Toy.world0 = (Ok tt, w')
  /\ attrs w' !! "device" = Some (VDevice (Cuda (Some 3)))
  /\ Forall (fun e => forall yes, e <> ECudaIsAvailable yes) (events_since Toy.world0 w').
Proof.
  cbv zeta.
  assert (Hnew : AdvBert.new (Toy.with_local_rank 3 Toy.args) Toy.world0
                 = (Ok tt, (AdvBert.new (Toy.with_local_rank 3 Toy.args) Toy.world0).2))
    by (vm_compute; reflexivity).
  split; [exact Hnew|].
  destruct (constructor_selects_device _ Toy.world0 _ Hnew)
    as (dev & Hdev & _ & Hcuda & _ & _).
  assert (Hrank : Args.local_rank (Toy.with_local_rank 3 Toy.args) <> -1)
    by (simpl; lia).
  destruct (Hcuda eq_refl Hrank) as (_ & (i & Hi & Hd) & Hquiet).
  split; [|exact Hquiet].
  rewrite Hdev, Hd. injection Hi as <-. reflexivity.
Defined.


Lemma statistics_logged_every_P_batches_witness :
  let a := Toy.with_print_every 2 Toy.args in
  let w := (AdvBert.new a Toy.world0).2 in
  constructed a Toy.corpus w
  /\ 0 < Args.dis_steps a
  /\ let r := AdvBert.train_epoch (Toy.corpus, Args.batch_size a) 0 w in
     r.1 = Ok Next /\ stat_logs_of (events_since w r.2) = [2].
Proof.
  cbv zeta.
  assert (Hc : constructed (Toy.with_print_every 2 Toy.args) Toy.corpus
                 (AdvBert.new (Toy.with_print_every 2 Toy.args) Toy.world0).2).
  { unfold constructed. vm_compute. repeat split. }
  assert (HK : 0 < Args.dis_steps (Toy.with_print_every 2 Toy.args)) by (simpl; lia).
  split; [exact Hc|]. split; [exact HK|].
  pose proof (statistics_logged_every_P_batches (Toy.with_print_every 2 Toy.args)
                Toy.corpus (AdvBert.new (Toy.with_print_every 2 Toy.args) Toy.world0).2
                Hc HK) as Hthm.
  cbv zeta in Hthm. destruct Hthm as (Hepoch & _).
  destruct (Hepoch 0) as (Hok & _).
  assert (Hr : (AdvBert.train_epoch
                  (Toy.corpus, Args.batch_size (Toy.with_print_every 2 Toy.args)) 0
                  (AdvBert.new (Toy.with_print_every 2 Toy.args) Toy.world0).2).1
               = Ok Next) by (vm_compute; reflexivity).
  split; [exact Hr | exact (Hok Next Hr)].
Defined.

Lemma statistics_line_needs_the_clock_to_advance_witness :
  let a := Toy.with_print_every 1 Toy.args in
  let w := (AdvBert.new a Toy.stalled).2 in
  let s := mkLoop 0 0 0 [] 0 in
  let b : @Batch Toy.collaborators := 0%nat in
  constructed a Toy.corpus w
  /\ 0 < Args.dis_steps a
  /\ Args.print_every_dis_steps a <> 0
  /\ (n_dis_step s + 1) mod Args.print_every_dis_steps a = 0
  /\ exists e,
       (AdvBert.train_batch b s w).1 = Raise e
       /\ stats_exn e
       /\ stat_logs_of (events_since w (AdvBert.train_batch b s w).2) = [].
Proof.
  cbv zeta.
  assert (Hc : constructed (Toy.with_print_every 1 Toy.args) Toy.corpus
                 (AdvBert.new (Toy.with_print_every 1 Toy.args) Toy.stalled).2).
  { unfold constructed. vm_compute. repeat split. }
  assert (HK : 0 < Args.dis_steps (Toy.with_print_every 1 Toy.args)) by (simpl; lia).
  assert (HP : Args.print_every_dis_steps (Toy.with_print_every 1 Toy.args) <> 0)
    by (simpl; lia).
  assert (Hdue : (n_dis_step (mkLoop 0 0 0 [] 0) + 1)
                 mod Args.print_every_dis_steps (Toy.with_print_every 1 Toy.args) = 0)
    by reflexivity.
  split_and!; [exact Hc | exact HK | exact HP | exact Hdue |].
  pose proof (statistics_line_needs_the_clock_to_advance
                (Toy.with_print_every 1 Toy.args) Toy.corpus
                (AdvBert.new (Toy.with_print_every 1 Toy.args) Toy.stalled).2
                0%nat (mkLoop 0 0 0 [] 0) Hc HK HP Hdue) as Hthm.
  cbv zeta in Hthm. destruct Hthm as (_ & _ & Hstalled).
  apply Hstalled. vm_compute. reflexivity.
Defined.


Lemma nonpositive_counts_leave_loops_empty_witness :
  let a := Toy.with_counts 0 0 Toy.args in
  let w := (AdvBert.new a Toy.world0).2 in
  constructed a Toy.corpus w
  /\ Args.n_epochs a <= 0
  /\ Args.n_refinement a <= 0
  /\ AdvBert.train_adv w
     = (Ok tt, mkWorld (ext w) (attrs w) (trace w ++ [ELog LogAdversarialTraining]))
  /\ AdvBert.refine w
     = (Ok tt, mkWorld (reload_best (ext w)) (attrs w)
                 (trace w ++ [ELog LogProcrustesRefinement; EReloadBest])).
Proof.
  cbv zeta.
  assert (Hc : constructed (Toy.with_counts 0 0 Toy.args) Toy.corpus
                 (AdvBert.new (Toy.with_counts 0 0 Toy.args) Toy.world0).2).
  { unfold constructed. vm_compute. repeat split. }
  assert (He : Args.n_epochs (Toy.with_counts 0 0 Toy.args) <= 0) by (simpl; lia).
  assert (Hr : Args.n_refinement (Toy.with_counts 0 0 Toy.args) <= 0) by (simpl; lia).
  pose proof (nonpositive_counts_leave_loops_empty (Toy.with_counts 0 0 Toy.args)
                Toy.corpus (AdvBert.new (Toy.with_counts 0 0 Toy.args) Toy.world0).2 Hc)
    as Hthm.
  cbv zeta in Hthm. destruct Hthm as (Htrain & _ & Hrefine).
  split_and!; [exact Hc | exact He | exact Hr | exact (Htrain He) | exact (Hrefine Hr)].
Defined.

Lemma main_returns_only_after_training_witness :
  let a := Toy.with_pred false Toy.args in
  exists w',
    main a Toy.world0 = (Ok tt, w')
    /\ Args.adversarial a = true
    /\ Args.pred a = false
    /\ Args.model_path a <> None.
Proof.
  cbv zeta.
  assert (Hm : { w' | main (Toy.with_pred false Toy.args) Toy.world0 = (Ok tt, w') })
    by (eexists; vm_compute; reflexivity).
  destruct Hm as [w' Hm]. exists w'.
  destruct (main_returns_only_after_training (Toy.with_pred false Toy.args)
              Toy.world0 w' Hm) as (_ & Hadv & Hpred & Hmp & _).
  split_and!; [exact Hm | exact Hadv | exact Hpred | exact Hmp].
Defined.



Lemma lower_casing_cannot_be_switched_off_witness :
  let c := Toy.cmdline (Some "dumped") (Some "corpus.txt") in
  Cmdline.do_lower_case c = false
  /\ exists w' a,
       main_cli c Toy.world0 = Some (Ok tt, w')
       /\ parse_args c = Some a
       /\ Args.do_lower_case a = true.
Proof.
  cbv zeta. split; [reflexivity|].
  assert (Hm : { w' | main_cli (Toy.cmdline (Some "dumped") (Some "corpus.txt")) Toy.world0
                      = Some (Ok tt, w') })
    by (eexists; vm_compute; reflexivity).
  destruct Hm as [w' Hm].
  destruct (lower_casing_cannot_be_switched_off _ _ _ _ Hm) as (a & Hp & Hlow & _).
  exists w', a. split_and!; [exact Hm | exact Hp | exact Hlow].
Defined.

Lemma paths_are_required_in_effect_witness :
  let c := Toy.cmdline None (Some "corpus.txt") in
  exists a,
    parse_args c = Some a
    /\ main_cli c Toy.world0
       = Some (Raise AssertionError,
               mkWorld (ext Toy.world0) (<["args" := VArgs a]> ∅) (trace Toy.world0)).
Proof.
  cbv zeta. eexists. split; [reflexivity|].
  refine (proj1 (paths_are_required_in_effect (Toy.cmdline None (Some "corpus.txt")) _
                   Toy.world0 eq_refl) eq_refl _).
  discriminate.
Defined.

Lemma default_configuration_trains_witness :
  let c := Toy.cmdline (Some "dumped") (Some "corpus.txt") in
  keeps_checked_defaults c
  /\ Cmdline.local_rank c = None
  /\ exists w',
       main_cli c Toy.world0 = Some (Ok tt, w')
       /\ phases_of (events_since Toy.world0 w') = [Adversarial]
       /\ (length (scores_of (events_since Toy.world0 w')) <= 10)%nat.
Proof.
  cbv zeta.
  assert (Hdef : keeps_checked_defaults (Toy.cmdline (Some "dumped") (Some "corpus.txt")))
    by (repeat split).
  split; [exact Hdef|]. split; [reflexivity|].
  assert (Hp : { a | parse_args (Toy.cmdline (Some "dumped") (Some "corpus.txt")) = Some a })
    by (eexists; reflexivity).
  destruct Hp as [a Hp].
  assert (Hfile : isfile "corpus.txt" (initialize_exp a (ext Toy.world0)) = true)
    by reflexivity.
  assert (Hadv : Cmdline.adversarial (Toy.cmdline (Some "dumped") (Some "corpus.txt"))
                 <> Some false) by discriminate.
  assert (Hpred : Cmdline.pred (Toy.cmdline (Some "dumped") (Some "corpus.txt"))
                  <> Some true) by discriminate.
  pose proof (default_configuration_trains _ a Toy.world0 "dumped" "corpus.txt"
                Hp Hdef eq_refl eq_refl Hfile Hadv Hpred eq_refl) as Hthm.
  cbv zeta in Hthm. destruct Hthm as (_ & r & w' & Hrun & _ & Hok & _ & Hret).
  injection Hp as <-.
  specialize (Hret eq_refl eq_refl toy_no_line_due). subst r.
  destruct (Hok eq_refl) as (_ & Hdefault).
  destruct (Hdefault eq_refl eq_refl) as (Hph & Hlen & _).
  exists w'. split_and!; [exact Hrun | exact Hph | exact Hlen].
Defined.
